(** * Masked running normalisation: [Norm] and [ConditionedNorm]

    A shallow embedding of [padertorch/contrib/je/modules/norm.py].

    - A tensor is a shape together with its entries in row-major order.
      The torch operations the module uses -- [sum] with [keepdim],
      arithmetic with broadcasting, [expand], [cat], indexing by an integer
      array, [max] -- are functions on this record, with the shape errors
      torch raises.
    - Entries are exact rationals: every statement below is about the
      arithmetic the code writes down, not about the rounding of a float
      format.  Division is the division of [Q], which is total and gives
      [x / 0 == 0]; torch gives [inf] or [nan] there and does not raise
      either.  Where the code divides by zero is a statement of its own
      (see the degenerate windows in [NormClaims]).
    - What the forward pass returns where a value is not finite is the
      subject of a second embedding of it, [FloatNorm], over any arithmetic
      of floats; [Ieee] has the infinities and [nan].
    - [torch.sqrt] is an argument ([fsqrt]) of everything that calls it, so
      the results hold for every square-root function.
    - A Python exception is a [Raise] result of a small error monad; a
      method that mutates the module returns the module after the call.
    - Gradients are not modelled: [.data] is the identity. *)

From Stdlib Require Import List Arith Bool Lia ZArith QArith Lqa Ascii.
From Stdlib Require Import Sorted Permutation.
From Stdlib Require String.
Import ListNotations.
Import String.StringSyntax.

(** ** Python results *)

Module Py.

Inductive exn : Set :=
| ValueError | TypeError | IndexError | AssertionError
| AttributeError | RuntimeError.

Inductive result (A : Type) : Type :=
| Ok (a : A)
| Raise (e : exn).

Arguments Ok {A} a.
Arguments Raise {A} e.

Definition bind {A B : Type} (m : result A) (k : A -> result B) : result B :=
  match m with
  | Ok a => k a
  | Raise e => Raise e
  end.

Definition assert (b : bool) : result unit :=
  if b then Ok tt else Raise AssertionError.

End Py.

Notation "x <- m ;; k" := (Py.bind m (fun x => k))
  (at level 61, m at next level, right associativity).
Notation "' p <- m ;; k" := (Py.bind m (fun x => let 'p := x in k))
  (at level 61, p pattern, m at next level, right associativity).

(** ** Tensors *)

Module Tensor.

Open Scope Q_scope.

Record tensor : Type := mk_tensor { shape : list nat; data : list Q }.

Definition numel (sh : list nat) : nat := fold_right Nat.mul 1%nat sh.

(** All multi-indices of a shape, in row-major (storage) order. *)
Fixpoint indices (sh : list nat) : list (list nat) :=
  match sh with
  | [] => [[]]
  | n :: sh' => flat_map (fun k => map (cons k) (indices sh')) (seq 0 n)
  end.

(** Storage offset of a multi-index. *)
Fixpoint ravel (sh i : list nat) : nat :=
  match sh, i with
  | _ :: sh', k :: i' => (k * numel sh' + ravel sh' i')%nat
  | _, _ => 0%nat
  end.

Definition tabulate (sh : list nat) (f : list nat -> Q) : tensor :=
  mk_tensor sh (map f (indices sh)).

Definition tget (t : tensor) (i : list nat) : Q :=
  nth (ravel (shape t) i) (data t) 0.

Definition valid_index (sh i : list nat) : Prop := Forall2 lt i sh.

Definition wf (t : tensor) : Prop := length (data t) = numel (shape t).

Definition tmap (f : Q -> Q) (t : tensor) : tensor :=
  tabulate (shape t) (fun i => f (tget t i)).

Definition full_like (t : tensor) (v : Q) : tensor :=
  tabulate (shape t) (fun _ => v).

Definition full (sh : list nat) (v : Q) : tensor := tabulate sh (fun _ => v).

Definition tscalar (v : Q) : tensor := mk_tensor [] [v].

(** *** Broadcasting (shapes are aligned at their last axis) *)

Definition pad_left (n : nat) (sh : list nat) : list nat :=
  repeat 1%nat (n - length sh) ++ sh.

Definition bdim (m n : nat) : option nat :=
  if (m =? n)%nat then Some m
  else if (m =? 1)%nat then Some n
  else if (n =? 1)%nat then Some m
  else None.

Fixpoint bzip (a b : list nat) : option (list nat) :=
  match a, b with
  | [], [] => Some []
  | m :: a', n :: b' =>
      match bdim m n, bzip a' b' with
      | Some d, Some r => Some (d :: r)
      | _, _ => None
      end
  | _, _ => None
  end.

Definition broadcast_shapes (a b : list nat) : option (list nat) :=
  let n := Nat.max (length a) (length b) in
  bzip (pad_left n a) (pad_left n b).

(** Index into an operand of shape [s] for index [i] of the broadcast
    result: the leading axes the operand lacks are dropped, and an axis
    of size one is read at 0. *)
Fixpoint bclip (s i : list nat) : list nat :=
  match s, i with
  | d :: s', k :: i' => (if (d =? 1)%nat then 0%nat else k) :: bclip s' i'
  | _, _ => []
  end.

Definition bidx (s i : list nat) : list nat :=
  bclip s (skipn (length i - length s) i).

Definition tbin (f : Q -> Q -> Q) (a b : tensor) : Py.result tensor :=
  match broadcast_shapes (shape a) (shape b) with
  | Some sh =>
      Py.Ok (tabulate sh (fun i =>
               f (tget a (bidx (shape a) i)) (tget b (bidx (shape b) i))))
  | None => Py.Raise Py.RuntimeError
  end.

Definition shape_eqb (a b : list nat) : bool :=
  if list_eq_dec Nat.eq_dec a b then true else false.

(** In-place [a op= b]: the result must have the shape of [a]. *)
Definition tbin_ (f : Q -> Q -> Q) (a b : tensor) : Py.result tensor :=
  r <- tbin f a b ;;
  if shape_eqb (shape r) (shape a) then Py.Ok r else Py.Raise Py.RuntimeError.

(** [t.expand(sh)] *)
Definition expand (t : tensor) (sh : list nat) : Py.result tensor :=
  match broadcast_shapes (shape t) sh with
  | Some sh' =>
      if shape_eqb sh' sh
      then Py.Ok (tabulate sh (fun i => tget t (bidx (shape t) i)))
      else Py.Raise Py.RuntimeError
  | None => Py.Raise Py.RuntimeError
  end.

(** *** Reductions with [keepdim=True] *)

Fixpoint mapi_from {A B : Type} (d : nat) (f : nat -> A -> B) (l : list A) : list B :=
  match l with
  | [] => []
  | a :: l' => f d a :: mapi_from (S d) f l'
  end.

Definition mem (d : nat) (axes : list nat) : bool :=
  existsb (Nat.eqb d) axes.

Definition reduce_shape (sh axes : list nat) : list nat :=
  mapi_from 0 (fun d n => if mem d axes then 1%nat else n) sh.

Definition proj (axes i : list nat) : list nat :=
  mapi_from 0 (fun d k => if mem d axes then 0%nat else k) i.

Definition idx_eqb (i j : list nat) : bool :=
  if list_eq_dec Nat.eq_dec i j then true else false.

Definition qsum (l : list Q) : Q := fold_right Qplus 0 l.

(** The positions of [sh] that are summed into position [j] of the result. *)
Definition window (sh axes j : list nat) : list (list nat) :=
  filter (fun i => idx_eqb (proj axes i) j) (indices sh).

Fixpoint nodupb (l : list nat) : bool :=
  match l with
  | [] => true
  | a :: l' => negb (mem a l') && nodupb l'
  end.

(** The axes a reduction over [dim=axes] runs over: an empty tuple stands
    for every axis. *)
Definition reduce_axes (axes : list nat) (rank : nat) : list nat :=
  match axes with
  | [] => seq 0 rank
  | _ => axes
  end.

(** [t.sum(dim=axes, keepdim=True)].  An axis that the tensor does not have
    is an [IndexError], a repeated axis a [RuntimeError]. *)
Definition tsum (t : tensor) (axes : list nat) : Py.result tensor :=
  if negb (forallb (fun d => d <? length (shape t))%nat axes)
  then Py.Raise Py.IndexError
  else if negb (nodupb axes) then Py.Raise Py.RuntimeError
  else
    let ax := reduce_axes axes (length (shape t)) in
    Py.Ok (tabulate (reduce_shape (shape t) ax)
             (fun j => qsum (map (tget t) (window (shape t) ax j)))).

Definition fmax (a b : Q) : Q := if Qle_bool a b then b else a.

(** [t.max().item()] *)
Definition tmax_all (t : tensor) : Py.result Q :=
  match data t with
  | [] => Py.Raise Py.RuntimeError
  | q :: l => Py.Ok (fold_left fmax l q)
  end.

(** *** Rows along axis 0 *)

Definition row_size (t : tensor) : nat := numel (tl (shape t)).

Definition row (t : tensor) (i : nat) : list Q :=
  firstn (row_size t) (skipn (i * row_size t) (data t)).

Definition nrows (t : tensor) : nat := hd 0%nat (shape t).

(** [t[idx]] for an integer array [idx] (numpy and torch): row [idx[k]] of
    [t] becomes row [k]; an index that is not a row is an [IndexError]. *)
Definition index0 (t : tensor) (idx : list nat) : Py.result tensor :=
  match shape t with
  | [] => Py.Raise Py.IndexError
  | n :: rest =>
      if forallb (fun i => i <? n)%nat idx
      then Py.Ok (mk_tensor (length idx :: rest) (flat_map (row t) idx))
      else Py.Raise Py.IndexError
  end.

(** [torch.cat(ts, dim=0)] *)
Definition cat0 (ts : list tensor) : Py.result tensor :=
  match ts with
  | [] => Py.Raise Py.RuntimeError
  | t0 :: _ =>
      match shape t0 with
      | [] => Py.Raise Py.RuntimeError
      | _ :: rest =>
          if forallb (fun t => negb (shape_eqb (shape t) [])
                               && shape_eqb (tl (shape t)) rest) ts
          then Py.Ok (mk_tensor (fold_right Nat.add 0%nat (map nrows ts) :: rest)
                        (flat_map data ts))
          else Py.Raise Py.RuntimeError
      end
  end.

End Tensor.

(** ** The [Norm] module *)

Module Norm.

Import Tensor.
Open Scope Q_scope.

(** An instance: the attributes [__init__] sets, the registered buffers
    ([None] when registered as an absent parameter), the parameters of the
    [Scale] and [Shift] sub-modules, and [torch.nn.Module.training], which
    is [True] on a new module.  [scale] is the constructor argument as
    given: a boolean, or [None]. *)
Record t : Type := mk {
  data_format : String.string;
  batch_axis : nat;
  sequence_axis : nat;
  statistics_axis : list nat;
  scale : option bool;
  eps : Q;
  track_running_stats : bool;
  num_tracked_values : option tensor;
  running_mean : option tensor;
  running_power : option tensor;
  momentum : option Q;
  learnable_scale : option tensor;
  learnable_shift : option tensor;
  n_freeze : option Q;
  training : bool
}.

(** Python truth value of [scale]. *)
Definition truthy (s : option bool) : bool :=
  match s with Some true => true | _ => false end.

Definition is_not_None {A : Type} (o : option A) : bool :=
  match o with Some _ => true | None => false end.

(** *** Strings *)

Definition lower (c : ascii) : ascii :=
  let n := nat_of_ascii c in
  if ((65 <=? n) && (n <=? 90))%nat then ascii_of_nat (n + 32) else c.

Fixpoint str_lower (s : String.string) : String.string :=
  match s with
  | String.EmptyString => String.EmptyString
  | String.String c s' => String.String (lower c) (str_lower s')
  end.

Fixpoint find_from (d : nat) (s : list ascii) (c : ascii) : option nat :=
  match s with
  | [] => None
  | a :: s' => if Ascii.eqb a c then Some d else find_from (S d) s' c
  end.

(** [s.index(c)] *)
Definition str_index (s : String.string) (c : ascii) : Py.result nat :=
  match find_from 0 (String.list_ascii_of_string s) c with
  | Some d => Py.Ok d
  | None => Py.Raise Py.ValueError
  end.

Definition str_contains (s : String.string) (c : ascii) : bool :=
  existsb (Ascii.eqb c) (String.list_ascii_of_string s).

Fixpoint mapM {A B : Type} (f : A -> Py.result B) (l : list A) : Py.result (list B) :=
  match l with
  | [] => Py.Ok []
  | a :: l' => b <- f a ;; r <- mapM f l' ;; Py.Ok (b :: r)
  end.

(** *** Construction *)

(** [l[i] = v] on a Python list. *)
Fixpoint set_item {A : Type} (l : list A) (i : nat) (v : A) : Py.result (list A) :=
  match l, i with
  | [], _ => Py.Raise Py.IndexError
  | _ :: l', O => Py.Ok (v :: l')
  | a :: l', S i' => r <- set_item l' i' v ;; Py.Ok (a :: r)
  end.

Fixpoint set_items {A : Type} (l : list A) (idx : list nat) (v : A) : Py.result (list A) :=
  match idx with
  | [] => Py.Ok l
  | i :: idx' => l' <- set_item l i v ;; set_items l' idx' v
  end.

Definition get_item {A : Type} (l : list A) (i : nat) : Py.result A :=
  match nth_error l i with
  | Some a => Py.Ok a
  | None => Py.Raise Py.IndexError
  end.

(** The shape of the parameter of [Scale] and of [Shift]: one on every
    axis, [shape[ax]] on the independent axes. *)
Fixpoint affine_shape (shape : option (list (option nat))) (data_format : String.string)
    (independent_axis : list ascii) (reduced_shape : list nat) : Py.result (list nat) :=
  match independent_axis with
  | [] => Py.Ok reduced_shape
  | ax :: rest =>
      ax <- str_index data_format (lower ax) ;;
      match shape with
      | None => Py.Raise Py.TypeError
      | Some sh =>
          d <- get_item sh ax ;;
          match d with
          | None => Py.Raise Py.AssertionError
          | Some n =>
              r <- set_item reduced_shape ax n ;;
              affine_shape shape data_format rest r
          end
      end
  end.

(** [Shift.__init__]: the parameter [shift]. *)
Definition Shift_init (shape : option (list (option nat))) (data_format : String.string)
    (independent_axis : String.string) : Py.result tensor :=
  sh <- affine_shape shape data_format (String.list_ascii_of_string independent_axis)
          (repeat 1%nat (String.length data_format)) ;;
  Py.Ok (full sh 0).

(** [Scale.__init__]: the parameter [scale]. *)
Definition Scale_init (shape : option (list (option nat))) (data_format : String.string)
    (independent_axis : String.string) : Py.result tensor :=
  sh <- affine_shape shape data_format (String.list_ascii_of_string independent_axis)
          (repeat 1%nat (String.length data_format)) ;;
  Py.Ok (full sh 1).

(** The arguments of [Norm.__init__]. *)
Record args : Type := mk_args {
  a_data_format : String.string;
  a_shape : option (list (option nat));
  a_statistics_axis : String.string;
  a_independent_axis : option String.string;
  a_batch_axis : ascii;
  a_sequence_axis : ascii;
  a_scale : option bool;
  a_eps : Q;
  a_momentum : option Q;
  a_n_freeze : option Q
}.

(** Lines 145-148: [reduced_shape], with the assertion that no entry of it
    is [None]. *)
Definition reduced_shape (shape : option (list (option nat))) (statistics_axis : list nat)
  : Py.result (list nat) :=
  match shape with
  | None => Py.Raise Py.TypeError
  | Some sh =>
      r <- set_items sh statistics_axis (Some 1%nat) ;;
      _ <- Py.assert (negb (existsb (fun d => negb (is_not_None d)) r)) ;;
      Py.Ok (map (fun d => match d with Some n => n | None => 0%nat end) r)
  end.

(** Lines 134-177.  The axes are looked up in [data_format] as given;
    whether running statistics are tracked is the test
    [batch_axis in statistics_axis] on the arguments as given. *)
Definition init (a : args) : Py.result t :=
  let data_format := a_data_format a in
  batch_axis <- str_index data_format (lower (a_batch_axis a)) ;;
  sequence_axis <- str_index data_format (lower (a_sequence_axis a)) ;;
  statistics_axis <- mapM (fun ax => str_index data_format (lower ax))
                       (String.list_ascii_of_string (a_statistics_axis a)) ;;
  let track := str_contains (a_statistics_axis a) (a_batch_axis a) in
  '(count, mean, power) <-
     (if track then
        rs <- reduced_shape (a_shape a) statistics_axis ;;
        Py.Ok (Some (full rs 0), Some (full rs 0),
               if truthy (a_scale a) then Some (full rs 1) else None)
      else Py.Ok (None, None, None)) ;;
  '(lscale, lshift) <-
     match a_independent_axis a with
     | Some ia =>
         sc <- Scale_init (a_shape a) data_format ia ;;
         sh <- Shift_init (a_shape a) data_format ia ;;
         Py.Ok (Some sc, Some sh)
     | None => Py.Ok (None, None)
     end ;;
  Py.Ok {| data_format := str_lower data_format;
           batch_axis := batch_axis;
           sequence_axis := sequence_axis;
           statistics_axis := statistics_axis;
           scale := a_scale a;
           eps := a_eps a;
           track_running_stats := track;
           num_tracked_values := count;
           running_mean := mean;
           running_power := power;
           momentum := a_momentum a;
           learnable_scale := lscale;
           learnable_shift := lshift;
           n_freeze := a_n_freeze a;
           training := true |}.

(** *** State updates *)

Definition set_buffers (nm : t) (count mean power : option tensor) : t :=
  {| data_format := data_format nm;
     batch_axis := batch_axis nm;
     sequence_axis := sequence_axis nm;
     statistics_axis := statistics_axis nm;
     scale := scale nm;
     eps := eps nm;
     track_running_stats := track_running_stats nm;
     num_tracked_values := count;
     running_mean := mean;
     running_power := power;
     momentum := momentum nm;
     learnable_scale := learnable_scale nm;
     learnable_shift := learnable_shift nm;
     n_freeze := n_freeze nm;
     training := training nm |}.

Definition set_affine (nm : t) (lscale lshift : option tensor) : t :=
  {| data_format := data_format nm;
     batch_axis := batch_axis nm;
     sequence_axis := sequence_axis nm;
     statistics_axis := statistics_axis nm;
     scale := scale nm;
     eps := eps nm;
     track_running_stats := track_running_stats nm;
     num_tracked_values := num_tracked_values nm;
     running_mean := running_mean nm;
     running_power := running_power nm;
     momentum := momentum nm;
     learnable_scale := lscale;
     learnable_shift := lshift;
     n_freeze := n_freeze nm;
     training := training nm |}.

(** [module.train(mode)] *)
Definition train (mode : bool) (nm : t) : t :=
  {| data_format := data_format nm;
     batch_axis := batch_axis nm;
     sequence_axis := sequence_axis nm;
     statistics_axis := statistics_axis nm;
     scale := scale nm;
     eps := eps nm;
     track_running_stats := track_running_stats nm;
     num_tracked_values := num_tracked_values nm;
     running_mean := running_mean nm;
     running_power := running_power nm;
     momentum := momentum nm;
     learnable_scale := learnable_scale nm;
     learnable_shift := learnable_shift nm;
     n_freeze := n_freeze nm;
     training := mode |}.

(** A method call on a buffer that may be [None]. *)
Definition attr {A : Type} (o : option A) : Py.result A :=
  match o with
  | Some a => Py.Ok a
  | None => Py.Raise Py.AttributeError
  end.

(** The property [freezed]; [and] evaluates its operands left to right and
    stops at the first false one. *)
Definition freezed (nm : t) : Py.result bool :=
  match n_freeze nm with
  | None => Py.Ok false
  | Some k =>
      if track_running_stats nm then
        count <- attr (num_tracked_values nm) ;;
        m <- tmax_all count ;;
        Py.Ok (Qle_bool k m)
      else Py.Ok false
  end.

(** Lines 187-192; the test of line 191 is [self.scale is not None]. *)
Definition reset_running_stats (nm : t) : Py.result t :=
  if track_running_stats nm then
    mean <- attr (running_mean nm) ;;
    count <- attr (num_tracked_values nm) ;;
    if is_not_None (scale nm) then
      power <- attr (running_power nm) ;;
      Py.Ok (set_buffers nm (Some (full_like count 0)) (Some (full_like mean 0))
               (Some (full_like power 1)))
    else
      Py.Ok (set_buffers nm (Some (full_like count 0)) (Some (full_like mean 0))
               (running_power nm))
  else Py.Ok nm.

(** Lines 194-199. *)
Definition reset_parameters (nm : t) : Py.result t :=
  nm <- reset_running_stats nm ;;
  Py.Ok (set_affine nm
           (option_map (fun p => full_like p 1) (learnable_scale nm))
           (option_map (fun p => full_like p 0) (learnable_shift nm))).

(** *** The forward pass *)

Definition of_nat (n : nat) : Q := inject_Z (Z.of_nat n).

(** [(a < b).float()] *)
Definition lt_float (a b : Q) : Q := if Qle_bool b a then 0 else 1.

(** Lines 236-248.  The lengths get one trailing axis of size one for every
    axis of [x] after the batch axis, the positions one for every axis after
    the sequence axis; their comparison is expanded to the shape of [x]. *)
Definition compute_mask (nm : t) (x : tensor) (seq_len : option (list nat))
  : Py.result tensor :=
  match seq_len with
  | Some sl =>
      let dim := length (shape x) in
      let seq_len := tabulate (length sl :: repeat 1%nat (dim - (batch_axis nm + 1)))
                       (fun i => of_nat (nth (hd 0%nat i) sl 0%nat)) in
      n <- get_item (shape x) (sequence_axis nm) ;;
      let idx := tabulate (n :: repeat 1%nat (dim - (sequence_axis nm + 1)))
                   (fun i => of_nat (hd 0%nat i)) in
      lt <- tbin lt_float idx seq_len ;;
      expand lt (shape x)
  | None => Py.Ok (full_like x 1)
  end.

(** Lines 250-257; [x ** 2] is [x * x]. *)
Definition compute_stats (nm : t) (x mask : tensor)
  : Py.result (tensor * option tensor * tensor) :=
  n_values <- tsum mask (statistics_axis nm) ;;
  x <- tbin Qmult x mask ;;
  s <- tsum x (statistics_axis nm) ;;
  d <- tbin fmax n_values (full_like n_values 1) ;;
  mean <- tbin Qdiv s d ;;
  if negb (truthy (scale nm)) then Py.Ok (mean, None, n_values)
  else
    s2 <- tsum (tmap (fun v => v * v) x) (statistics_axis nm) ;;
    d <- tbin fmax n_values (full_like n_values 1) ;;
    power <- tbin Qdiv s2 d ;;
    Py.Ok (mean, Some power, n_values).

(** The condition of line 203: [or] and [and] stop as soon as the value is
    known, so [freezed] is only read in training mode. *)
Definition estimate_mode (nm : t) : Py.result bool :=
  if training nm then
    f <- freezed nm ;;
    if negb f then Py.Ok true else Py.Ok (negb (track_running_stats nm))
  else Py.Ok (negb (track_running_stats nm)).

Section WithSqrt.

Variable fsqrt : Q -> Q.

(** [n / (n - 1.) * (power - mean ** 2)] with
    [n = torch.max(count, 2. * torch.ones_like(count))] (lines 207-208 and
    224-227). *)
Definition variance (count power mean : tensor) : Py.result tensor :=
  n <- tbin fmax count (tmap (fun v => 2 * v) (full_like count 1)) ;;
  r <- tbin Qdiv n (tmap (fun v => v - 1) n) ;;
  d <- tbin Qminus power (tmap (fun v => v * v) mean) ;;
  tbin Qmult r d.

(** [x / (torch.sqrt(var) + self.eps)] (lines 209 and 228). *)
Definition normalize (nm : t) (x var : tensor) : Py.result tensor :=
  tbin Qdiv x (tmap (fun v => fsqrt v + eps nm) var).

(** Lines 210-220. *)
Definition update_running_stats (nm : t) (mean : tensor) (power : option tensor)
    (n_values : tensor) : Py.result t :=
  count <- attr (num_tracked_values nm) ;;
  count <- tbin_ Qplus count n_values ;;
  momentum <-
    match momentum nm with
    | None => r <- tbin Qdiv n_values count ;; Py.Ok (tmap (fun v => 1 - v) r)
    | Some m => Py.Ok (tscalar m)
    end ;;
  rmean <- attr (running_mean nm) ;;
  rmean <- tbin_ Qmult rmean momentum ;;
  new <- tbin Qmult (tmap (fun v => 1 - v) momentum) mean ;;
  rmean <- tbin_ Qplus rmean new ;;
  if truthy (scale nm) then
    rpower <- attr (running_power nm) ;;
    rpower <- tbin_ Qmult rpower momentum ;;
    power <- attr power ;;
    new <- tbin Qmult (tmap (fun v => 1 - v) momentum) power ;;
    rpower <- tbin_ Qplus rpower new ;;
    Py.Ok (set_buffers nm (Some count) (Some rmean) (Some rpower))
  else
    Py.Ok (set_buffers nm (Some count) (Some rmean) (running_power nm)).

(** Lines 204-220. *)
Definition estimate (nm : t) (x mask : tensor) : Py.result (tensor * t) :=
  '(mean, power, n_values) <- compute_stats nm x mask ;;
  x <- tbin Qminus x mean ;;
  x <- (if truthy (scale nm) then
          power <- attr power ;;
          var <- variance n_values power mean ;;
          normalize nm x var
        else Py.Ok x) ;;
  nm <- (if track_running_stats nm
         then update_running_stats nm mean power n_values
         else Py.Ok nm) ;;
  Py.Ok (x, nm).

(** Lines 222-228. *)
Definition replay (nm : t) (x : tensor) : Py.result tensor :=
  rmean <- attr (running_mean nm) ;;
  x <- tbin Qminus x rmean ;;
  if truthy (scale nm) then
    count <- attr (num_tracked_values nm) ;;
    rpower <- attr (running_power nm) ;;
    var <- variance count rpower rmean ;;
    normalize nm x var
  else Py.Ok x.

(** Lines 230-234. *)
Definition affine (lscale lshift : option tensor) (x : tensor) : Py.result tensor :=
  x <- match lscale with
       | Some s => tbin Qmult x s
       | None => Py.Ok x
       end ;;
  match lshift with
  | Some s => tbin Qminus x s
  | None => Py.Ok x
  end.

(** Lines 201-234: the returned tensor and the module after the call. *)
Definition forward (nm : t) (x : tensor) (seq_len : option (list nat))
  : Py.result (tensor * t) :=
  mask <- compute_mask nm x seq_len ;;
  est <- estimate_mode nm ;;
  '(x, nm) <- (if est then estimate nm x mask
               else x <- replay nm x ;; Py.Ok (x, nm)) ;;
  x <- affine (learnable_scale nm) (learnable_shift nm) x ;;
  x <- tbin Qmult x mask ;;
  Py.Ok (x, nm).

End WithSqrt.

End Norm.

(** ** The [ConditionedNorm] module *)

Module ConditionedNorm.

Import Tensor.
Open Scope Q_scope.

Record t : Type := mk {
  n_conditions : nat;
  norms : list Norm.t;
  learnable_scale : option tensor;
  learnable_shift : option tensor
}.

(** The arguments of [__init__]; [kwargs] are the keyword arguments handed
    on to every [Norm]. *)
Record args : Type := mk_args {
  a_n_conditions : nat;
  a_data_format : String.string;
  a_shape : option (list (option nat));
  a_independent_axis : option String.string;
  a_scale : option bool;
  a_statistics_axis : String.string;
  a_batch_axis : ascii;
  a_sequence_axis : ascii;
  a_eps : Q;
  a_momentum : option Q;
  a_n_freeze : option Q
}.

Definition norm_args (a : args) : Norm.args :=
  Norm.mk_args (a_data_format a) (a_shape a) (a_statistics_axis a) None
    (a_batch_axis a) (a_sequence_axis a) (a_scale a) (a_eps a) (a_momentum a)
    (a_n_freeze a).

(** Lines 303-330. *)
Definition init (a : args) : Py.result t :=
  norms <- Norm.mapM (fun _ => Norm.init (norm_args a)) (seq 0 (a_n_conditions a)) ;;
  n0 <- Norm.get_item norms 0 ;;
  _ <- Py.assert (Norm.batch_axis n0 =? 0)%nat ;;
  '(lscale, lshift) <-
     match a_independent_axis a with
     | Some ia =>
         sc <- Norm.Scale_init (a_shape a) (a_data_format a) ia ;;
         sh <- Norm.Shift_init (a_shape a) (a_data_format a) ia ;;
         Py.Ok (Some sc, Some sh)
     | None => Py.Ok (None, None)
     end ;;
  Py.Ok {| n_conditions := a_n_conditions a;
           norms := norms;
           learnable_scale := lscale;
           learnable_shift := lshift |}.

(** *** numpy helpers *)

Section Keyed.

Variable key : nat -> nat.

(** Insertion before the first entry whose key is not smaller. *)
Fixpoint insert_by (i : nat) (l : list nat) : list nat :=
  match l with
  | [] => [i]
  | j :: l' => if (key j <? key i)%nat then j :: insert_by i l' else i :: j :: l'
  end.

Definition sort_by (l : list nat) : list nat := fold_right insert_by [] l.

End Keyed.

(** [np.argsort(conditions)]: the indices of [conditions], by increasing
    value.  Equal values are kept in index order: the order an insertion
    sort gives, which is what numpy runs on short arrays, and the stable
    sort the specification describes.  On long arrays numpy's default sort
    may leave equal values in another order; [is_argsort] below says what
    every such order has in common. *)
Definition argsort (conditions : list nat) : list nat :=
  sort_by (fun i => nth i conditions 0%nat) (seq 0 (length conditions)).

Fixpoint sortedb (l : list nat) : bool :=
  match l with
  | a :: ((b :: _) as l') => (a <=? b)%nat && sortedb l'
  | _ => true
  end.

(** What [np.argsort] promises of its result, whatever sorting algorithm
    runs: [sort_idx] lists every position of [conditions] once, and the
    values read in that order do not decrease.  The order among equal
    values is left open: numpy's default sort is not stable on long
    arrays. *)
Definition is_argsort (conditions sort_idx : list nat) : bool :=
  (length sort_idx =? length conditions)%nat
  && forallb (fun i => i <? length conditions)%nat sort_idx
  && nodupb sort_idx
  && sortedb (map (fun i => nth i conditions 0%nat) sort_idx).

Fixpoint insert_set (c : nat) (l : list nat) : list nat :=
  match l with
  | [] => [c]
  | d :: l' =>
      if (c <? d)%nat then c :: d :: l'
      else if (c =? d)%nat then d :: l'
      else d :: insert_set c l'
  end.

(** [sorted(set(l))] *)
Definition sorted_set (l : list nat) : list nat := fold_right insert_set [] l.

(** [np.argwhere(conditions == c).flatten()] *)
Definition argwhere (conditions : list nat) (c : nat) : list nat :=
  filter (fun j => (nth j conditions 0%nat =? c)%nat) (seq 0 (length conditions)).

(** [a[idx]] on a one-dimensional array. *)
Definition take {A : Type} (a : list A) (idx : list nat) : Py.result (list A) :=
  Norm.mapM (Norm.get_item a) idx.

(** [a[idx] = vals] on a one-dimensional array: [vals] has the length of
    [idx], or is a single value used for every index. *)
Fixpoint put_each (a : list nat) (idx vals : list nat) : Py.result (list nat) :=
  match idx, vals with
  | i :: idx', v :: vals' => a' <- Norm.set_item a i v ;; put_each a' idx' vals'
  | _, _ => Py.Ok a
  end.

Definition put (a idx vals : list nat) : Py.result (list nat) :=
  if (length vals =? length idx)%nat then put_each a idx vals
  else if (length vals =? 1)%nat
       then put_each a idx (repeat (hd 0%nat vals) (length idx))
       else Py.Raise Py.ValueError.

Definition option_take {A : Type} (a : option (list A)) (idx : list nat)
  : Py.result (option (list A)) :=
  match a with
  | Some l => r <- take l idx ;; Py.Ok (Some r)
  | None => Py.Ok None
  end.

Section WithSqrt.

Variable fsqrt : Q -> Q.

(** Lines 345-354: each condition's normaliser is called on its rows, in
    the order of [conditions_set]; the calls update [norms]. *)
Fixpoint apply_norms (norms : list Norm.t) (x : tensor) (seq_len : option (list nat))
    (groups : list (nat * list nat)) : Py.result (list tensor * list Norm.t) :=
  match groups with
  | [] => Py.Ok ([], norms)
  | (c, idx_array) :: rest =>
      nm <- Norm.get_item norms c ;;
      xc <- index0 x idx_array ;;
      sl <- option_take seq_len idx_array ;;
      '(y, nm) <- Norm.forward fsqrt nm xc sl ;;
      norms <- Norm.set_item norms c nm ;;
      '(ys, norms) <- apply_norms norms x seq_len rest ;;
      Py.Ok (y :: ys, norms)
  end.

(** Lines 333 and 335-363, for the value [sort_idx] that line 334 gives.
    As in the source, [seq_len] and [conditions] are rebound to their sorted
    copies (lines 339 and 340), and the mask of line 361 is computed from
    the [seq_len] so rebound. *)
Definition forward_sorted (sort_idx : list nat) (cn : t) (x : tensor)
    (conditions : list nat) (seq_len : option (list nat)) : Py.result (tensor * t) :=
  n <- Norm.get_item (shape x) 0 ;;
  let idx := seq 0 n in
  reverse_idx <- put (map (fun _ => 0%nat) idx) sort_idx idx ;;
  x <- index0 x sort_idx ;;
  seq_len <- option_take seq_len sort_idx ;;
  conditions <- take conditions sort_idx ;;
  let conditions_set := sorted_set conditions in
  let idx_arrays := map (argwhere conditions) conditions_set in
  '(ys, norms) <- apply_norms (norms cn) x seq_len (combine conditions_set idx_arrays) ;;
  x <- cat0 ys ;;
  x <- index0 x reverse_idx ;;
  x <- match learnable_scale cn with
       | Some s => tbin Qmult x s
       | None => Py.Ok x
       end ;;
  x <- match learnable_shift cn with
       | Some s =>
           x <- tbin Qminus x s ;;
           n0 <- Norm.get_item norms 0 ;;
           mask <- Norm.compute_mask n0 x seq_len ;;
           tbin Qmult x mask
       | None => Py.Ok x
       end ;;
  Py.Ok (x, {| n_conditions := n_conditions cn;
               norms := norms;
               learnable_scale := learnable_scale cn;
               learnable_shift := learnable_shift cn |}).

(** Lines 332-363, with the sort of line 334 that keeps equal conditions in
    their order. *)
Definition forward (cn : t) (x : tensor) (conditions : list nat)
    (seq_len : option (list nat)) : Py.result (tensor * t) :=
  forward_sorted (argsort conditions) cn x conditions seq_len.

End WithSqrt.

End ConditionedNorm.

(** ** Inputs a normaliser accepts *)

Module NormSpec.

Import Tensor.
Open Scope Q_scope.

(** The axes [x.sum(dim=statistics_axis)] reduces over. *)
Definition stat_axes (nm : Norm.t) (sh : list nat) : list nat :=
  reduce_axes (Norm.statistics_axis nm) (length sh).

(** The shape of the statistics of an input of shape [sh]. *)
Definition stat_shape (nm : Norm.t) (sh : list nat) : list nat :=
  reduce_shape sh (stat_axes nm sh).

Definition has_shape (o : option tensor) (sh : list nat) : bool :=
  match o with
  | Some t => shape_eqb (shape t) sh
  | None => false
  end.

Definition fitsb (a r : list nat) : bool :=
  match broadcast_shapes a r with
  | Some r' => shape_eqb r' r
  | None => false
  end.

Definition param_fits (o : option tensor) (sh : list nat) : bool :=
  match o with
  | Some p => fitsb (shape p) sh
  | None => true
  end.

Definition nonempty (o : option tensor) : bool :=
  match o with
  | Some t => match data t with [] => false | _ => true end
  | None => false
  end.

(** An input of shape [sh] with lengths [seq_len] matches the instance:
    the instance's axes are axes of the input, there is one length per
    batch entry, the buffers have the shape of the input's statistics (and
    are not empty where [freezed] takes their maximum) and the affine
    parameters broadcast into the input. *)
Definition accepts (nm : Norm.t) (sh : list nat) (seq_len : option (list nat)) : bool :=
  forallb (fun d => d <? length sh)%nat (Norm.statistics_axis nm)
  && nodupb (Norm.statistics_axis nm)
  && match seq_len with
     | None => true
     | Some l =>
         (Norm.batch_axis nm <? length sh)%nat
         && (Norm.sequence_axis nm <? length sh)%nat
         && (length l =? nth (Norm.batch_axis nm) sh 0%nat)%nat
     end
  && (if Norm.track_running_stats nm then
        has_shape (Norm.num_tracked_values nm) (stat_shape nm sh)
        && has_shape (Norm.running_mean nm) (stat_shape nm sh)
        && (if Norm.truthy (Norm.scale nm)
            then has_shape (Norm.running_power nm) (stat_shape nm sh) else true)
        && (if Norm.is_not_None (Norm.n_freeze nm)
            then nonempty (Norm.num_tracked_values nm)
                 && negb (numel (stat_shape nm sh) =? 0)%nat
            else true)
      else true)
  && param_fits (Norm.learnable_scale nm) sh
  && param_fits (Norm.learnable_shift nm) sh.

(** The mask entry at index [i]: 1.0 where the position along the sequence
    axis is below the length of the batch entry, else 0.0. *)
Definition mask_at (nm : Norm.t) (seq_len : option (list nat)) (i : list nat) : Q :=
  match seq_len with
  | Some l =>
      Norm.lt_float (Norm.of_nat (nth (Norm.sequence_axis nm) i 0%nat))
        (Norm.of_nat (nth (nth (Norm.batch_axis nm) i 0%nat) l 0%nat))
  | None => 1
  end.

(** An instance without axes or buffers, the default where a list of
    instances is read. *)
Definition no_norm : Norm.t :=
  Norm.mk String.EmptyString 0 0 [] None 0 false None None None None None None None false.

(** Index [i] lies in the padding of its batch entry. *)
Definition padded (nm : Norm.t) (seq_len : list nat) (i : list nat) : Prop :=
  (nth (nth (Norm.batch_axis nm) i 0 ) seq_len 0 <= nth (Norm.sequence_axis nm) i 0)%nat.

End NormSpec.

(** ** Closed forms of the statistics *)

Module Stats.

Import Tensor NormSpec.
Open Scope Q_scope.

(** Number of valid positions in the window of entry [j]. *)
Definition count_at (nm : Norm.t) (mask : tensor) (j : list nat) : Q :=
  qsum (map (tget mask) (window (shape mask) (stat_axes nm (shape mask)) j)).

(** Sum of [g (x * mask)] over the window of entry [j]. *)
Definition sum_at (nm : Norm.t) (g : Q -> Q) (x mask : tensor) (j : list nat) : Q :=
  qsum (map (fun i => g (tget x i * tget mask i))
          (window (shape x) (stat_axes nm (shape x)) j)).

Definition moment_at (nm : Norm.t) (g : Q -> Q) (x mask : tensor) (j : list nat) : Q :=
  sum_at nm g x mask j / fmax (count_at nm mask j) 1.

Definition mean_of (nm : Norm.t) (x mask : tensor) : tensor :=
  tabulate (stat_shape nm (shape x)) (moment_at nm (fun v => v) x mask).

Definition power_of (nm : Norm.t) (x mask : tensor) : tensor :=
  tabulate (stat_shape nm (shape x)) (moment_at nm (fun v => v * v) x mask).

Definition count_of (nm : Norm.t) (mask : tensor) : tensor :=
  tabulate (stat_shape nm (shape mask)) (count_at nm mask).

(** The count used for the variance, and the variance. *)
Definition clamp2 (n : Q) : Q := fmax n (2 * 1).

Definition var_at (n p m : Q) : Q := clamp2 n / (clamp2 n - 1) * (p - m * m).

(** [x] centred by [mean] and, when [scale] is on, divided by the standard
    deviation that [count], [power] and [mean] give; the statistics are
    read at the window of each entry. *)
Definition standardize (fsqrt : Q -> Q) (nm : Norm.t) (x mean count : tensor)
    (power : option tensor) : tensor :=
  tabulate (shape x) (fun i =>
    let j := proj (stat_axes nm (shape x)) i in
    match (if Norm.truthy (Norm.scale nm) then power else None) with
    | Some p =>
        (tget x i - tget mean j)
        / (fsqrt (var_at (tget count j) (tget p j) (tget mean j)) + Norm.eps nm)
    | None => tget x i - tget mean j
    end).

(** The momentum of one update, and the update. *)
Definition momentum_at (nm : Norm.t) (n count : Q) : Q :=
  match Norm.momentum nm with
  | Some m => m
  | None => 1 - n / count
  end.

Definition blend (m old new : Q) : Q := old * m + (1 - m) * new.

Definition new_count (count n_values : tensor) : tensor :=
  tabulate (shape count) (fun j => tget count j + tget n_values j).

Definition new_stat (nm : Norm.t) (count n_values old stat : tensor) : tensor :=
  tabulate (shape old) (fun j =>
    blend (momentum_at nm (tget n_values j) (tget (new_count count n_values) j))
      (tget old j) (tget stat j)).

(** The learnable scale and shift at entry [i]. *)
Definition affine_at (lscale lshift : option tensor) (v : Q) (i : list nat) : Q :=
  let v := match lscale with
           | Some s => v * tget s (bidx (shape s) i)
           | None => v
           end in
  match lshift with
  | Some s => v - tget s (bidx (shape s) i)
  | None => v
  end.

(** The value of [freezed] and of the condition of line 203. *)
Definition frozen (nm : Norm.t) : bool :=
  match Norm.n_freeze nm, Norm.num_tracked_values nm with
  | Some k, Some c =>
      Norm.track_running_stats nm
      && match data c with
         | [] => false
         | q :: l => Qle_bool k (fold_left fmax l q)
         end
  | _, _ => false
  end.

Definition estimating (nm : Norm.t) : bool :=
  (Norm.training nm && negb (frozen nm)) || negb (Norm.track_running_stats nm).

Definition mask_of (nm : Norm.t) (x : tensor) (seq_len : option (list nat)) : tensor :=
  tabulate (shape x) (mask_at nm seq_len).

(** The instance after the statistics of [x] under [mask] are accumulated. *)
Definition updated (nm : Norm.t) (x mask : tensor) : Norm.t :=
  match Norm.num_tracked_values nm, Norm.running_mean nm with
  | Some count, Some rmean =>
      Norm.set_buffers nm
        (Some (new_count count (count_of nm mask)))
        (Some (new_stat nm count (count_of nm mask) rmean (mean_of nm x mask)))
        (if Norm.truthy (Norm.scale nm)
         then match Norm.running_power nm with
              | Some rpower =>
                  Some (new_stat nm count (count_of nm mask) rpower (power_of nm x mask))
              | None => None
              end
         else Norm.running_power nm)
  | _, _ => nm
  end.

(** The instance and the tensor [forward] returns. *)
Definition forward_state (nm : Norm.t) (x : tensor) (seq_len : option (list nat)) : Norm.t :=
  if estimating nm && Norm.track_running_stats nm
  then updated nm x (mask_of nm x seq_len)
  else nm.

Definition normalized (fsqrt : Q -> Q) (nm : Norm.t) (x : tensor)
    (seq_len : option (list nat)) : tensor :=
  let mask := mask_of nm x seq_len in
  if estimating nm
  then standardize fsqrt nm x (mean_of nm x mask) (count_of nm mask)
         (Some (power_of nm x mask))
  else match Norm.running_mean nm, Norm.num_tracked_values nm with
       | Some rmean, Some count =>
           standardize fsqrt nm x rmean count (Norm.running_power nm)
       | _, _ => x
       end.

Definition forward_out (fsqrt : Q -> Q) (nm : Norm.t) (x : tensor)
    (seq_len : option (list nat)) : tensor :=
  tabulate (shape x) (fun i =>
    affine_at (Norm.learnable_scale nm) (Norm.learnable_shift nm)
      (tget (normalized fsqrt nm x seq_len) i) i
    * mask_at nm seq_len i).

End Stats.

(** ** Sequences of calls *)

Module Calls.

Import Tensor.

(** A sequence of forward calls; before each call the module is put in
    training ([true]) or evaluation ([false]) mode. *)
Fixpoint run (fsqrt : Q -> Q) (nm : Norm.t)
    (calls : list (bool * tensor * option (list nat)))
  : Py.result (list tensor * Norm.t) :=
  match calls with
  | [] => Py.Ok ([], nm)
  | (mode, x, seq_len) :: rest =>
      '(y, nm) <- Norm.forward fsqrt (Norm.train mode nm) x seq_len ;;
      '(ys, nm) <- run fsqrt nm rest ;;
      Py.Ok (y :: ys, nm)
  end.

End Calls.

(** ** Rows and batches of a [ConditionedNorm] *)

Module Rows.

Import Tensor.

(** The tensor made of the rows [idx] of [t], in the order of [idx]. *)
Definition gather (t : tensor) (idx : list nat) : tensor :=
  mk_tensor (length idx :: tl (shape t)) (flat_map (row t) idx).

End Rows.

Module CondSpec.

Import Tensor NormSpec.

(** A normaliser of a [ConditionedNorm] takes batches of any number of
    rows of shape [rest]: its batch axis is the first one, it has no affine
    step, and what it tracks is reduced over the batch. *)
Definition takes_rows (nm : Norm.t) (rest : list nat) : bool :=
  (Norm.batch_axis nm =? 0)%nat
  && accepts nm (1%nat :: rest) (Some [0%nat])
  && (negb (Norm.track_running_stats nm) || mem 0 (stat_axes nm (1%nat :: rest)))
  && negb (Norm.is_not_None (Norm.learnable_scale nm))
  && negb (Norm.is_not_None (Norm.learnable_shift nm)).

Definition lengths_ok (seq_len : option (list nat)) (n : nat) : bool :=
  match seq_len with
  | Some l => (length l =? n)%nat
  | None => true
  end.

(** A batch for a [ConditionedNorm] without shared affine step: a
    well-formed tensor with at least one row, one condition below
    [n_conditions] and one length per row. *)
Definition accepts (cn : ConditionedNorm.t) (x : tensor) (conditions : list nat)
    (seq_len : option (list nat)) : bool :=
  match shape x with
  | [] => false
  | n :: rest =>
      (length (data x) =? numel (shape x))%nat
      && negb (n =? 0)%nat
      && (length conditions =? n)%nat
      && lengths_ok seq_len n
      && forallb (fun c => c <? length (ConditionedNorm.norms cn))%nat conditions
      && forallb (fun nm => takes_rows nm rest) (ConditionedNorm.norms cn)
      && negb (Norm.is_not_None (ConditionedNorm.learnable_scale cn))
      && negb (Norm.is_not_None (ConditionedNorm.learnable_shift cn))
  end.

(** The lengths of the rows [idx]. *)
Definition lengths_of (seq_len : option (list nat)) (idx : list nat) : option (list nat) :=
  option_map (fun l => map (fun i => nth i l 0%nat) idx) seq_len.

(** The rows of condition [c], in the order in which [sort_idx] lists
    them. *)
Definition rows_of (conditions sort_idx : list nat) (c : nat) : list nat :=
  filter (fun i => (nth i conditions 0 =? c)%nat) sort_idx.

End CondSpec.

(** ** Concrete instances *)

Module Examples.

Import Tensor.
Open Scope Q_scope.
Open Scope string_scope.

(** A square root on the rationals, exact on squares. *)
Definition qsqrt (q : Q) : Q :=
  inject_Z (Z.sqrt (Qnum q * Zpos (Qden q))) / inject_Z (Zpos (Qden q)).

Definition the_norm (r : Py.result Norm.t) : Norm.t :=
  match r with Py.Ok nm => nm | Py.Raise _ => NormSpec.no_norm end.

(** The instance, input and lengths of the docstring of [Norm]. *)
Definition doc_args : Norm.args :=
  Norm.mk_args "bct" (Some [None; Some 10%nat; None]) "bt" (Some "c") "b" "t"
    (Some true) (1 # 100000) (Some (1 # 2)) None.

Definition doc_norm : Norm.t := Eval vm_compute in the_norm (Norm.init doc_args).

Definition doc_x : tensor := full [3; 10; 4]%nat 2.

Definition doc_seq_len : list nat := [1; 2; 3]%nat.

(** The same instance with a freeze threshold of 6 values. *)
Definition freeze_args : Norm.args :=
  Norm.mk_args "bct" (Some [None; Some 10%nat; None]) "bt" (Some "c") "b" "t"
    (Some true) (1 # 100000) (Some (1 # 2)) (Some 6).

Definition freeze_norm : Norm.t := Eval vm_compute in the_norm (Norm.init freeze_args).

(** The same instance with [scale=False]. *)
Definition plain_args : Norm.args :=
  Norm.mk_args "bct" (Some [None; Some 10%nat; None]) "bt" (Some "c") "b" "t"
    (Some false) (1 # 100000) (Some (1 # 2)) None.

Definition plain_norm : Norm.t := Eval vm_compute in the_norm (Norm.init plain_args).

(** One channel and two frames, statistics over the batch for every frame,
    [momentum=None]; an input of one example whose second frame is
    padding. *)
Definition adaptive_args : Norm.args :=
  Norm.mk_args "bct" (Some [None; Some 1%nat; Some 2%nat]) "b" (Some "c") "b" "t"
    (Some true) (1 # 100000) None None.

Definition adaptive_norm : Norm.t := Eval vm_compute in the_norm (Norm.init adaptive_args).

(** The docstring instance with no size given for the channel axis. *)
Definition open_shape : list (option nat) := [None; None; None].

Definition open_args : Norm.args :=
  Norm.mk_args "bct" (Some open_shape) "bt" None "b" "t"
    (Some true) (1 # 100000) (Some (1 # 2)) None.

Definition padding_x : tensor := full [1; 1; 2]%nat 1.

Definition padding_seq_len : list nat := [1]%nat.

Definition the_cond (r : Py.result ConditionedNorm.t) : ConditionedNorm.t :=
  match r with
  | Py.Ok cn => cn
  | Py.Raise _ => ConditionedNorm.mk 0 [] None None
  end.

(** Two conditions, one channel; the shared shift has been learnt to be 1. *)
Definition cond_args : ConditionedNorm.args :=
  ConditionedNorm.mk_args 2 "bct" (Some [None; Some 1%nat; None]) (Some "c")
    (Some true) "bt" "b" "t" (1 # 100000) (Some (1 # 2)) None.

Definition cond_norm : ConditionedNorm.t :=
  Eval vm_compute in the_cond (ConditionedNorm.init cond_args).

Definition shifted_norm : ConditionedNorm.t :=
  ConditionedNorm.mk (ConditionedNorm.n_conditions cond_norm)
    (ConditionedNorm.norms cond_norm) (ConditionedNorm.learnable_scale cond_norm)
    (Some (full [1; 1; 1]%nat 1)).

Definition cond_x : tensor := full [2; 1; 2]%nat 1.

Definition cond_conditions : list nat := [1; 0]%nat.

Definition cond_seq_len : list nat := [1; 2]%nat.

(** Two conditions, one channel, no shared affine step, [scale=False]; two
    rows of one condition with the values 1 and 3. *)
Definition group_args : ConditionedNorm.args :=
  ConditionedNorm.mk_args 2 "bct" (Some [None; Some 1%nat; None]) None
    (Some false) "bt" "b" "t" (1 # 100000) (Some (1 # 2)) None.

Definition group_norm : ConditionedNorm.t :=
  Eval vm_compute in the_cond (ConditionedNorm.init group_args).

Definition group_x : tensor := mk_tensor [2; 1; 1]%nat [1; 3].

Definition group_conditions : list nat := [0; 0]%nat.





End Examples.

(** ** Layouts and shape descriptors *)

Module Descriptor.

Import Tensor.

(** An upper-case letter [A-Z]. *)
Definition is_upper (c : ascii) : bool :=
  let n := nat_of_ascii c in ((65 <=? n) && (n <=? 90))%nat.

(** The size the shape descriptor gives for axis [d]. *)
Definition size_of (sh : list (option nat)) (d : nat) : nat :=
  match nth d sh None with Some n => n | None => 0 end.

(** The input shape [sh] is an instance of the shape descriptor [dsh]: the
    same number of axes, and the declared size on every axis that has
    one. *)
Fixpoint describes (dsh : list (option nat)) (sh : list nat) : bool :=
  match dsh, sh with
  | [], [] => true
  | d :: dsh', n :: sh' =>
      match d with Some k => (k =? n)%nat | None => true end && describes dsh' sh'
  | _, _ => false
  end.

End Descriptor.

(** ** Valid positions and averages *)

Module Valid.

Import Tensor NormSpec Stats.
Open Scope Q_scope.

(** Position [i] is a valid one: below the length of its batch entry along
    the sequence axis (every position is, when no lengths are given). *)
Definition validb (nm : Norm.t) (seq_len : option (list nat)) (i : list nat) : bool :=
  match seq_len with
  | Some l =>
      (nth (Norm.sequence_axis nm) i 0 <? nth (nth (Norm.batch_axis nm) i 0) l 0)%nat
  | None => true
  end.

(** The valid positions of the window of statistics entry [j]. *)
Definition valid_positions (nm : Norm.t) (sh : list nat) (seq_len : option (list nat))
    (j : list nat) : list (list nat) :=
  filter (validb nm seq_len) (window sh (stat_axes nm sh) j).

Definition valid_count (nm : Norm.t) (sh : list nat) (seq_len : option (list nat))
    (j : list nat) : Q :=
  Norm.of_nat (length (valid_positions nm sh seq_len j)).

(** The sum of [g] over the valid entries of [x] in the window of [j]. *)
Definition valid_sum (nm : Norm.t) (g : Q -> Q) (x : tensor) (seq_len : option (list nat))
    (j : list nat) : Q :=
  qsum (map (fun i => g (tget x i)) (valid_positions nm (shape x) seq_len j)).


(** The exponential moving average: each new value enters with weight
    [1 - m]. *)
Fixpoint moving_average (m : Q) (r : Q) (values : list Q) : Q :=
  match values with
  | [] => r
  | v :: rest => moving_average m (blend m r v) rest
  end.

(** Two buffers hold the same numbers. *)
Definition same_entries (o o' : option tensor) : Prop :=
  match o, o' with
  | Some t, Some t' =>
      shape t' = shape t /\ forall j, valid_index (shape t) j -> tget t' j == tget t j
  | None, None => True
  | _, _ => False
  end.

(** [nm'] is [nm] with other buffers. *)
Definition rebuffered (nm nm' : Norm.t) : Prop :=
  exists count rmean rpower, nm' = Norm.set_buffers nm count rmean rpower.

End Valid.

(** ** More concrete instances *)

Module MoreExamples.

Import Tensor Examples.
Open Scope Q_scope.
Open Scope string_scope.

(** A square root on the rationals that gives equal results on equal
    fractions. *)
Definition rsqrt (q : Q) : Q := qsqrt (Qred q).

(** Statistics over time only, for every example and channel: no running
    statistics are tracked. *)
Definition instance_args : Norm.args :=
  Norm.mk_args "bct" (Some [None; Some 10%nat; None]) "t" (Some "c") "b" "t"
    (Some true) (1 # 100000) (Some (1 # 2)) None.

Definition instance_norm : Norm.t := Eval vm_compute in the_norm (Norm.init instance_args).

(** The docstring input with 7 written into the padding. *)
Definition padded_x : tensor :=
  tabulate [3; 10; 4]%nat
    (fun i => if (nth 2 i 0 <? nth (nth 0 i 0) doc_seq_len 0)%nat then 2 else 7).

(** The call of [group_norm] on its two rows, evaluated. *)
Definition group_call : tensor * ConditionedNorm.t :=
  Eval vm_compute in
    match ConditionedNorm.forward qsqrt group_norm group_x group_conditions None with
    | Py.Ok r => r
    | Py.Raise _ => (group_x, group_norm)
    end.

End MoreExamples.

(** ** The forward pass over floating-point values

    What [forward] returns where a value is not finite is decided by the
    arithmetic of floats, which the rationals above do not have: [nan] and
    the infinities, [0/0], [inf * 0].  The forward pass is therefore embedded
    a second time, over an arbitrary arithmetic [arith F]: a type of values
    with the operations the code applies to them.  The tensors are as above,
    with entries of any type. *)

Module FloatNorm.

(** The operations of lines 201-257 on float values. *)
Record arith (F : Type) : Type := mk_arith {
  zero : F;                    (* 0.0, and [False] as a float *)
  one : F;                     (* 1.0, and [True] as a float *)
  two : F;                     (* 2.0 *)
  add : F -> F -> F;
  sub : F -> F -> F;
  mul : F -> F -> F;
  div : F -> F -> F;
  maximum : F -> F -> F;       (* [torch.max(a, b)], entry by entry *)
  sqrt : F -> F;
  geb : F -> F -> bool         (* [a >= b] *)
}.

Arguments zero {F}.
Arguments one {F}.
Arguments two {F}.
Arguments add {F}.
Arguments sub {F}.
Arguments mul {F}.
Arguments div {F}.
Arguments maximum {F}.
Arguments sqrt {F}.
Arguments geb {F}.

(** *** Tensors with entries of type [A] *)

Record tensor (A : Type) : Type := mk_tensor { shape : list nat; data : list A }.

Arguments mk_tensor {A}.
Arguments shape {A}.
Arguments data {A}.

Definition tabulate {A : Type} (sh : list nat) (f : list nat -> A) : tensor A :=
  mk_tensor sh (map f (Tensor.indices sh)).

(** The entry at index [i]; [d] is read nowhere inside the shape. *)
Definition tget {A : Type} (d : A) (t : tensor A) (i : list nat) : A :=
  nth (Tensor.ravel (shape t) i) (data t) d.

Definition tbin {A B C : Type} (da : A) (db : B) (f : A -> B -> C)
    (a : tensor A) (b : tensor B) : Py.result (tensor C) :=
  match Tensor.broadcast_shapes (shape a) (shape b) with
  | Some sh =>
      Py.Ok (tabulate sh (fun i =>
               f (tget da a (Tensor.bidx (shape a) i)) (tget db b (Tensor.bidx (shape b) i))))
  | None => Py.Raise Py.RuntimeError
  end.

(** [t.expand(sh)] *)
Definition expand {A : Type} (d : A) (t : tensor A) (sh : list nat) : Py.result (tensor A) :=
  match Tensor.broadcast_shapes (shape t) sh with
  | Some sh' =>
      if Tensor.shape_eqb sh' sh
      then Py.Ok (tabulate sh (fun i => tget d t (Tensor.bidx (shape t) i)))
      else Py.Raise Py.RuntimeError
  | None => Py.Raise Py.RuntimeError
  end.

(** *** The module *)

(** The attributes of an instance that [forward] reads. *)
Record t (F : Type) : Type := mk {
  batch_axis : nat;
  sequence_axis : nat;
  statistics_axis : list nat;
  scale : option bool;
  eps : F;
  track_running_stats : bool;
  num_tracked_values : option (tensor F);
  running_mean : option (tensor F);
  running_power : option (tensor F);
  momentum : option F;
  learnable_scale : option (tensor F);
  learnable_shift : option (tensor F);
  n_freeze : option F;
  training : bool
}.

Arguments mk {F}.
Arguments batch_axis {F}.
Arguments sequence_axis {F}.
Arguments statistics_axis {F}.
Arguments scale {F}.
Arguments eps {F}.
Arguments track_running_stats {F}.
Arguments num_tracked_values {F}.
Arguments running_mean {F}.
Arguments running_power {F}.
Arguments momentum {F}.
Arguments learnable_scale {F}.
Arguments learnable_shift {F}.
Arguments n_freeze {F}.
Arguments training {F}.

Definition set_buffers {F : Type} (nm : t F) (count mean power : option (tensor F)) : t F :=
  {| batch_axis := batch_axis nm;
     sequence_axis := sequence_axis nm;
     statistics_axis := statistics_axis nm;
     scale := scale nm;
     eps := eps nm;
     track_running_stats := track_running_stats nm;
     num_tracked_values := count;
     running_mean := mean;
     running_power := power;
     momentum := momentum nm;
     learnable_scale := learnable_scale nm;
     learnable_shift := learnable_shift nm;
     n_freeze := n_freeze nm;
     training := training nm |}.

Section Forward.

Context {F : Type}.
Variable ar : arith F.

Definition entry (t : tensor F) (i : list nat) : F := tget (zero ar) t i.

Definition tmap (f : F -> F) (t : tensor F) : tensor F :=
  tabulate (shape t) (fun i => f (entry t i)).

Definition full_like (t : tensor F) (v : F) : tensor F :=
  tabulate (shape t) (fun _ => v).

Definition tscalar (v : F) : tensor F := mk_tensor [] [v].

Definition top (f : F -> F -> F) (a b : tensor F) : Py.result (tensor F) :=
  tbin (zero ar) (zero ar) f a b.

(** In-place [a op= b]: the result must have the shape of [a]. *)
Definition top_ (f : F -> F -> F) (a b : tensor F) : Py.result (tensor F) :=
  r <- top f a b ;;
  if Tensor.shape_eqb (shape r) (shape a) then Py.Ok r else Py.Raise Py.RuntimeError.

(** [t.sum(dim=axes, keepdim=True)] *)
Definition tsum (t : tensor F) (axes : list nat) : Py.result (tensor F) :=
  if negb (forallb (fun d => d <? length (shape t))%nat axes)
  then Py.Raise Py.IndexError
  else if negb (Tensor.nodupb axes) then Py.Raise Py.RuntimeError
  else
    let ax := Tensor.reduce_axes axes (length (shape t)) in
    Py.Ok (tabulate (Tensor.reduce_shape (shape t) ax)
             (fun j => fold_right (add ar) (zero ar)
                         (map (entry t) (Tensor.window (shape t) ax j)))).

(** [t.max().item()] *)
Definition tmax_all (t : tensor F) : Py.result F :=
  match data t with
  | [] => Py.Raise Py.RuntimeError
  | v :: l => Py.Ok (fold_left (maximum ar) l v)
  end.

(** The property [freezed] (lines 179-185). *)
Definition freezed (nm : t F) : Py.result bool :=
  match n_freeze nm with
  | None => Py.Ok false
  | Some k =>
      if track_running_stats nm then
        count <- Norm.attr (num_tracked_values nm) ;;
        m <- tmax_all count ;;
        Py.Ok (geb ar m k)
      else Py.Ok false
  end.

(** Lines 236-248.  [seq_len] and [idx] are tensors of integers; their
    comparison gives [True] or [False], which [.float()] turns into 1.0 or
    0.0. *)
Definition compute_mask (nm : t F) (x : tensor F) (seq_len : option (list nat))
  : Py.result (tensor F) :=
  match seq_len with
  | Some sl =>
      let dim := length (shape x) in
      let seq_len := tabulate (length sl :: repeat 1%nat (dim - (batch_axis nm + 1)))
                       (fun i => nth (hd 0%nat i) sl 0%nat) in
      n <- Norm.get_item (shape x) (sequence_axis nm) ;;
      let idx := tabulate (n :: repeat 1%nat (dim - (sequence_axis nm + 1)))
                   (fun i => hd 0%nat i) in
      lt <- tbin 0%nat 0%nat (fun a b => if (a <? b)%nat then one ar else zero ar)
              idx seq_len ;;
      expand (zero ar) lt (shape x)
  | None => Py.Ok (full_like x (one ar))
  end.

(** Lines 250-257; [x ** 2] is [x * x]. *)
Definition compute_stats (nm : t F) (x mask : tensor F)
  : Py.result (tensor F * option (tensor F) * tensor F) :=
  n_values <- tsum mask (statistics_axis nm) ;;
  x <- top (mul ar) x mask ;;
  s <- tsum x (statistics_axis nm) ;;
  d <- top (maximum ar) n_values (full_like n_values (one ar)) ;;
  mean <- top (div ar) s d ;;
  if negb (Norm.truthy (scale nm)) then Py.Ok (mean, None, n_values)
  else
    s2 <- tsum (tmap (fun v => mul ar v v) x) (statistics_axis nm) ;;
    d <- top (maximum ar) n_values (full_like n_values (one ar)) ;;
    power <- top (div ar) s2 d ;;
    Py.Ok (mean, Some power, n_values).

(** The condition of line 203. *)
Definition estimate_mode (nm : t F) : Py.result bool :=
  if training nm then
    f <- freezed nm ;;
    if negb f then Py.Ok true else Py.Ok (negb (track_running_stats nm))
  else Py.Ok (negb (track_running_stats nm)).

(** Lines 207-208 and 224-227. *)
Definition variance (count power mean : tensor F) : Py.result (tensor F) :=
  n <- top (maximum ar) count (tmap (fun v => mul ar (two ar) v) (full_like count (one ar))) ;;
  r <- top (div ar) n (tmap (fun v => sub ar v (one ar)) n) ;;
  d <- top (sub ar) power (tmap (fun v => mul ar v v) mean) ;;
  top (mul ar) r d.

(** Lines 209 and 228. *)
Definition normalize (nm : t F) (x var : tensor F) : Py.result (tensor F) :=
  top (div ar) x (tmap (fun v => add ar (sqrt ar v) (eps nm)) var).

(** Lines 210-220. *)
Definition update_running_stats (nm : t F) (mean : tensor F) (power : option (tensor F))
    (n_values : tensor F) : Py.result (t F) :=
  count <- Norm.attr (num_tracked_values nm) ;;
  count <- top_ (add ar) count n_values ;;
  momentum <-
    match momentum nm with
    | None => r <- top (div ar) n_values count ;; Py.Ok (tmap (fun v => sub ar (one ar) v) r)
    | Some m => Py.Ok (tscalar m)
    end ;;
  rmean <- Norm.attr (running_mean nm) ;;
  rmean <- top_ (mul ar) rmean momentum ;;
  new <- top (mul ar) (tmap (fun v => sub ar (one ar) v) momentum) mean ;;
  rmean <- top_ (add ar) rmean new ;;
  if Norm.truthy (scale nm) then
    rpower <- Norm.attr (running_power nm) ;;
    rpower <- top_ (mul ar) rpower momentum ;;
    power <- Norm.attr power ;;
    new <- top (mul ar) (tmap (fun v => sub ar (one ar) v) momentum) power ;;
    rpower <- top_ (add ar) rpower new ;;
    Py.Ok (set_buffers nm (Some count) (Some rmean) (Some rpower))
  else
    Py.Ok (set_buffers nm (Some count) (Some rmean) (running_power nm)).

(** Lines 204-220. *)
Definition estimate (nm : t F) (x mask : tensor F) : Py.result (tensor F * t F) :=
  '(mean, power, n_values) <- compute_stats nm x mask ;;
  x <- top (sub ar) x mean ;;
  x <- (if Norm.truthy (scale nm) then
          power <- Norm.attr power ;;
          var <- variance n_values power mean ;;
          normalize nm x var
        else Py.Ok x) ;;
  nm <- (if track_running_stats nm
         then update_running_stats nm mean power n_values
         else Py.Ok nm) ;;
  Py.Ok (x, nm).

(** Lines 222-228. *)
Definition replay (nm : t F) (x : tensor F) : Py.result (tensor F) :=
  rmean <- Norm.attr (running_mean nm) ;;
  x <- top (sub ar) x rmean ;;
  if Norm.truthy (scale nm) then
    count <- Norm.attr (num_tracked_values nm) ;;
    rpower <- Norm.attr (running_power nm) ;;
    var <- variance count rpower rmean ;;
    normalize nm x var
  else Py.Ok x.

(** Lines 230-233. *)
Definition affine (lscale lshift : option (tensor F)) (x : tensor F)
  : Py.result (tensor F) :=
  x <- match lscale with
       | Some s => top (mul ar) x s
       | None => Py.Ok x
       end ;;
  match lshift with
  | Some s => top (sub ar) x s
  | None => Py.Ok x
  end.

(** Lines 203-233: the value of [x] that line 234 multiplies by the mask,
    and the module after the call. *)
Definition before_mask (nm : t F) (x mask : tensor F) : Py.result (tensor F * t F) :=
  est <- estimate_mode nm ;;
  '(x, nm) <- (if est then estimate nm x mask
               else x <- replay nm x ;; Py.Ok (x, nm)) ;;
  x <- affine (learnable_scale nm) (learnable_shift nm) x ;;
  Py.Ok (x, nm).

(** Lines 201-234. *)
Definition forward (nm : t F) (x : tensor F) (seq_len : option (list nat))
  : Py.result (tensor F * t F) :=
  mask <- compute_mask nm x seq_len ;;
  '(x, nm) <- before_mask nm x mask ;;
  x <- top (mul ar) x mask ;;
  Py.Ok (x, nm).

End Forward.

(** An instance and a tensor of the embedding over the rationals, with
    their entries read as values of [F]. *)
Definition of_tensor {F : Type} (lift : Q -> F) (x : Tensor.tensor) : tensor F :=
  mk_tensor (Tensor.shape x) (map lift (Tensor.data x)).

Definition of_norm {F : Type} (lift : Q -> F) (nm : Norm.t) : t F :=
  {| batch_axis := Norm.batch_axis nm;
     sequence_axis := Norm.sequence_axis nm;
     statistics_axis := Norm.statistics_axis nm;
     scale := Norm.scale nm;
     eps := lift (Norm.eps nm);
     track_running_stats := Norm.track_running_stats nm;
     num_tracked_values := option_map (of_tensor lift) (Norm.num_tracked_values nm);
     running_mean := option_map (of_tensor lift) (Norm.running_mean nm);
     running_power := option_map (of_tensor lift) (Norm.running_power nm);
     momentum := option_map lift (Norm.momentum nm);
     learnable_scale := option_map (of_tensor lift) (Norm.learnable_scale nm);
     learnable_shift := option_map (of_tensor lift) (Norm.learnable_shift nm);
     n_freeze := option_map lift (Norm.n_freeze nm);
     training := Norm.training nm |}.

(** *** Inputs an instance accepts

    As in [NormSpec]: the instance's axes are axes of the input, there is
    one length per batch entry, the buffers have the shape of the input's
    statistics (and are not empty where [freezed] takes their maximum), and
    the affine parameters broadcast into the input. *)

Definition stat_axes {F : Type} (nm : t F) (sh : list nat) : list nat :=
  Tensor.reduce_axes (statistics_axis nm) (length sh).

Definition stat_shape {F : Type} (nm : t F) (sh : list nat) : list nat :=
  Tensor.reduce_shape sh (stat_axes nm sh).

Definition has_shape {F : Type} (o : option (tensor F)) (sh : list nat) : bool :=
  match o with
  | Some t => Tensor.shape_eqb (shape t) sh
  | None => false
  end.

Definition param_fits {F : Type} (o : option (tensor F)) (sh : list nat) : bool :=
  match o with
  | Some p => NormSpec.fitsb (shape p) sh
  | None => true
  end.

Definition nonempty {F : Type} (o : option (tensor F)) : bool :=
  match o with
  | Some t => match data t with [] => false | _ => true end
  | None => false
  end.

Definition accepts {F : Type} (nm : t F) (sh : list nat) (seq_len : option (list nat))
  : bool :=
  forallb (fun d => d <? length sh)%nat (statistics_axis nm)
  && Tensor.nodupb (statistics_axis nm)
  && match seq_len with
     | None => true
     | Some l =>
         (batch_axis nm <? length sh)%nat
         && (sequence_axis nm <? length sh)%nat
         && (length l =? nth (batch_axis nm) sh 0%nat)%nat
     end
  && (if track_running_stats nm then
        has_shape (num_tracked_values nm) (stat_shape nm sh)
        && has_shape (running_mean nm) (stat_shape nm sh)
        && (if Norm.truthy (scale nm)
            then has_shape (running_power nm) (stat_shape nm sh) else true)
        && (if Norm.is_not_None (n_freeze nm)
            then nonempty (num_tracked_values nm) else true)
      else true)
  && param_fits (learnable_scale nm) sh
  && param_fits (learnable_shift nm) sh.

(** Index [i] lies in the padding of its batch entry. *)
Definition padded {F : Type} (nm : t F) (seq_len : list nat) (i : list nat) : Prop :=
  (nth (nth (batch_axis nm) i 0) seq_len 0 <= nth (sequence_axis nm) i 0)%nat.

End FloatNorm.

(** ** Values of IEEE 754 arithmetic

    The finite values, the two infinities and [nan], with the results
    IEEE 754 gives where an operand is not finite, where a finite value is
    divided by zero and for the square root of a negative number.  Finite
    results are exact (no rounding, no overflow), and the two zeros are not
    told apart: a zero divisor counts as [+0]. *)

Module Ieee.

Import FloatNorm.
Open Scope Q_scope.

Inductive num : Type :=
| Fin (q : Q)
| PInf
| NInf
| NaN.

Definition is_neg (q : Q) : bool := negb (Qle_bool 0 q).

Definition is_null (q : Q) : bool := Qeq_bool q 0.

Definition inf_of (negative : bool) : num := if negative then NInf else PInf.

Definition opp (a : num) : num :=
  match a with
  | Fin q => Fin (- q)
  | PInf => NInf
  | NInf => PInf
  | NaN => NaN
  end.

Definition fadd (a b : num) : num :=
  match a, b with
  | NaN, _ | _, NaN => NaN
  | Fin p, Fin q => Fin (p + q)
  | PInf, NInf | NInf, PInf => NaN
  | PInf, _ | _, PInf => PInf
  | NInf, _ | _, NInf => NInf
  end.

Definition fsub (a b : num) : num := fadd a (opp b).

(** The sign of a value that is not [nan]: [true] for the negative ones. *)
Definition negative (a : num) : bool :=
  match a with
  | Fin q => is_neg q
  | NInf => true
  | _ => false
  end.

Definition fmul (a b : num) : num :=
  match a, b with
  | NaN, _ | _, NaN => NaN
  | Fin p, Fin q => Fin (p * q)
  | Fin p, _ => if is_null p then NaN else inf_of (xorb (is_neg p) (negative b))
  | _, Fin q => if is_null q then NaN else inf_of (xorb (negative a) (is_neg q))
  | _, _ => inf_of (xorb (negative a) (negative b))
  end.

Definition fdiv (a b : num) : num :=
  match a, b with
  | NaN, _ | _, NaN => NaN
  | Fin p, Fin q =>
      if is_null q
      then if is_null p then NaN else inf_of (is_neg p)
      else Fin (p / q)
  | Fin _, _ => Fin 0
  | _, Fin q => inf_of (xorb (negative a) (is_neg q))
  | _, _ => NaN
  end.

(** [torch.max(a, b)]: [nan] if one of the two is. *)
Definition fmaximum (a b : num) : num :=
  match a, b with
  | NaN, _ | _, NaN => NaN
  | PInf, _ | _, PInf => PInf
  | NInf, v | v, NInf => v
  | Fin p, Fin q => Fin (Tensor.fmax p q)
  end.

(** [a >= b]: false as soon as one of the two is [nan]. *)
Definition fgeb (a b : num) : bool :=
  match a, b with
  | NaN, _ | _, NaN => false
  | PInf, _ | _, NInf => true
  | _, PInf | NInf, _ => false
  | Fin p, Fin q => Qle_bool q p
  end.

Section WithSqrt.

Variable fsqrt : Q -> Q.

Definition fsqrt_num (a : num) : num :=
  match a with
  | Fin q => if is_neg q then NaN else Fin (fsqrt q)
  | PInf => PInf
  | _ => NaN
  end.

Definition ieee : arith num :=
  {| zero := Fin 0;
     one := Fin 1;
     two := Fin 2;
     add := fadd;
     sub := fsub;
     mul := fmul;
     div := fdiv;
     maximum := fmaximum;
     sqrt := fsqrt_num;
     geb := fgeb |}.

End WithSqrt.

Definition finite (a : num) : Prop :=
  match a with Fin _ => True | _ => False end.

Definition is_zero (a : num) : Prop :=
  match a with Fin q => q == 0 | _ => False end.

End Ieee.

(** ** Instances for the float values *)

Module FloatExamples.

Import Tensor Examples Ieee.
Open Scope Q_scope.
Open Scope string_scope.

(** One channel, statistics over batch and time, and [eps = 0]. *)
Definition zero_eps_args : Norm.args :=
  Norm.mk_args "bct" (Some [None; Some 1%nat; None]) "bt" (Some "c") "b" "t"
    (Some true) 0 (Some (1 # 2)) None.

Definition zero_eps_norm : Norm.t := Eval vm_compute in the_norm (Norm.init zero_eps_args).

(** One example of two frames, both 2.0; the second frame is padding. *)
Definition constant_x : tensor := full [1; 1; 2]%nat 2.

(** The same instance with the default [eps], and an example whose padding
    frame holds [inf]. *)
Definition one_channel_args : Norm.args :=
  Norm.mk_args "bct" (Some [None; Some 1%nat; None]) "bt" (Some "c") "b" "t"
    (Some true) (1 # 100000) (Some (1 # 2)) None.

Definition one_channel_norm : Norm.t :=
  Eval vm_compute in the_norm (Norm.init one_channel_args).

Definition inf_padded_x : FloatNorm.tensor num :=
  FloatNorm.mk_tensor [1; 1; 2]%nat [Fin 2; PInf].

End FloatExamples.


(** * Facts *)

(** ** Tensors *)

Module TensorFacts.

Import Tensor.
Open Scope nat_scope.

Lemma length_indices (sh : list nat) : length (indices sh) = numel sh.
Proof.
  induction sh as [| n sh IH]; simpl; [reflexivity |].
  rewrite length_flat_map.
  assert (H : forall l, fold_right Nat.add 0 (map (fun k => length (map (cons k) (indices sh))) l) = length l * numel sh).
  { induction l as [| a l IHl]; simpl; [reflexivity |].
    rewrite IHl, length_map, IH. reflexivity. }
  replace (list_sum (map (fun x : nat => length (map (cons x) (indices sh))) (seq 0 n)))
    with (length (seq 0 n) * numel sh) by (symmetry; apply H).
  rewrite length_seq. reflexivity.
Qed.

Lemma In_indices (sh i : list nat) : In i (indices sh) <-> valid_index sh i.
Proof.
  revert i. induction sh as [| n sh IH]; intros i; simpl.
  - split.
    + intros [<- | []]. constructor.
    + intros H. inversion H. auto.
  - rewrite in_flat_map. split.
    + intros (k & Hk & Hi). apply in_map_iff in Hi as (i' & <- & Hi').
      apply in_seq in Hk. constructor; [lia | now apply IH].
    + intros H. inversion H as [| k m i' sh' Hk Hi']; subst.
      exists k. split; [apply in_seq; lia |].
      apply in_map. now apply IH.
Qed.

Lemma nth_flat_map_chunks {A : Type} (g : nat -> list A) (m : nat) (d : A) :
  (forall k, length (g k) = m) ->
  forall n a k r, k < n -> r < m ->
  nth (k * m + r) (flat_map g (seq a n)) d = nth r (g (a + k)) d.
Proof.
  intros Hg. induction n as [| n IH]; intros a k r Hk Hr; [lia |].
  simpl. destruct k as [| k].
  - simpl. rewrite app_nth1 by (rewrite Hg; lia). now rewrite Nat.add_0_r.
  - rewrite app_nth2 by (rewrite Hg; simpl; lia).
    rewrite Hg. replace (S k * m + r - m) with (k * m + r) by (simpl; lia).
    rewrite IH by lia. f_equal. f_equal. lia.
Qed.

Lemma ravel_lt (sh i : list nat) : valid_index sh i -> ravel sh i < numel sh.
Proof.
  intros H. induction H as [| k n i sh Hk Hi IH]; simpl; [lia |]. nia.
Qed.

Lemma nth_ravel_indices (sh i : list nat) (d : list nat) :
  valid_index sh i -> nth (ravel sh i) (indices sh) d = i.
Proof.
  intros H. induction H as [| k n i sh Hk Hi IH]; simpl; [reflexivity |].
  rewrite (@nth_flat_map_chunks _ (fun k => map (cons k) (indices sh)) (numel sh)).
  - simpl. rewrite (nth_indep _ d (k :: d)) by (rewrite length_map, length_indices; now apply ravel_lt).
    rewrite (map_nth (cons k)). now rewrite IH.
  - intros. now rewrite length_map, length_indices.
  - exact Hk.
  - now apply ravel_lt.
Qed.

Lemma tget_tabulate (sh : list nat) (f : list nat -> Q) (i : list nat) :
  valid_index sh i -> tget (tabulate sh f) i = f i.
Proof.
  intros H. unfold tget, tabulate. simpl.
  rewrite (nth_indep _ 0%Q (f i)) by (rewrite length_map, length_indices; now apply ravel_lt).
  rewrite (map_nth f). now rewrite nth_ravel_indices.
Qed.

Lemma wf_tabulate (sh : list nat) (f : list nat -> Q) : wf (tabulate sh f).
Proof. unfold wf, tabulate. simpl. now rewrite length_map, length_indices. Qed.

Lemma tabulate_ext (sh : list nat) (f g : list nat -> Q) :
  (forall i, valid_index sh i -> f i = g i) -> tabulate sh f = tabulate sh g.
Proof.
  intros H. unfold tabulate. f_equal. apply map_ext_in.
  intros i Hi. apply H. now apply In_indices.
Qed.


(** *** Indices, pointwise *)

Lemma valid_index_nth (sh i : list nat) :
  valid_index sh i <->
  length i = length sh /\ forall k, k < length sh -> nth k i 0 < nth k sh 0.
Proof.
  split.
  - intros H. induction H as [| a n i sh Ha Hi [IH1 IH2]]; simpl.
    + split; [reflexivity | intros; lia].
    + split; [congruence |]. intros [| k] Hk; [exact Ha | apply IH2; lia].
  - revert sh. induction i as [| a i IH]; intros [| n sh] [H1 H2]; simpl in *;
      try discriminate; constructor.
    + apply (H2 0). lia.
    + apply IH. split; [congruence |]. intros k Hk. apply (H2 (S k)). lia.
Qed.

Lemma valid_index_length (sh i : list nat) : valid_index sh i -> length i = length sh.
Proof. intros H. now apply valid_index_nth in H. Qed.

Lemma length_bclip (s i : list nat) : length (bclip s i) = Nat.min (length s) (length i).
Proof.
  revert i. induction s as [| d s IH]; intros [| k i]; simpl; auto.
Qed.

Lemma nth_bclip (s i : list nat) (k : nat) :
  k < length s -> k < length i ->
  nth k (bclip s i) 0 = if nth k s 0 =? 1 then 0 else nth k i 0.
Proof.
  revert i k. induction s as [| d s IH]; intros [| a i] [| k] Hs Hi; simpl in *; try lia.
  apply IH; lia.
Qed.

Lemma length_bidx (s i : list nat) :
  length s <= length i -> length (bidx s i) = length s.
Proof.
  intros H. unfold bidx. rewrite length_bclip, length_skipn. lia.
Qed.

Lemma nth_bidx (s i : list nat) (k : nat) :
  length s <= length i -> k < length s ->
  nth k (bidx s i) 0 = if nth k s 0 =? 1 then 0 else nth (length i - length s + k) i 0.
Proof.
  intros H Hk. unfold bidx.
  rewrite nth_bclip by (rewrite ?length_skipn; lia).
  now rewrite nth_skipn.
Qed.

Lemma length_pad_left (n : nat) (a : list nat) :
  length a <= n -> length (pad_left n a) = n.
Proof. intros H. unfold pad_left. rewrite length_app, repeat_length. lia. Qed.

Lemma nth_pad_left (n : nat) (a : list nat) (k : nat) :
  nth k (pad_left n a) 0 =
  if k <? n - length a then 1 else nth (k - (n - length a)) a 0.
Proof.
  unfold pad_left. destruct (k <? n - length a) eqn:E.
  - apply Nat.ltb_lt in E. rewrite app_nth1 by (rewrite repeat_length; lia).
    apply nth_repeat_lt. exact E.
  - apply Nat.ltb_ge in E. rewrite app_nth2 by (rewrite repeat_length; lia).
    now rewrite repeat_length.
Qed.

Lemma bzip_spec (a b r : list nat) :
  bzip a b = Some r <->
  length a = length r /\ length b = length r /\
  forall k, k < length r -> bdim (nth k a 0) (nth k b 0) = Some (nth k r 0).
Proof.
  revert b r. induction a as [| m a IH]; intros [| n b] r; simpl.
  - split.
    + intros [= <-]. simpl. repeat split; auto. intros; lia.
    + intros (H & _ & _). destruct r; [reflexivity | discriminate].
  - split; [discriminate |]. intros (H1 & H2 & _). destruct r; discriminate.
  - split; [discriminate |]. intros (H1 & H2 & _). destruct r; discriminate.
  - destruct (bdim m n) as [d |] eqn:Ed.
    + destruct (bzip a b) as [r' |] eqn:Er.
      * apply IH in Er as (L1 & L2 & L3). split.
        -- intros [= <-]. simpl. repeat split; try congruence.
           intros [| k] Hk; [exact Ed | apply L3; lia].
        -- intros (H1 & H2 & H3). destruct r as [| d0 r0]; [discriminate |].
           f_equal. f_equal.
           ++ specialize (H3 0 ltac:(simpl; lia)). simpl in H3. congruence.
           ++ apply nth_ext with (d := 0) (d' := 0); [simpl in *; lia |].
              intros k Hk. specialize (H3 (S k) ltac:(simpl in *; lia)). simpl in H3.
              rewrite L3 in H3 by lia. congruence.
      * split; [discriminate |]. intros (H1 & H2 & H3).
        destruct r as [| d0 r0]; [discriminate |]. exfalso.
        assert (bzip a b = Some r0) as Hr; [| congruence].
        apply IH. simpl in *. repeat split; try lia.
        intros k Hk. apply (H3 (S k)). lia.
    + split; [discriminate |]. intros (H1 & H2 & H3).
      destruct r as [| d0 r0]; [discriminate |].
      specialize (H3 0 ltac:(simpl; lia)). simpl in H3. congruence.
Qed.

(** Axis [k] of the operand shape [a], seen from a result of rank [n]. *)
Definition dim_in (n : nat) (a : list nat) (k : nat) : nat := nth k (pad_left n a) 0.

Lemma broadcast_shapes_spec (a b r : list nat) :
  broadcast_shapes a b = Some r <->
  length r = Nat.max (length a) (length b) /\
  forall k, k < length r ->
    bdim (dim_in (length r) a k) (dim_in (length r) b k) = Some (nth k r 0).
Proof.
  unfold broadcast_shapes, dim_in. rewrite bzip_spec.
  rewrite !length_pad_left by lia. split.
  - intros (H1 & _ & H3). split; [lia |]. now rewrite H1 in H3.
  - intros (H1 & H3). repeat split; try lia. now rewrite <- H1.
Qed.

Lemma bdim_cases (m n d : nat) :
  bdim m n = Some d <-> (m = n /\ d = m) \/ (m = 1 /\ d = n) \/ (n = 1 /\ d = m).
Proof.
  unfold bdim.
  destruct (m =? n) eqn:E1; [apply Nat.eqb_eq in E1 | apply Nat.eqb_neq in E1].
  - split; [intros [= <-]; auto | intros [[_ ->] | [[-> ->] | [-> ->]]]; congruence].
  - destruct (m =? 1) eqn:E2; [apply Nat.eqb_eq in E2 | apply Nat.eqb_neq in E2].
    + split; [intros [= <-]; auto | intros [[? _] | [[_ ->] | [-> ->]]]; congruence].
    + destruct (n =? 1) eqn:E3; [apply Nat.eqb_eq in E3 | apply Nat.eqb_neq in E3].
      * split; [intros [= <-]; auto | intros [[? _] | [[? _] | [_ ->]]]; congruence].
      * split; [discriminate | intros [[? _] | [[? _] | [? _]]]; congruence].
Qed.

(** [fits a r]: a tensor of shape [a] can be read at every index of [r]. *)
Definition fits (a r : list nat) : Prop :=
  length a <= length r /\
  forall k, k < length a ->
    nth k a 0 = 1 \/ nth k a 0 = nth (length r - length a + k) r 0.

Lemma dim_in_lo (n : nat) (a : list nat) (k : nat) :
  k < n - length a -> dim_in n a k = 1.
Proof.
  intros H. unfold dim_in. rewrite nth_pad_left.
  apply Nat.ltb_lt in H. now rewrite H.
Qed.

Lemma dim_in_hi (n : nat) (a : list nat) (k : nat) :
  n - length a <= k -> dim_in n a k = nth (k - (n - length a)) a 0.
Proof.
  intros H. unfold dim_in. rewrite nth_pad_left.
  apply Nat.ltb_ge in H. now rewrite H.
Qed.

Lemma broadcast_fits_l (a b r : list nat) :
  broadcast_shapes a b = Some r -> fits a r.
Proof.
  intros H. apply broadcast_shapes_spec in H as (H1 & H2). split; [lia |].
  intros k Hk. specialize (H2 (length r - length a + k) ltac:(lia)).
  rewrite dim_in_hi in H2 by lia.
  replace (length r - length a + k - (length r - length a)) with k in H2 by lia.
  apply bdim_cases in H2. lia.
Qed.

Lemma broadcast_fits_r (a b r : list nat) :
  broadcast_shapes a b = Some r -> fits b r.
Proof.
  intros H. apply broadcast_shapes_spec in H as (H1 & H2). split; [lia |].
  intros k Hk. specialize (H2 (length r - length b + k) ltac:(lia)).
  rewrite (dim_in_hi _ b) in H2 by lia.
  replace (length r - length b + k - (length r - length b)) with k in H2 by lia.
  apply bdim_cases in H2. lia.
Qed.

Lemma fits_broadcast (a r : list nat) :
  fits a r -> broadcast_shapes r a = Some r /\ broadcast_shapes a r = Some r.
Proof.
  intros (H1 & H2). split; apply broadcast_shapes_spec; (split; [lia |]); intros k Hk;
    apply bdim_cases.
  - rewrite (dim_in_hi _ r) by lia.
    replace (k - (length r - length r)) with k by lia.
    destruct (Nat.lt_ge_cases k (length r - length a)) as [Hlo | Hhi].
    + rewrite dim_in_lo by lia. auto.
    + rewrite dim_in_hi by lia.
      specialize (H2 (k - (length r - length a)) ltac:(lia)).
      replace (length r - length a + (k - (length r - length a))) with k in H2 by lia.
      lia.
  - rewrite (dim_in_hi _ r) by lia.
    replace (k - (length r - length r)) with k by lia.
    destruct (Nat.lt_ge_cases k (length r - length a)) as [Hlo | Hhi].
    + rewrite dim_in_lo by lia. auto.
    + rewrite dim_in_hi by lia.
      specialize (H2 (k - (length r - length a)) ltac:(lia)).
      replace (length r - length a + (k - (length r - length a))) with k in H2 by lia.
      lia.
Qed.

Lemma fits_refl (r : list nat) : fits r r.
Proof. split; [lia |]. intros k Hk. right. f_equal. lia. Qed.

Lemma fits_nil (r : list nat) : fits [] r.
Proof. split; simpl; [lia |]. intros; lia. Qed.

Lemma fits_trans (a b c : list nat) : fits a b -> fits b c -> fits a c.
Proof.
  intros (H1 & H2) (H3 & H4). split; [lia |]. intros k Hk.
  destruct (H2 k Hk) as [E | E]; [auto |].
  destruct (H4 (length b - length a + k) ltac:(lia)) as [E' | E'].
  - left. congruence.
  - right. rewrite E, E'. f_equal. lia.
Qed.

(** Reading an operand: the operand index is an index of the operand. *)
Lemma valid_bidx (a r i : list nat) :
  fits a r -> valid_index r i -> valid_index a (bidx a i).
Proof.
  intros (H1 & H2) Hi. apply valid_index_nth in Hi as (L & Hi).
  apply valid_index_nth. split; [apply length_bidx; lia |].
  intros k Hk. rewrite nth_bidx by lia.
  destruct (nth k a 0 =? 1) eqn:E; [apply Nat.eqb_eq in E; lia |].
  apply Nat.eqb_neq in E. destruct (H2 k Hk) as [E' | E']; [contradiction |].
  rewrite E', L. apply Hi. lia.
Qed.

Lemma bidx_same (r i : list nat) : valid_index r i -> bidx r i = i.
Proof.
  intros Hi. apply valid_index_nth in Hi as (L & Hi).
  apply nth_ext with (d := 0) (d' := 0); [rewrite length_bidx; lia |].
  intros k Hk. rewrite length_bidx in Hk by lia.
  rewrite nth_bidx by lia. rewrite L, Nat.sub_diag. simpl.
  destruct (nth k r 0 =? 1) eqn:E; [| reflexivity].
  apply Nat.eqb_eq in E. specialize (Hi k Hk). lia.
Qed.

Lemma bidx_bidx (a b i : list nat) :
  fits a b -> length b <= length i -> bidx a (bidx b i) = bidx a i.
Proof.
  intros (H1 & H2) Hi.
  apply nth_ext with (d := 0) (d' := 0).
  - rewrite !length_bidx; rewrite ?length_bidx; lia.
  - intros k Hk. rewrite length_bidx in Hk by (rewrite length_bidx; lia).
    rewrite nth_bidx by (rewrite ?length_bidx; lia).
    rewrite (nth_bidx a i) by lia.
    destruct (nth k a 0 =? 1) eqn:E; [reflexivity |].
    apply Nat.eqb_neq in E. rewrite length_bidx by lia.
    rewrite nth_bidx by lia.
    destruct (H2 k Hk) as [E' | E']; [contradiction |].
    rewrite <- E'. apply Nat.eqb_neq in E. rewrite E. f_equal. lia.
Qed.


(** *** Reduced shapes *)

Lemma length_mapi_from {A B : Type} (f : nat -> A -> B) (l : list A) (d : nat) :
  length (mapi_from d f l) = length l.
Proof. revert d. induction l as [| a l IH]; intros d; simpl; auto. Qed.

Lemma nth_mapi_from {A B : Type} (f : nat -> A -> B) (l : list A) (d k : nat) (da : A) (db : B) :
  k < length l -> nth k (mapi_from d f l) db = f (d + k) (nth k l da).
Proof.
  revert d k. induction l as [| a l IH]; intros d [| k] Hk; simpl in *; try lia.
  - now rewrite Nat.add_0_r.
  - rewrite IH by lia. f_equal. lia.
Qed.

Lemma length_reduce_shape (sh ax : list nat) : length (reduce_shape sh ax) = length sh.
Proof. apply length_mapi_from. Qed.

Lemma nth_reduce_shape (sh ax : list nat) (k : nat) :
  k < length sh ->
  nth k (reduce_shape sh ax) 0 = if mem k ax then 1 else nth k sh 0.
Proof. intros H. unfold reduce_shape. now rewrite (nth_mapi_from _ _ _ _ 0 0). Qed.

Lemma fits_reduce_shape (sh ax : list nat) : fits (reduce_shape sh ax) sh.
Proof.
  split; rewrite length_reduce_shape; [lia |]. intros k Hk.
  rewrite nth_reduce_shape by lia. rewrite Nat.sub_diag. simpl.
  destruct (mem k ax); auto.
Qed.

Lemma bidx_reduce_shape (sh ax i : list nat) :
  valid_index sh i -> bidx (reduce_shape sh ax) i = proj ax i.
Proof.
  intros Hi. apply valid_index_nth in Hi as (L & Hi).
  apply nth_ext with (d := 0) (d' := 0).
  - rewrite length_bidx by (rewrite length_reduce_shape; lia).
    unfold proj. rewrite length_mapi_from, length_reduce_shape. lia.
  - intros k Hk.
    rewrite length_bidx, length_reduce_shape in Hk by (rewrite length_reduce_shape; lia).
    rewrite nth_bidx by (rewrite length_reduce_shape; lia).
    rewrite length_reduce_shape, nth_reduce_shape by lia.
    unfold proj. rewrite (nth_mapi_from _ _ _ _ 0 0) by lia. simpl.
    rewrite L, Nat.sub_diag. simpl.
    destruct (mem k ax); [reflexivity |].
    destruct (nth k sh 0 =? 1) eqn:E; [| reflexivity].
    apply Nat.eqb_eq in E. specialize (Hi k Hk). lia.
Qed.

Lemma valid_proj (sh ax i : list nat) :
  valid_index sh i -> valid_index (reduce_shape sh ax) (proj ax i).
Proof.
  intros Hi. rewrite <- (bidx_reduce_shape sh ax i Hi).
  apply valid_bidx with (r := sh); [apply fits_reduce_shape | exact Hi].
Qed.

Lemma In_window (sh ax j i : list nat) :
  In i (window sh ax j) <-> valid_index sh i /\ proj ax i = j.
Proof.
  unfold window. rewrite filter_In, In_indices. unfold idx_eqb.
  destruct (list_eq_dec Nat.eq_dec (proj ax i) j); intuition congruence.
Qed.

(** *** The operations *)

Lemma shape_eqb_true (a b : list nat) : shape_eqb a b = true <-> a = b.
Proof.
  unfold shape_eqb. destruct (list_eq_dec Nat.eq_dec a b); intuition congruence.
Qed.

Lemma shape_eqb_refl (a : list nat) : shape_eqb a a = true.
Proof. now apply shape_eqb_true. Qed.

Lemma tbin_ok (f : Q -> Q -> Q) (a b : tensor) (r : list nat) :
  broadcast_shapes (shape a) (shape b) = Some r ->
  tbin f a b =
  Py.Ok (tabulate r (fun i => f (tget a (bidx (shape a) i)) (tget b (bidx (shape b) i)))).
Proof. intros H. unfold tbin. now rewrite H. Qed.

(** Both operands fit the shape [r] of the left one. *)
Lemma tbin_into (f : Q -> Q -> Q) (a b : tensor) :
  fits (shape b) (shape a) ->
  tbin f a b =
  Py.Ok (tabulate (shape a) (fun i => f (tget a (bidx (shape a) i)) (tget b (bidx (shape b) i)))).
Proof. intros H. apply tbin_ok. now apply fits_broadcast. Qed.

Lemma tbin_from (f : Q -> Q -> Q) (a b : tensor) :
  fits (shape a) (shape b) ->
  tbin f a b =
  Py.Ok (tabulate (shape b) (fun i => f (tget a (bidx (shape a) i)) (tget b (bidx (shape b) i)))).
Proof. intros H. apply tbin_ok. now apply fits_broadcast. Qed.

Lemma tbin__into (f : Q -> Q -> Q) (a b : tensor) :
  fits (shape b) (shape a) ->
  tbin_ f a b =
  Py.Ok (tabulate (shape a) (fun i => f (tget a (bidx (shape a) i)) (tget b (bidx (shape b) i)))).
Proof.
  intros H. unfold tbin_. rewrite (tbin_into f a b H). simpl. now rewrite shape_eqb_refl.
Qed.

Lemma expand_ok (t : tensor) (sh : list nat) :
  fits (shape t) sh ->
  expand t sh = Py.Ok (tabulate sh (fun i => tget t (bidx (shape t) i))).
Proof.
  intros H. unfold expand. destruct (fits_broadcast _ _ H) as [_ ->].
  now rewrite shape_eqb_refl.
Qed.

Lemma tsum_ok (t : tensor) (axes : list nat) :
  forallb (fun d => d <? length (shape t)) axes = true ->
  nodupb axes = true ->
  tsum t axes =
  Py.Ok (let ax := reduce_axes axes (length (shape t)) in
         tabulate (reduce_shape (shape t) ax)
           (fun j => qsum (map (tget t) (window (shape t) ax j)))).
Proof. intros H1 H2. unfold tsum. now rewrite H1, H2. Qed.

Lemma tget_tmap (f : Q -> Q) (t : tensor) (i : list nat) :
  valid_index (shape t) i -> tget (tmap f t) i = f (tget t i).
Proof. intros H. unfold tmap. now rewrite tget_tabulate. Qed.

Lemma tget_tscalar (v : Q) (i : list nat) : tget (tscalar v) (bidx [] i) = v.
Proof. reflexivity. Qed.


(** *** Two operands that both fit a shape *)

Lemma bzip_exists (a b : list nat) :
  length a = length b ->
  (forall k, k < length a -> bdim (nth k a 0) (nth k b 0) <> None) ->
  exists r, bzip a b = Some r.
Proof.
  revert b. induction a as [| m a IH]; intros [| n b] L H; simpl in *; try discriminate.
  - now exists [].
  - destruct (bdim m n) as [d |] eqn:E.
    + destruct (IH b) as [r Hr]; [lia | |].
      * intros k Hk. apply (H (S k)). lia.
      * rewrite Hr. now exists (d :: r).
    + exfalso. apply (H 0); [lia | exact E].
Qed.

Lemma bdim_some (m n : nat) : m = n \/ m = 1 \/ n = 1 -> bdim m n <> None.
Proof.
  intros H. unfold bdim.
  destruct (m =? n) eqn:E1; [discriminate | apply Nat.eqb_neq in E1].
  destruct (m =? 1) eqn:E2; [discriminate | apply Nat.eqb_neq in E2].
  destruct (n =? 1) eqn:E3; [discriminate | apply Nat.eqb_neq in E3]. lia.
Qed.

Lemma fits_dim_in (a r : list nat) (n k : nat) :
  fits a r -> length a <= n -> n <= length r -> k < n ->
  dim_in n a k = 1 \/ dim_in n a k = nth (length r - n + k) r 0.
Proof.
  intros (H1 & H2) Ha Hn Hk.
  destruct (Nat.lt_ge_cases k (n - length a)) as [Hlo | Hhi].
  - left. now apply dim_in_lo.
  - rewrite dim_in_hi by lia.
    destruct (H2 (k - (n - length a)) ltac:(lia)) as [E | E]; [auto |].
    right. rewrite E. f_equal. lia.
Qed.

Lemma broadcast_join (a b sh : list nat) :
  fits a sh -> fits b sh ->
  exists r, broadcast_shapes a b = Some r /\ fits r sh.
Proof.
  intros Ha Hb.
  pose proof Ha as (La & _). pose proof Hb as (Lb & _).
  set (n := Nat.max (length a) (length b)).
  assert (Hex : exists r, broadcast_shapes a b = Some r).
  { unfold broadcast_shapes. fold n. apply bzip_exists.
    - rewrite !length_pad_left; lia.
    - intros k Hk. rewrite length_pad_left in Hk by lia.
      fold (dim_in n a k). fold (dim_in n b k).
      apply bdim_some.
      destruct (fits_dim_in a sh n k Ha) as [E | E]; try lia;
        destruct (fits_dim_in b sh n k Hb) as [E' | E']; try lia. }
  destruct Hex as [r Hr]. exists r. split; [exact Hr |].
  apply broadcast_shapes_spec in Hr as (L & H). fold n in L.
  split; [lia |]. intros k Hk. specialize (H k Hk). rewrite L in H.
  apply bdim_cases in H.
  destruct (fits_dim_in a sh n k Ha) as [E | E]; try lia;
    destruct (fits_dim_in b sh n k Hb) as [E' | E']; try lia;
    rewrite L; lia.
Qed.

Lemma hd_bidx (a i : list nat) (v : nat) :
  length a <= length i -> 0 < length a ->
  nth (length i - length a) i 0 < nth 0 a 0 ->
  hd v (bidx a i) = nth (length i - length a) i 0.
Proof.
  intros H1 H2 H3.
  assert (E : hd v (bidx a i) = nth 0 (bidx a i) 0).
  { pose proof (length_bidx a i H1) as L.
    destruct (bidx a i); [simpl in L; lia | reflexivity]. }
  rewrite E, nth_bidx by lia. rewrite Nat.add_0_r.
  destruct (nth 0 a 0 =? 1) eqn:E1; [| reflexivity].
  apply Nat.eqb_eq in E1. lia.
Qed.


(** *** Closed forms of the binary operations *)

Lemma tbin_same (f : Q -> Q -> Q) (a b : tensor) :
  shape b = shape a ->
  tbin f a b = Py.Ok (tabulate (shape a) (fun i => f (tget a i) (tget b i))).
Proof.
  intros E. rewrite tbin_into by (rewrite E; apply fits_refl).
  f_equal. apply tabulate_ext. intros i Hi.
  rewrite E. now rewrite bidx_same.
Qed.

Lemma tbin_stat (f : Q -> Q -> Q) (a b : tensor) (ax : list nat) :
  shape b = reduce_shape (shape a) ax ->
  tbin f a b = Py.Ok (tabulate (shape a) (fun i => f (tget a i) (tget b (proj ax i)))).
Proof.
  intros E. rewrite tbin_into by (rewrite E; apply fits_reduce_shape).
  f_equal. apply tabulate_ext. intros i Hi.
  rewrite E. now rewrite bidx_same, bidx_reduce_shape.
Qed.

Lemma tbin_fits (f : Q -> Q -> Q) (a p : tensor) :
  fits (shape p) (shape a) ->
  tbin f a p =
  Py.Ok (tabulate (shape a) (fun i => f (tget a i) (tget p (bidx (shape p) i)))).
Proof.
  intros F. rewrite tbin_into by exact F.
  f_equal. apply tabulate_ext. intros i Hi. now rewrite bidx_same.
Qed.

Lemma tbin_scalar_l (f : Q -> Q -> Q) (a b : tensor) :
  shape a = [] ->
  tbin f a b = Py.Ok (tabulate (shape b) (fun i => f (tget a []) (tget b i))).
Proof.
  intros E. rewrite tbin_from by (rewrite E; apply fits_nil).
  f_equal. apply tabulate_ext. intros i Hi. rewrite E.
  rewrite (bidx_same (shape b) i Hi). reflexivity.
Qed.

Lemma tbin__same (f : Q -> Q -> Q) (a b : tensor) :
  shape b = shape a ->
  tbin_ f a b = Py.Ok (tabulate (shape a) (fun i => f (tget a i) (tget b i))).
Proof.
  intros E. unfold tbin_. rewrite tbin_same by exact E. simpl.
  now rewrite shape_eqb_refl.
Qed.

Lemma tbin__scalar_r (f : Q -> Q -> Q) (a b : tensor) :
  shape b = [] ->
  tbin_ f a b = Py.Ok (tabulate (shape a) (fun i => f (tget a i) (tget b []))).
Proof.
  intros E. rewrite tbin__into by (rewrite E; apply fits_nil).
  f_equal. apply tabulate_ext. intros i Hi. rewrite E.
  rewrite (bidx_same (shape a) i Hi). reflexivity.
Qed.

Lemma tsum_closed (t : tensor) (axes : list nat) :
  forallb (fun d => d <? length (shape t)) axes = true ->
  nodupb axes = true ->
  tsum t axes =
  Py.Ok (tabulate
           (reduce_shape (shape t) (reduce_axes axes (length (shape t))))
           (fun j => qsum (map (tget t)
              (window (shape t) (reduce_axes axes (length (shape t))) j)))).
Proof. intros H1 H2. now rewrite tsum_ok. Qed.

End TensorFacts.

(** ** The forward pass of [Norm] in closed form *)

Module NormFacts.

Import Tensor TensorFacts NormSpec Stats.
Open Scope nat_scope.

Lemma get_item_ok {A : Type} (l : list A) (k : nat) (d : A) :
  k < length l -> Norm.get_item l k = Py.Ok (nth k l d).
Proof.
  intros H. unfold Norm.get_item.
  destruct (nth_error l k) as [a |] eqn:E.
  - now rewrite (nth_error_nth _ _ d E).
  - apply nth_error_None in E. lia.
Qed.

Lemma bind_Ok_inv {A B : Type} (m : Py.result A) (k : A -> Py.result B) (b : B) :
  Py.bind m k = Py.Ok b -> exists a, m = Py.Ok a /\ k a = Py.Ok b.
Proof.
  destruct m as [a | e]; simpl; intros H; [exists a; auto | discriminate].
Qed.

Ltac bind_inv H :=
  let a := fresh "a" in
  let E := fresh "E" in
  apply bind_Ok_inv in H; destruct H as (a & E & H).

Lemma set_item_spec {A : Type} (l : list A) (i : nat) (v : A) :
  (i < length l)%nat ->
  exists r, Norm.set_item l i v = Py.Ok r /\ length r = length l /\
    forall d dflt, nth d r dflt = if (d =? i)%nat then v else nth d l dflt.
Proof.
  revert i. induction l as [| a l IH]; intros i Hi; simpl in Hi; [lia |].
  destruct i as [| i]; simpl.
  - eexists. split; [reflexivity |]. split; [reflexivity |].
    intros [| d] dflt; reflexivity.
  - destruct (IH i ltac:(lia)) as (r & -> & L & H). simpl.
    eexists. split; [reflexivity |]. split; [simpl; congruence |].
    intros [| d] dflt; simpl; [reflexivity | apply H].
Qed.

Lemma set_items_spec {A : Type} (idx : list nat) (l : list A) (v : A) :
  Forall (fun i => i < length l)%nat idx ->
  exists r, Norm.set_items l idx v = Py.Ok r /\ length r = length l /\
    forall d dflt, nth d r dflt = if mem d idx then v else nth d l dflt.
Proof.
  revert l. induction idx as [| i idx IH]; intros l H; simpl.
  - exists l. auto.
  - inversion H as [| ? ? Hi Hrest]; subst.
    destruct (set_item_spec l i v Hi) as (r1 & -> & L1 & H1). simpl.
    destruct (IH r1) as (r & -> & L & Hr).
    { rewrite L1. exact Hrest. }
    exists r. split; [reflexivity |]. split; [congruence |].
    intros d dflt. rewrite Hr, H1. unfold mem. simpl.
    destruct (d =? i)%nat; simpl; [| reflexivity].
    now destruct (existsb (Nat.eqb d) idx).
Qed.

Lemma mem_In (d : nat) (l : list nat) : mem d l = true <-> In d l.
Proof.
  unfold mem. rewrite existsb_exists. split.
  - intros (y & Hy & E). apply Nat.eqb_eq in E. now subst.
  - intros H. exists d. split; [exact H | apply Nat.eqb_refl].
Qed.

Lemma fits_lead (n k : nat) (sh : list nat) (p : nat) :
  p < length sh -> n = nth p sh 0 -> k = length sh - (p + 1) ->
  fits (n :: repeat 1 k) sh.
Proof.
  intros Hp -> ->. split; simpl; rewrite repeat_length; [lia |].
  intros [| j] Hj.
  - right. f_equal. lia.
  - left. simpl. apply nth_repeat_lt. lia.
Qed.

Lemma compute_mask_ok (nm : Norm.t) (x : tensor) (sl : option (list nat)) :
  match sl with
  | None => True
  | Some l =>
      Norm.batch_axis nm < length (shape x) /\
      Norm.sequence_axis nm < length (shape x) /\
      length l = nth (Norm.batch_axis nm) (shape x) 0
  end ->
  exists m, Norm.compute_mask nm x sl = Py.Ok m /\ shape m = shape x /\
    forall i, valid_index (shape x) i -> tget m i = mask_at nm sl i.
Proof.
  destruct sl as [l |]; simpl.
  - intros (Hb & Hs & Hl).
    set (sh := shape x) in *.
    rewrite (get_item_ok sh (Norm.sequence_axis nm) 0) by exact Hs. simpl.
    set (I := nth (Norm.sequence_axis nm) sh 0 :: repeat 1 (length sh - (Norm.sequence_axis nm + 1))).
    set (S := length l :: repeat 1 (length sh - (Norm.batch_axis nm + 1))).
    assert (FI : fits I sh) by (apply fits_lead with (p := Norm.sequence_axis nm); auto).
    assert (FS : fits S sh) by (apply fits_lead with (p := Norm.batch_axis nm); auto).
    destruct (broadcast_join I S sh FI FS) as (R & HR & FR).
    rewrite (tbin_ok _ _ _ R) by exact HR. simpl.
    rewrite expand_ok by exact FR.
    eexists. split; [reflexivity |]. split; [reflexivity |].
    intros i Hi. rewrite tget_tabulate by exact Hi. simpl.
    pose proof (valid_index_length _ _ Hi) as Li.
    pose proof FR as (LR & _).
    rewrite tget_tabulate by (apply valid_bidx with (r := sh); assumption).
    rewrite (bidx_bidx I R i) by (try lia; eapply broadcast_fits_l; eassumption).
    rewrite (bidx_bidx S R i) by (try lia; eapply broadcast_fits_r; eassumption).
    rewrite !tget_tabulate by (apply valid_bidx with (r := sh); assumption).
    apply valid_index_nth in Hi as (_ & Hi).
    assert (LI : length I = length sh - Norm.sequence_axis nm)
      by (unfold I; simpl; rewrite repeat_length; lia).
    assert (LS : length S = length sh - Norm.batch_axis nm)
      by (unfold S; simpl; rewrite repeat_length; lia).
    assert (E1 : hd 0 (bidx I i) = nth (Norm.sequence_axis nm) i 0).
    { rewrite hd_bidx; rewrite ?Li, ?LI; try lia.
      - f_equal. lia.
      - replace (length sh - (length sh - Norm.sequence_axis nm)) with (Norm.sequence_axis nm) by lia.
        unfold I. simpl. now apply Hi. }
    assert (E2 : hd 0 (bidx S i) = nth (Norm.batch_axis nm) i 0).
    { rewrite hd_bidx; rewrite ?Li, ?LS; try lia.
      - f_equal. lia.
      - replace (length sh - (length sh - Norm.batch_axis nm)) with (Norm.batch_axis nm) by lia.
        unfold S. simpl. rewrite Hl. now apply Hi. }
    unfold mask_at. now rewrite E1, E2.
  - intros _. eexists. split; [reflexivity |]. split; [reflexivity |].
    intros i Hi. unfold full_like. now rewrite tget_tabulate.
Qed.


Lemma compute_mask_closed (nm : Norm.t) (x : tensor) (sl : option (list nat)) :
  match sl with
  | None => True
  | Some l =>
      Norm.batch_axis nm < length (shape x) /\
      Norm.sequence_axis nm < length (shape x) /\
      length l = nth (Norm.batch_axis nm) (shape x) 0
  end ->
  Norm.compute_mask nm x sl = Py.Ok (tabulate (shape x) (mask_at nm sl)).
Proof.
  intros H. destruct (compute_mask_ok nm x sl H) as (m & E & Hs & Hm).
  rewrite E. f_equal. destruct sl as [l |].
  - simpl in E. destruct (Norm.get_item _ _); simpl in E; [| discriminate].
    destruct (tbin _ _ _); simpl in E; [| discriminate].
    unfold expand in E. destruct (broadcast_shapes _ _); [| discriminate].
    destruct (shape_eqb _ _); [| discriminate].
    injection E as <-. apply tabulate_ext. intros i Hi.
    rewrite <- (Hm i Hi). now rewrite tget_tabulate.
  - simpl in E. now injection E as <-.
Qed.

Section Statistics.

Variable nm : Norm.t.
Variables x mask : tensor.

Hypothesis axes_in : forallb (fun d => d <? length (shape x)) (Norm.statistics_axis nm) = true.
Hypothesis axes_nodup : nodupb (Norm.statistics_axis nm) = true.
Hypothesis mask_shape : shape mask = shape x.

Lemma tsum_stat (t : tensor) :
  shape t = shape x ->
  tsum t (Norm.statistics_axis nm) =
  Py.Ok (tabulate (stat_shape nm (shape x))
           (fun j => qsum (map (tget t) (window (shape x) (stat_axes nm (shape x)) j)))).
Proof.
  intros E. rewrite tsum_closed by (rewrite ?E; assumption). rewrite E. reflexivity.
Qed.

Lemma shape_count_of : shape (count_of nm mask) = stat_shape nm (shape x).
Proof. unfold count_of. cbn [shape tabulate]. now rewrite mask_shape. Qed.

Lemma compute_stats_closed :
  Norm.compute_stats nm x mask =
  Py.Ok (mean_of nm x mask,
         if Norm.truthy (Norm.scale nm) then Some (power_of nm x mask) else None,
         count_of nm mask).
Proof.
  assert (Ecount : tabulate (stat_shape nm (shape x))
            (fun j => qsum (map (tget mask) (window (shape x) (stat_axes nm (shape x)) j)))
          = count_of nm mask).
  { unfold count_of, count_at. now rewrite mask_shape. }
  assert (Emom : forall (g : Q -> Q) (t : tensor),
            (forall i, valid_index (shape x) i -> tget t i = g (tget x i * tget mask i)%Q) ->
            tabulate (stat_shape nm (shape x))
              (fun i =>
                 (tget (tabulate (stat_shape nm (shape x))
                          (fun j => qsum (map (tget t)
                                     (window (shape x) (stat_axes nm (shape x)) j)))) i
                  / tget (tabulate (stat_shape nm (shape x))
                            (fun i0 =>
                               fmax (tget (count_of nm mask) i0)
                                 (tget (full_like (count_of nm mask) 1) i0))) i)%Q)
            = tabulate (stat_shape nm (shape x)) (moment_at nm g x mask)).
  { intros g t Ht. apply tabulate_ext. intros j Hj.
    rewrite !tget_tabulate by exact Hj. unfold moment_at, sum_at.
    unfold full_like. rewrite shape_count_of, tget_tabulate by exact Hj.
    f_equal; [| unfold count_of; rewrite tget_tabulate by (rewrite ?mask_shape; exact Hj);
                reflexivity].
    f_equal. apply map_ext_in.
    intros i Hi. apply In_window in Hi as [Hi _]. now apply Ht. }
  unfold Norm.compute_stats.
  rewrite (tsum_stat mask mask_shape). cbn [Py.bind].
  rewrite tbin_same by exact mask_shape. cbn [Py.bind].
  rewrite tsum_stat by reflexivity. cbn [Py.bind].
  rewrite Ecount.
  rewrite (tbin_same fmax) by reflexivity. cbn [Py.bind].
  rewrite (tbin_same Qdiv) by (cbn [shape tabulate]; now rewrite shape_count_of).
  cbn [Py.bind].
  destruct (Norm.truthy (Norm.scale nm)); cbn [Py.bind negb].
  - rewrite tsum_stat by reflexivity. cbn [Py.bind].
    rewrite (tbin_same Qdiv) by (cbn [shape tabulate]; now rewrite shape_count_of).
    cbn [Py.bind shape tabulate]. rewrite shape_count_of.
    rewrite (Emom (fun v => v)) by (intros i Hi; now rewrite tget_tabulate).
    rewrite (Emom (fun v => (v * v)%Q))
      by (intros i Hi; rewrite tget_tmap by exact Hi; now rewrite tget_tabulate).
    reflexivity.
  - cbn [Py.bind shape tabulate]. rewrite shape_count_of.
    rewrite (Emom (fun v => v)) by (intros i Hi; now rewrite tget_tabulate).
    reflexivity.
Qed.

End Statistics.


Lemma variance_closed (count power mean : tensor) :
  shape power = shape count -> shape mean = shape count ->
  Norm.variance count power mean =
  Py.Ok (tabulate (shape count)
           (fun j => var_at (tget count j) (tget power j) (tget mean j))).
Proof.
  intros Ep Em. unfold Norm.variance.
  rewrite (tbin_same fmax) by reflexivity. cbn [Py.bind].
  rewrite (tbin_same Qdiv) by reflexivity. cbn [Py.bind].
  rewrite (tbin_same Qminus) by (cbn [shape tmap tabulate]; congruence). cbn [Py.bind].
  rewrite (tbin_same Qmult) by (cbn [shape tmap tabulate]; congruence).
  cbn [shape tmap tabulate]. f_equal. apply tabulate_ext. intros j Hj.
  rewrite !tget_tabulate by exact Hj.
  assert (Hj' : valid_index (shape power) j) by (rewrite Ep; exact Hj).
  rewrite !tget_tabulate by (rewrite ?Ep, ?Em; exact Hj).
  unfold tmap, full_like. cbn [shape tabulate].
  rewrite !tget_tabulate by (rewrite ?Ep, ?Em; exact Hj).
  reflexivity.
Qed.

Lemma accepts_inv (nm : Norm.t) (sh : list nat) (sl : option (list nat)) :
  accepts nm sh sl = true ->
  forallb (fun d => d <? length sh) (Norm.statistics_axis nm) = true /\
  nodupb (Norm.statistics_axis nm) = true /\
  match sl with
  | None => True
  | Some l =>
      Norm.batch_axis nm < length sh /\
      Norm.sequence_axis nm < length sh /\
      length l = nth (Norm.batch_axis nm) sh 0
  end /\
  (Norm.track_running_stats nm = true ->
   has_shape (Norm.num_tracked_values nm) (stat_shape nm sh) = true /\
   has_shape (Norm.running_mean nm) (stat_shape nm sh) = true /\
   (Norm.truthy (Norm.scale nm) = true ->
    has_shape (Norm.running_power nm) (stat_shape nm sh) = true) /\
   (Norm.is_not_None (Norm.n_freeze nm) = true ->
    nonempty (Norm.num_tracked_values nm) = true /\
    numel (stat_shape nm sh) <> 0)) /\
  param_fits (Norm.learnable_scale nm) sh = true /\
  param_fits (Norm.learnable_shift nm) sh = true.
Proof.
  unfold accepts. rewrite !andb_true_iff.
  intros (((((H1 & H2) & H3) & H4) & H5) & H6).
  split; [exact H1 |]. split; [exact H2 |]. split.
  { destruct sl as [l |]; [| exact I].
    rewrite !andb_true_iff in H3. destruct H3 as ((A & B) & C).
    apply Nat.ltb_lt in A, B. apply Nat.eqb_eq in C. auto. }
  split; [| split; assumption].
  intros Ht. rewrite Ht, !andb_true_iff in H4.
  destruct H4 as (((A & B) & C) & D).
  split; [exact A |]. split; [exact B |]. split.
  - intros Hs. now rewrite Hs in C.
  - intros Hf. rewrite Hf, andb_true_iff, negb_true_iff in D.
    destruct D as [D1 D2]. apply Nat.eqb_neq in D2. auto.
Qed.

Lemma param_fits_inv (o : option tensor) (sh : list nat) :
  param_fits o sh = true ->
  match o with Some p => fits (shape p) sh | None => True end.
Proof.
  destruct o as [p |]; simpl; [| auto]. unfold fitsb.
  destruct (broadcast_shapes (shape p) sh) as [r |] eqn:E; [| discriminate].
  intros H. apply shape_eqb_true in H. subst r.
  now apply broadcast_fits_l in E.
Qed.

Lemma has_shape_inv (o : option tensor) (sh : list nat) :
  has_shape o sh = true -> exists t, o = Some t /\ shape t = sh.
Proof.
  destruct o as [t |]; simpl; [| discriminate].
  intros H. apply shape_eqb_true in H. eauto.
Qed.

Lemma freezed_closed (nm : Norm.t) :
  (Norm.track_running_stats nm = true -> Norm.is_not_None (Norm.n_freeze nm) = true ->
   nonempty (Norm.num_tracked_values nm) = true) ->
  Norm.freezed nm = Py.Ok (frozen nm).
Proof.
  unfold Norm.freezed, frozen. intros H.
  destruct (Norm.n_freeze nm) as [k |]; [| reflexivity].
  destruct (Norm.track_running_stats nm).
  - specialize (H eq_refl eq_refl). unfold nonempty in H.
    destruct (Norm.num_tracked_values nm) as [c |]; [| discriminate].
    cbn [Norm.attr Py.bind]. unfold tmax_all.
    destruct (data c); [discriminate | reflexivity].
  - destruct (Norm.num_tracked_values nm); reflexivity.
Qed.

Lemma estimate_mode_closed (nm : Norm.t) :
  (Norm.track_running_stats nm = true -> Norm.is_not_None (Norm.n_freeze nm) = true ->
   nonempty (Norm.num_tracked_values nm) = true) ->
  Norm.estimate_mode nm = Py.Ok (estimating nm).
Proof.
  intros H. unfold Norm.estimate_mode, estimating.
  rewrite (freezed_closed nm H). cbn [Py.bind].
  destruct (Norm.training nm), (frozen nm), (Norm.track_running_stats nm); reflexivity.
Qed.

Lemma affine_ok (lscale lshift : option tensor) (x : tensor) :
  match lscale with Some p => fits (shape p) (shape x) | None => True end ->
  match lshift with Some p => fits (shape p) (shape x) | None => True end ->
  exists y, Norm.affine lscale lshift x = Py.Ok y /\ shape y = shape x /\
    forall i, valid_index (shape x) i -> tget y i = affine_at lscale lshift (tget x i) i.
Proof.
  intros H1 H2. unfold Norm.affine, affine_at.
  destruct lscale as [s |]; destruct lshift as [t |]; cbn [Py.bind].
  - rewrite tbin_fits by exact H1. cbn [Py.bind].
    rewrite tbin_fits by exact H2. cbn [shape tabulate].
    eexists. split; [reflexivity |]. split; [reflexivity |].
    intros i Hi. now rewrite !tget_tabulate.
  - rewrite tbin_fits by exact H1.
    eexists. split; [reflexivity |]. split; [reflexivity |].
    intros i Hi. now rewrite !tget_tabulate.
  - rewrite tbin_fits by exact H2.
    eexists. split; [reflexivity |]. split; [reflexivity |].
    intros i Hi. now rewrite !tget_tabulate.
  - eexists. split; [reflexivity |]. split; [reflexivity |]. reflexivity.
Qed.

Section WithSqrt.

Variable fsqrt : Q -> Q.

Lemma normalize_closed (nm : Norm.t) (x var : tensor) (ax : list nat) :
  shape var = reduce_shape (shape x) ax ->
  Norm.normalize fsqrt nm x var =
  Py.Ok (tabulate (shape x)
           (fun i => (tget x i / (fsqrt (tget var (proj ax i)) + Norm.eps nm))%Q)).
Proof.
  intros E. unfold Norm.normalize.
  rewrite (tbin_stat _ _ _ ax) by exact E.
  f_equal. apply tabulate_ext. intros i Hi.
  rewrite tget_tmap by (rewrite E; now apply valid_proj). reflexivity.
Qed.


Definition momentum_tensor (nm : Norm.t) (cnt n : tensor) : Py.result tensor :=
  match Norm.momentum nm with
  | None => r <- tbin Qdiv n (new_count cnt n) ;; Py.Ok (tmap (fun v => 1 - v)%Q r)
  | Some m => Py.Ok (tscalar m)
  end.

Lemma momentum_tensor_ok (nm : Norm.t) (cnt n : tensor) :
  shape n = shape cnt -> exists momentum, momentum_tensor nm cnt n = Py.Ok momentum.
Proof.
  intros En. unfold momentum_tensor. destruct (Norm.momentum nm) as [m |].
  - eexists. reflexivity.
  - rewrite (tbin_same Qdiv) by (unfold new_count; cbn [shape tabulate]; congruence).
    eexists. reflexivity.
Qed.

Lemma update_stat_closed (nm : Norm.t) (cnt n old stat momentum : tensor)
    (A : Type) (K : tensor -> Py.result A) :
  shape n = shape cnt -> shape old = shape cnt -> shape stat = shape cnt ->
  momentum_tensor nm cnt n = Py.Ok momentum ->
  (r <- tbin_ Qmult old momentum ;;
   new <- tbin Qmult (tmap (fun v => 1 - v)%Q momentum) stat ;;
   r <- tbin_ Qplus r new ;;
   K r) = K (new_stat nm cnt n old stat).
Proof.
  intros En Eo Es. unfold momentum_tensor, new_stat, momentum_at, blend.
  destruct (Norm.momentum nm) as [m |].
  - intros [= <-].
    rewrite tbin__scalar_r by reflexivity. cbn [Py.bind].
    rewrite tbin_scalar_l by reflexivity. cbn [Py.bind].
    rewrite tbin__same by (cbn [shape tabulate]; congruence).
    cbn [Py.bind shape tabulate]. f_equal. apply tabulate_ext. intros j Hj.
    rewrite !tget_tabulate by (rewrite ?Es, <- ?Eo; exact Hj).
    reflexivity.
  - rewrite (tbin_same Qdiv) by (unfold new_count; cbn [shape tabulate]; congruence).
    cbn [Py.bind]. intros [= <-].
    rewrite tbin__same by (cbn [shape tmap tabulate]; congruence). cbn [Py.bind].
    rewrite (tbin_same Qmult) by (cbn [shape tmap tabulate]; congruence). cbn [Py.bind].
    rewrite tbin__same by (cbn [shape tmap tabulate]; congruence).
    cbn [Py.bind shape tmap tabulate]. f_equal. apply tabulate_ext. intros j Hj.
    rewrite !tget_tabulate by exact Hj.
    unfold tmap. cbn [shape tabulate].
    rewrite !tget_tabulate by (rewrite ?En, <- ?Eo; exact Hj).
    reflexivity.
Qed.

Lemma update_running_stats_closed (nm : Norm.t) (cnt rm mean n : tensor)
    (power : option tensor) :
  Norm.num_tracked_values nm = Some cnt ->
  Norm.running_mean nm = Some rm ->
  shape n = shape cnt -> shape rm = shape cnt -> shape mean = shape cnt ->
  (Norm.truthy (Norm.scale nm) = true ->
   has_shape (Norm.running_power nm) (shape cnt) = true /\
   has_shape power (shape cnt) = true) ->
  Norm.update_running_stats nm mean power n =
  Py.Ok (Norm.set_buffers nm (Some (new_count cnt n)) (Some (new_stat nm cnt n rm mean))
           (if Norm.truthy (Norm.scale nm)
            then match Norm.running_power nm, power with
                 | Some rp, Some p => Some (new_stat nm cnt n rp p)
                 | _, _ => None
                 end
            else Norm.running_power nm)).
Proof.
  intros Ec Er En Erm Em Hp. unfold Norm.update_running_stats.
  rewrite Ec, Er. cbn [Norm.attr Py.bind].
  rewrite tbin__same by exact En. cbn [Py.bind].
  fold (new_count cnt n). fold (momentum_tensor nm cnt n).
  destruct (momentum_tensor_ok nm cnt n En) as [momentum Hm]. rewrite Hm. cbn [Py.bind].
  rewrite (update_stat_closed nm cnt n rm mean momentum) by assumption.
  destruct (Norm.truthy (Norm.scale nm)); [| reflexivity].
  destruct (Hp eq_refl) as [H1 H2].
  destruct (Norm.running_power nm) as [rp |]; [| discriminate].
  destruct power as [p |]; [| discriminate].
  apply shape_eqb_true in H1, H2. cbn [Norm.attr Py.bind].
  rewrite (update_stat_closed nm cnt n rp p momentum) by assumption.
  reflexivity.
Qed.


Lemma standardize_scaled (nm : Norm.t) (x mean count p : tensor) :
  Norm.truthy (Norm.scale nm) = true ->
  shape count = stat_shape nm (shape x) ->
  shape mean = shape count -> shape p = shape count ->
  (var <- Norm.variance count p mean ;;
   Norm.normalize fsqrt nm
     (tabulate (shape x)
        (fun i => (tget x i - tget mean (proj (stat_axes nm (shape x)) i))%Q)) var)
  = Py.Ok (standardize fsqrt nm x mean count (Some p)).
Proof.
  intros Ht Ec Em Ep. rewrite variance_closed by assumption. cbn [Py.bind].
  rewrite (normalize_closed _ _ _ (stat_axes nm (shape x))) by exact Ec.
  cbn [shape tabulate]. unfold standardize. rewrite Ht.
  f_equal. apply tabulate_ext. intros i Hi.
  rewrite !tget_tabulate; try exact Hi.
  - reflexivity.
  - rewrite Ec. now apply valid_proj.
Qed.

Lemma standardize_plain (nm : Norm.t) (x mean count : tensor) (power : option tensor) :
  Norm.truthy (Norm.scale nm) = false ->
  tabulate (shape x)
    (fun i => (tget x i - tget mean (proj (stat_axes nm (shape x)) i))%Q)
  = standardize fsqrt nm x mean count power.
Proof. intros Ht. unfold standardize. now rewrite Ht. Qed.


Lemma shape_stat (nm : Norm.t) (x : tensor) (sl : option (list nat)) :
  shape (mean_of nm x (mask_of nm x sl)) = stat_shape nm (shape x) /\
  shape (power_of nm x (mask_of nm x sl)) = stat_shape nm (shape x) /\
  shape (count_of nm (mask_of nm x sl)) = stat_shape nm (shape x).
Proof. repeat split. Qed.

Lemma estimate_closed (nm : Norm.t) (x : tensor) (sl : option (list nat)) :
  accepts nm (shape x) sl = true ->
  Norm.estimate fsqrt nm x (mask_of nm x sl) =
  Py.Ok (standardize fsqrt nm x (mean_of nm x (mask_of nm x sl))
           (count_of nm (mask_of nm x sl)) (Some (power_of nm x (mask_of nm x sl))),
         if Norm.track_running_stats nm then updated nm x (mask_of nm x sl) else nm).
Proof.
  intros Ha. apply accepts_inv in Ha as (A1 & A2 & _ & A4 & _).
  unfold Norm.estimate.
  rewrite compute_stats_closed by (try assumption; reflexivity). cbn [Py.bind].
  set (mask := mask_of nm x sl).
  rewrite (tbin_stat _ _ _ (stat_axes nm (shape x))) by reflexivity. cbn [Py.bind].
  assert (Hx : (if Norm.truthy (Norm.scale nm)
                then power <- Norm.attr (if Norm.truthy (Norm.scale nm)
                                         then Some (power_of nm x mask) else None) ;;
                     var <- Norm.variance (count_of nm mask) power (mean_of nm x mask) ;;
                     Norm.normalize fsqrt nm
                       (tabulate (shape x)
                          (fun i => (tget x i
                             - tget (mean_of nm x mask) (proj (stat_axes nm (shape x)) i))%Q))
                       var
                else Py.Ok (tabulate (shape x)
                          (fun i => (tget x i
                             - tget (mean_of nm x mask) (proj (stat_axes nm (shape x)) i))%Q)))
               = Py.Ok (standardize fsqrt nm x (mean_of nm x mask) (count_of nm mask)
                          (Some (power_of nm x mask)))).
  { destruct (Norm.truthy (Norm.scale nm)) eqn:Ht.
    - cbn [Norm.attr Py.bind]. now apply standardize_scaled.
    - f_equal. now apply standardize_plain. }
  rewrite Hx. cbn [Py.bind].
  destruct (Norm.track_running_stats nm) eqn:Et; [| reflexivity].
  destruct (A4 eq_refl) as (B1 & B2 & B3 & _).
  apply has_shape_inv in B1 as (cnt & Ec & Sc), B2 as (rm & Er & Sr).
  rewrite (update_running_stats_closed nm cnt rm); try assumption;
    try (rewrite Sc; reflexivity); try congruence.
  - cbn [Py.bind]. unfold updated. rewrite Ec, Er.
    destruct (Norm.truthy (Norm.scale nm)); reflexivity.
  - intros Ht. rewrite Ht. split; [rewrite Sc; now apply B3 |].
    cbn [has_shape]. rewrite Sc. apply shape_eqb_refl.
Qed.

Lemma replay_closed (nm : Norm.t) (x : tensor) (sl : option (list nat)) :
  accepts nm (shape x) sl = true ->
  Norm.track_running_stats nm = true ->
  exists rm cnt,
    Norm.running_mean nm = Some rm /\ Norm.num_tracked_values nm = Some cnt /\
    Norm.replay fsqrt nm x =
    Py.Ok (standardize fsqrt nm x rm cnt (Norm.running_power nm)).
Proof.
  intros Ha Et. apply accepts_inv in Ha as (A1 & A2 & _ & A4 & _).
  destruct (A4 Et) as (B1 & B2 & B3 & _).
  apply has_shape_inv in B1 as (cnt & Ec & Sc), B2 as (rm & Er & Sr).
  exists rm, cnt. split; [exact Er |]. split; [exact Ec |].
  unfold Norm.replay. rewrite Er, Ec. cbn [Norm.attr Py.bind].
  rewrite (tbin_stat _ _ _ (stat_axes nm (shape x))) by exact Sr. cbn [Py.bind].
  destruct (Norm.truthy (Norm.scale nm)) eqn:Ht.
  - apply has_shape_inv in B3 as (rp & Ep & Sp); [| reflexivity].
    rewrite Ep. cbn [Norm.attr Py.bind].
    apply standardize_scaled; congruence.
  - f_equal. now apply standardize_plain.
Qed.

Theorem forward_closed (nm : Norm.t) (x : tensor) (sl : option (list nat)) :
  accepts nm (shape x) sl = true ->
  Norm.forward fsqrt nm x sl =
  Py.Ok (forward_out fsqrt nm x sl, forward_state nm x sl).
Proof.
  intros Ha. pose proof (accepts_inv _ _ _ Ha) as (A1 & A2 & A3 & A4 & A5 & A6).
  unfold Norm.forward.
  rewrite compute_mask_closed by exact A3. cbn [Py.bind].
  fold (mask_of nm x sl).
  rewrite estimate_mode_closed by (intros Ht Hf; now apply A4). cbn [Py.bind].
  assert (Hmid :
    (if estimating nm
     then Norm.estimate fsqrt nm x (mask_of nm x sl)
     else x0 <- Norm.replay fsqrt nm x ;; Py.Ok (x0, nm))
    = Py.Ok (normalized fsqrt nm x sl, forward_state nm x sl)).
  { unfold normalized, forward_state. destruct (estimating nm) eqn:Ee.
    - rewrite estimate_closed by exact Ha. reflexivity.
    - assert (Et : Norm.track_running_stats nm = true).
      { unfold estimating in Ee. destruct (Norm.track_running_stats nm); [reflexivity |].
        now rewrite orb_true_r in Ee. }
      destruct (replay_closed nm x sl Ha Et) as (rm & cnt & Er & Ec & ->).
      rewrite Er, Ec. reflexivity. }
  rewrite Hmid. cbn [Py.bind].
  assert (Hsh : shape (normalized fsqrt nm x sl) = shape x).
  { unfold normalized. destruct (estimating nm) eqn:Ee; [reflexivity |].
    destruct (Norm.running_mean nm), (Norm.num_tracked_values nm); reflexivity. }
  assert (Hfix : Norm.learnable_scale (forward_state nm x sl) = Norm.learnable_scale nm
                 /\ Norm.learnable_shift (forward_state nm x sl) = Norm.learnable_shift nm).
  { unfold forward_state, updated.
    destruct (estimating nm && Norm.track_running_stats nm); [| auto].
    destruct (Norm.num_tracked_values nm), (Norm.running_mean nm); auto. }
  destruct Hfix as [-> ->].
  destruct (affine_ok (Norm.learnable_scale nm) (Norm.learnable_shift nm)
              (normalized fsqrt nm x sl)) as (y & Ey & Sy & Hy).
  { rewrite Hsh. now apply param_fits_inv. }
  { rewrite Hsh. now apply param_fits_inv. }
  rewrite Ey. cbn [Py.bind].
  rewrite tbin_same by (unfold mask_of; cbn [shape tabulate]; congruence).
  cbn [Py.bind]. unfold forward_out. rewrite Sy, Hsh. do 2 f_equal.
  apply tabulate_ext. intros i Hi.
  rewrite Hy by (rewrite Hsh; exact Hi).
  unfold mask_of. now rewrite tget_tabulate.
Qed.

End WithSqrt.

End NormFacts.

(** ** Properties of [Norm] *)

Module NormClaims.

Import Tensor TensorFacts NormSpec Stats NormFacts Examples Calls.
Open Scope Q_scope.

Lemma update_running_stats_state (nm nm' : Norm.t) (mean n : tensor) (power : option tensor) :
  Norm.update_running_stats nm mean power n = Py.Ok nm' ->
  exists count rmean rpower, nm' = Norm.set_buffers nm count rmean rpower.
Proof.
  unfold Norm.update_running_stats. intros H.
  do 7 bind_inv H.
  destruct (Norm.truthy (Norm.scale nm)).
  - do 5 bind_inv H. injection H as <-. eauto.
  - injection H as <-. eauto.
Qed.

Lemma estimate_state (fsqrt : Q -> Q) (nm nm' : Norm.t) (x mask y : tensor) :
  Norm.estimate fsqrt nm x mask = Py.Ok (y, nm') ->
  (Norm.track_running_stats nm = false /\ nm' = nm) \/
  (Norm.track_running_stats nm = true /\
   exists count rmean rpower, nm' = Norm.set_buffers nm count rmean rpower).
Proof.
  unfold Norm.estimate. intros H.
  bind_inv H. destruct a as ((mean & power) & n).
  do 3 bind_inv H. injection H as <- <-.
  destruct (Norm.track_running_stats nm).
  - right. split; [reflexivity |]. now apply update_running_stats_state in E2.
  - left. injection E2 as <-. auto.
Qed.

(** A call that returns either ran the estimate branch with running
    statistics tracked, and replaced the buffers, or left the instance as it
    was. *)
Lemma forward_cases (fsqrt : Q -> Q) (nm nm' : Norm.t) (x out : tensor)
    (seq_len : option (list nat)) :
  Norm.forward fsqrt nm x seq_len = Py.Ok (out, nm') ->
  (Norm.estimate_mode nm = Py.Ok true /\ Norm.track_running_stats nm = true /\
   exists count rmean rpower, nm' = Norm.set_buffers nm count rmean rpower)
  \/ nm' = nm.
Proof.
  unfold Norm.forward. intros H.
  bind_inv H. bind_inv H. bind_inv H. destruct a1 as (y & nm1).
  do 2 bind_inv H. injection H as <- <-.
  destruct a0.
  - apply estimate_state in E1 as [[_ ->] | [Ht Hb]]; auto.
  - right. bind_inv E1. now injection E1 as <- <-.
Qed.

(** C10.  A call of [Norm.forward] that returns leaves every attribute but
    the three buffers as it was -- the configuration, the parameters of the
    learnable scale and shift, the training flag -- and leaves the whole
    instance as it was when running statistics are not tracked or the
    replay branch is taken. *)
Theorem forward_frame (fsqrt : Q -> Q) (nm nm' : Norm.t) (x out : tensor)
    (seq_len : option (list nat)) :
  Norm.forward fsqrt nm x seq_len = Py.Ok (out, nm') ->
  nm' = Norm.set_buffers nm (Norm.num_tracked_values nm') (Norm.running_mean nm')
          (Norm.running_power nm') /\
  (Norm.learnable_scale nm' = Norm.learnable_scale nm /\
   Norm.learnable_shift nm' = Norm.learnable_shift nm /\
   Norm.data_format nm' = Norm.data_format nm /\
   Norm.batch_axis nm' = Norm.batch_axis nm /\
   Norm.sequence_axis nm' = Norm.sequence_axis nm /\
   Norm.statistics_axis nm' = Norm.statistics_axis nm /\
   Norm.scale nm' = Norm.scale nm /\
   Norm.eps nm' = Norm.eps nm /\
   Norm.track_running_stats nm' = Norm.track_running_stats nm /\
   Norm.momentum nm' = Norm.momentum nm /\
   Norm.n_freeze nm' = Norm.n_freeze nm /\
   Norm.training nm' = Norm.training nm) /\
  (Norm.track_running_stats nm = false \/ Norm.estimate_mode nm = Py.Ok false ->
   nm' = nm).
Proof.
  unfold Norm.forward. intros H.
  bind_inv H. bind_inv H. bind_inv H. destruct a1 as (y & nm1).
  do 2 bind_inv H. injection H as <- <-.
  assert (Hs : (a0 = true /\ Norm.track_running_stats nm = true /\
                exists count rmean rpower, nm1 = Norm.set_buffers nm count rmean rpower)
               \/ nm1 = nm).
  { destruct a0.
    - apply estimate_state in E1 as [[_ ->] | [Ht Hb]]; auto.
    - right. bind_inv E1. now injection E1 as <- <-. }
  split; [| split].
  - destruct Hs as [(_ & _ & c & m & p & ->) | ->]; [reflexivity | now destruct nm].
  - destruct Hs as [(_ & _ & c & m & p & ->) | ->]; repeat split; reflexivity.
  - intros [Ht | He]; destruct Hs as [(Ha & Ht' & _) | ->]; try reflexivity.
    + congruence.
    + subst a0. rewrite He in E0. discriminate.
Qed.


Lemma freezed_train (mode : bool) (nm : Norm.t) :
  Norm.freezed (Norm.train mode nm) = Norm.freezed nm.
Proof. reflexivity. Qed.

Lemma train_train (m m' : bool) (nm : Norm.t) :
  Norm.train m (Norm.train m' nm) = Norm.train m nm.
Proof. reflexivity. Qed.

Lemma freezed_tracks (nm : Norm.t) :
  Norm.freezed nm = Py.Ok true -> Norm.track_running_stats nm = true.
Proof.
  unfold Norm.freezed. destruct (Norm.n_freeze nm); [| discriminate].
  destruct (Norm.track_running_stats nm); [reflexivity | discriminate].
Qed.

Lemma freezed_replays (mode : bool) (nm : Norm.t) :
  Norm.freezed nm = Py.Ok true ->
  Norm.estimate_mode (Norm.train mode nm) = Py.Ok false.
Proof.
  intros H. unfold Norm.estimate_mode. rewrite freezed_train, H.
  cbn [Py.bind negb Norm.train Norm.training Norm.track_running_stats].
  rewrite (freezed_tracks nm H). now destruct mode.
Qed.

Lemma run_frozen (fsqrt : Q -> Q) (nm : Norm.t) :
  Norm.freezed nm = Py.Ok true ->
  forall calls m0 outs nm',
    Calls.run fsqrt (Norm.train m0 nm) calls = Py.Ok (outs, nm') ->
    exists m, nm' = Norm.train m nm.
Proof.
  intros Hf. induction calls as [| [[mode x] sl] calls IH]; intros m0 outs nm' H.
  - injection H as <- <-. now exists m0.
  - cbn [Calls.run] in H. bind_inv H. destruct a as [y nm1].
    bind_inv H. destruct a as [ys nm2]. injection H as <- <-.
    rewrite train_train in E.
    apply forward_cases in E as [(He & _) | E].
    + rewrite (freezed_replays mode nm Hf) in He. discriminate.
    + rewrite E in E0. now apply IH in E0.
Qed.

Lemma freezed_reached (nm : Norm.t) (k m : Q) (count : tensor) :
  Norm.n_freeze nm = Some k ->
  Norm.track_running_stats nm = true ->
  Norm.num_tracked_values nm = Some count ->
  tmax_all count = Py.Ok m ->
  k <= m ->
  Norm.freezed nm = Py.Ok true.
Proof.
  intros Hk Ht Hc Hm Hle. unfold Norm.freezed. rewrite Hk, Ht, Hc.
  cbn [Norm.attr Py.bind]. rewrite Hm. cbn [Py.bind].
  apply Qle_bool_iff in Hle. now rewrite Hle.
Qed.

(** C5.  With a freeze threshold [k] configured and running statistics
    tracked, once the maximum [m] of the count buffer has reached [k]:
    [freezed] holds; every forward call, in training mode as well, takes the
    replay branch; a call whose input matches the instance returns and
    leaves the instance as it is; and after any sequence of forward calls
    the three buffers are what they were and [freezed] still holds. *)
Theorem freeze_keeps_running_stats (fsqrt : Q -> Q) (nm : Norm.t) (k m : Q)
    (count : tensor) :
  Norm.n_freeze nm = Some k ->
  Norm.track_running_stats nm = true ->
  Norm.num_tracked_values nm = Some count ->
  tmax_all count = Py.Ok m ->
  k <= m ->
  Norm.freezed nm = Py.Ok true /\
  (forall mode, Norm.estimate_mode (Norm.train mode nm) = Py.Ok false) /\
  (forall mode x seq_len,
     accepts nm (shape x) seq_len = true ->
     Norm.forward fsqrt (Norm.train mode nm) x seq_len =
     Py.Ok (forward_out fsqrt (Norm.train mode nm) x seq_len, Norm.train mode nm)) /\
  (forall calls outs nm',
     Calls.run fsqrt nm calls = Py.Ok (outs, nm') ->
     Norm.num_tracked_values nm' = Norm.num_tracked_values nm /\
     Norm.running_mean nm' = Norm.running_mean nm /\
     Norm.running_power nm' = Norm.running_power nm /\
     Norm.freezed nm' = Py.Ok true).
Proof.
  intros Hk Ht Hc Hm Hle.
  pose proof (freezed_reached nm k m count Hk Ht Hc Hm Hle) as Hf.
  split; [exact Hf |]. split; [| split].
  - intros mode. now apply freezed_replays.
  - intros mode x sl Ha.
    rewrite forward_closed by exact Ha. do 2 f_equal.
    unfold forward_state.
    pose proof (estimate_mode_closed (Norm.train mode nm)) as He.
    rewrite (freezed_replays mode nm Hf) in He.
    assert (Ee : estimating (Norm.train mode nm) = false).
    { symmetry. assert (Py.Ok false = Py.Ok (estimating (Norm.train mode nm))) as [= ->];
        [| reflexivity].
      apply He. intros Ht' Hn.
      apply accepts_inv in Ha as (_ & _ & _ & A4 & _). now apply A4. }
    now rewrite Ee.
  - intros calls outs nm' H.
    assert (E : nm = Norm.train (Norm.training nm) nm) by now destruct nm.
    rewrite E in H. apply (run_frozen fsqrt nm Hf) in H as [m' ->]. auto.
Qed.

Lemma nonempty_tabulate (sh : list nat) (f : list nat -> Q) :
  numel sh <> 0%nat -> nonempty (Some (tabulate sh f)) = true.
Proof.
  intros H. unfold nonempty, tabulate. cbn [data].
  pose proof (length_indices sh) as L.
  destruct (indices sh); [simpl in L; congruence | reflexivity].
Qed.

(** The instance after an update accepts what the instance accepted. *)
Lemma accepts_updated (nm : Norm.t) (x mask : tensor) (sh : list nat)
    (sl : option (list nat)) :
  accepts nm sh sl = true -> accepts (updated nm x mask) sh sl = true.
Proof.
  intros Ha. unfold updated.
  destruct (Norm.num_tracked_values nm) as [cnt |] eqn:Ec; [| exact Ha].
  destruct (Norm.running_mean nm) as [rm |] eqn:Er; [| exact Ha].
  pose proof (accepts_inv _ _ _ Ha) as (A1 & A2 & A3 & A4 & A5 & A6).
  unfold accepts in Ha. rewrite !andb_true_iff in Ha.
  destruct Ha as (((((H1 & H2) & H3) & H4) & H5) & H6).
  unfold accepts.
  cbn [Norm.set_buffers Norm.statistics_axis Norm.batch_axis Norm.sequence_axis
       Norm.track_running_stats Norm.num_tracked_values Norm.running_mean
       Norm.running_power Norm.scale Norm.n_freeze Norm.learnable_scale
       Norm.learnable_shift].
  change (stat_shape (Norm.set_buffers nm _ _ _) sh) with (stat_shape nm sh).
  rewrite H1, H2, H3, H5, H6. cbn [andb]. rewrite andb_true_r.
  destruct (Norm.track_running_stats nm) eqn:Et; [| reflexivity].
  destruct (A4 eq_refl) as (B1 & B2 & B3 & B4).
  rewrite Ec in B1. rewrite Er in B2. cbn [has_shape] in B1, B2.
  unfold new_count, new_stat. cbn [has_shape shape tabulate]. rewrite B1, B2.
  cbn [andb].
  assert (Hn : (if Norm.is_not_None (Norm.n_freeze nm)
                then nonempty (Some (tabulate (shape cnt)
                       (fun j => tget cnt j + tget (count_of nm mask) j)))
                     && negb (numel (stat_shape nm sh) =? 0)%nat
                else true) = true).
  { destruct (Norm.is_not_None (Norm.n_freeze nm)); [| reflexivity].
    destruct (B4 eq_refl) as [_ B5].
    apply shape_eqb_true in B1. rewrite nonempty_tabulate by (rewrite B1; exact B5).
    apply Nat.eqb_neq in B5. now rewrite B5. }
  rewrite Hn, andb_true_r.
  destruct (Norm.truthy (Norm.scale nm)) eqn:Es; [| reflexivity].
  specialize (B3 eq_refl).
  destruct (Norm.running_power nm) as [rp |]; [| discriminate].
  cbn [has_shape shape tabulate] in B3 |- *. now rewrite B3.
Qed.

Lemma accepts_forward_state (nm : Norm.t) (x : tensor) (sl0 : option (list nat))
    (sh : list nat) (sl : option (list nat)) :
  accepts nm sh sl = true -> accepts (forward_state nm x sl0) sh sl = true.
Proof.
  intros Ha. unfold forward_state.
  destruct (estimating nm && Norm.track_running_stats nm); [| exact Ha].
  now apply accepts_updated.
Qed.


Lemma freezed_false_estimating (nm : Norm.t) (sh : list nat) (sl : option (list nat)) :
  accepts nm sh sl = true -> Norm.training nm = true ->
  Norm.freezed nm = Py.Ok false -> estimating nm = true.
Proof.
  intros Ha Ht Hf. apply accepts_inv in Ha as (_ & _ & _ & A4 & _).
  rewrite freezed_closed in Hf by (intros T N; now apply A4).
  injection Hf as Hf. unfold estimating. now rewrite Ht, Hf.
Qed.

Lemma running_mean_updated (nm : Norm.t) (x mask cnt rm : tensor) :
  Norm.num_tracked_values nm = Some cnt -> Norm.running_mean nm = Some rm ->
  Norm.running_mean (updated nm x mask) =
  Some (new_stat nm cnt (count_of nm mask) rm (mean_of nm x mask)) /\
  Norm.num_tracked_values (updated nm x mask) = Some (new_count cnt (count_of nm mask)).
Proof. intros Ec Er. unfold updated. rewrite Ec, Er. split; reflexivity. Qed.

Lemma tget_new_stat (nm : Norm.t) (m : Q) (cnt n old stat : tensor) (j : list nat) :
  Norm.momentum nm = Some m -> valid_index (shape old) j ->
  tget (new_stat nm cnt n old stat) j = tget old j * m + (1 - m) * tget stat j.
Proof.
  intros Hm Hj. unfold new_stat. rewrite tget_tabulate by exact Hj.
  unfold momentum_at, blend. now rewrite Hm.
Qed.

(** C6, as amended.  With a fixed momentum [m], running statistics tracked
    and a running mean of zero, two forward calls in training mode, neither
    made in the frozen state, leave
    [running_mean = m * (m * 0 + (1 - m) * mu1) + (1 - m) * mu2], where
    [mu1] and [mu2] are the means [compute_stats] yields for the two
    calls. *)
Theorem running_mean_after_two_calls (fsqrt : Q -> Q) (nm : Norm.t) (m : Q)
    (x1 x2 : tensor) (sl1 sl2 : option (list nat)) :
  Norm.momentum nm = Some m ->
  Norm.track_running_stats nm = true ->
  Norm.training nm = true ->
  accepts nm (shape x1) sl1 = true ->
  accepts nm (shape x2) sl2 = true ->
  (forall rm j, Norm.running_mean nm = Some rm -> valid_index (shape rm) j ->
                tget rm j == 0) ->
  Norm.freezed nm = Py.Ok false ->
  (forall y1 nm1, Norm.forward fsqrt nm x1 sl1 = Py.Ok (y1, nm1) ->
                  Norm.freezed nm1 = Py.Ok false) ->
  exists y1 nm1 y2 nm2 mask1 mask2 mu1 p1 n1 mu2 p2 n2 rm2,
    Norm.forward fsqrt nm x1 sl1 = Py.Ok (y1, nm1) /\
    Norm.forward fsqrt nm1 x2 sl2 = Py.Ok (y2, nm2) /\
    Norm.compute_mask nm x1 sl1 = Py.Ok mask1 /\
    Norm.compute_stats nm x1 mask1 = Py.Ok (mu1, p1, n1) /\
    Norm.compute_mask nm1 x2 sl2 = Py.Ok mask2 /\
    Norm.compute_stats nm1 x2 mask2 = Py.Ok (mu2, p2, n2) /\
    Norm.running_mean nm2 = Some rm2 /\
    forall j, valid_index (shape rm2) j ->
      tget rm2 j == m * (m * 0 + (1 - m) * tget mu1 j) + (1 - m) * tget mu2 j.
Proof.
  intros Hm Ht Htr Ha1 Ha2 Hz Hf Hf1.
  pose proof (forward_closed fsqrt nm x1 sl1 Ha1) as F1.
  specialize (Hf1 _ _ F1).
  set (nm1 := forward_state nm x1 sl1) in *.
  assert (Ha2' : accepts nm1 (shape x2) sl2 = true) by now apply accepts_forward_state.
  pose proof (forward_closed fsqrt nm1 x2 sl2 Ha2') as F2.
  pose proof (accepts_inv _ _ _ Ha1) as (A1 & A2 & A3 & A4 & _).
  pose proof (accepts_inv _ _ _ Ha2') as (B1 & B2 & B3 & B4 & _).
  destruct (A4 Ht) as (C1 & C2 & _).
  apply has_shape_inv in C1 as (cnt & Ec & Sc), C2 as (rm & Er & Sr).
  assert (E1 : nm1 = updated nm x1 (mask_of nm x1 sl1)).
  { unfold nm1, forward_state.
    now rewrite (freezed_false_estimating nm _ _ Ha1 Htr Hf), Ht. }
  assert (Ht1 : Norm.track_running_stats nm1 = true).
  { rewrite E1. unfold updated. now rewrite Ec, Er. }
  assert (Htr1 : Norm.training nm1 = true).
  { rewrite E1. unfold updated. now rewrite Ec, Er. }
  assert (Hm1 : Norm.momentum nm1 = Some m).
  { rewrite E1. unfold updated. now rewrite Ec, Er. }
  destruct (running_mean_updated nm x1 (mask_of nm x1 sl1) cnt rm Ec Er) as [Er1 Ec1].
  rewrite <- E1 in Er1, Ec1.
  assert (E2 : forward_state nm1 x2 sl2 = updated nm1 x2 (mask_of nm1 x2 sl2)).
  { unfold forward_state.
    now rewrite (freezed_false_estimating nm1 _ _ Ha2' Htr1 Hf1), Ht1. }
  destruct (running_mean_updated nm1 x2 (mask_of nm1 x2 sl2) _ _ Ec1 Er1) as [Er2 _].
  rewrite <- E2 in Er2.
  eexists _, nm1, _, _, _, _, _, _, _, _, _, _, _.
  split; [exact F1 |]. split; [exact F2 |].
  split; [now apply compute_mask_closed |].
  split; [apply compute_stats_closed; try assumption; reflexivity |].
  split; [now apply compute_mask_closed |].
  split; [apply compute_stats_closed; try assumption; reflexivity |].
  split; [exact Er2 |].
  intros j Hj. cbn [new_stat shape tabulate] in Hj.
  rewrite (tget_new_stat nm1 m) by assumption.
  rewrite (tget_new_stat nm m) by assumption.
  rewrite (Hz rm j Er Hj). unfold mask_of. ring.
Qed.


Ltac below n :=
  repeat (destruct n as [| n]; [| try lia]); try lia.

(** C3.  The scenario of the docstring: layout ['bct'], shape
    [(None, 10, None)], statistics over ['bt'], momentum 0.5, an input of
    shape (3, 10, 4) that is 2.0 everywhere, lengths [1, 2, 3].  The mask
    rows are [1,0,0,0], [1,1,0,0], [1,1,1,0]; [compute_stats] yields mean 2
    and power 4 at every channel; after one forward call in training mode
    the running mean is 1 and the running power 2.5 at every channel. *)
Theorem docstring_scenario (fsqrt : Q -> Q) :
  exists nm mask mean power n y nm' rmean rpower,
    Norm.init doc_args = Py.Ok nm /\
    Norm.training nm = true /\
    Norm.compute_mask nm doc_x (Some doc_seq_len) = Py.Ok mask /\
    shape mask = [3; 10; 4]%nat /\
    (forall b c, (b < 3)%nat -> (c < 10)%nat ->
       map (fun t => tget mask [b; c; t]) [0; 1; 2; 3]%nat =
       nth b [[1; 0; 0; 0]; [1; 1; 0; 0]; [1; 1; 1; 0]] []) /\
    Norm.compute_stats nm doc_x mask = Py.Ok (mean, Some power, n) /\
    (forall c, (c < 10)%nat ->
       tget mean [0; c; 0]%nat == 2 /\ tget power [0; c; 0]%nat == 4) /\
    Norm.forward fsqrt nm doc_x (Some doc_seq_len) = Py.Ok (y, nm') /\
    Norm.running_mean nm' = Some rmean /\
    Norm.running_power nm' = Some rpower /\
    (forall c, (c < 10)%nat ->
       tget rmean [0; c; 0]%nat == 1 /\ tget rpower [0; c; 0]%nat == 5 # 2).
Proof.
  assert (Ha : accepts doc_norm (shape doc_x) (Some doc_seq_len) = true)
    by (vm_compute; reflexivity).
  pose proof (accepts_inv _ _ _ Ha) as (A1 & A2 & A3 & _).
  exists doc_norm, (mask_of doc_norm doc_x (Some doc_seq_len)),
    (mean_of doc_norm doc_x (mask_of doc_norm doc_x (Some doc_seq_len))),
    (power_of doc_norm doc_x (mask_of doc_norm doc_x (Some doc_seq_len))),
    (count_of doc_norm (mask_of doc_norm doc_x (Some doc_seq_len))),
    (forward_out fsqrt doc_norm doc_x (Some doc_seq_len)),
    (forward_state doc_norm doc_x (Some doc_seq_len)).
  eexists _, _.
  split; [vm_compute; reflexivity |].
  split; [reflexivity |].
  split; [now apply compute_mask_closed |].
  split; [reflexivity |].
  split; [intros b c Hb Hc; below b; below c; vm_compute; reflexivity |].
  split; [apply (compute_stats_closed doc_norm doc_x); try assumption; reflexivity |].
  split; [intros c Hc; below c; split; vm_compute; reflexivity |].
  split; [now apply forward_closed |].
  split; [vm_compute; reflexivity |].
  split; [vm_compute; reflexivity |].
  intros c Hc; below c; split; vm_compute; reflexivity.
Qed.


Lemma forward_frame_witness :
  let nm' := forward_state doc_norm doc_x (Some doc_seq_len) in
  nm' = Norm.set_buffers doc_norm (Norm.num_tracked_values nm') (Norm.running_mean nm')
          (Norm.running_power nm') /\
  (Norm.learnable_scale nm' = Norm.learnable_scale doc_norm /\
   Norm.learnable_shift nm' = Norm.learnable_shift doc_norm /\
   Norm.data_format nm' = Norm.data_format doc_norm /\
   Norm.batch_axis nm' = Norm.batch_axis doc_norm /\
   Norm.sequence_axis nm' = Norm.sequence_axis doc_norm /\
   Norm.statistics_axis nm' = Norm.statistics_axis doc_norm /\
   Norm.scale nm' = Norm.scale doc_norm /\
   Norm.eps nm' = Norm.eps doc_norm /\
   Norm.track_running_stats nm' = Norm.track_running_stats doc_norm /\
   Norm.momentum nm' = Norm.momentum doc_norm /\
   Norm.n_freeze nm' = Norm.n_freeze doc_norm /\
   Norm.training nm' = Norm.training doc_norm) /\
  (Norm.track_running_stats doc_norm = false \/
   Norm.estimate_mode doc_norm = Py.Ok false -> nm' = doc_norm).
Proof.
  apply (forward_frame qsqrt doc_norm (forward_state doc_norm doc_x (Some doc_seq_len))
           doc_x (forward_out qsqrt doc_norm doc_x (Some doc_seq_len)) (Some doc_seq_len)).
  vm_compute. reflexivity.
Defined.

(** The frozen instance: [freeze_norm] after one training call on the
    docstring input, which brings the count to the threshold 6. *)
Lemma freeze_keeps_running_stats_witness :
  let nm := forward_state freeze_norm doc_x (Some doc_seq_len) in
  Norm.freezed nm = Py.Ok true /\
  (forall mode, Norm.estimate_mode (Norm.train mode nm) = Py.Ok false) /\
  (forall mode x seq_len,
     accepts nm (shape x) seq_len = true ->
     Norm.forward qsqrt (Norm.train mode nm) x seq_len =
     Py.Ok (forward_out qsqrt (Norm.train mode nm) x seq_len, Norm.train mode nm)) /\
  (forall calls outs nm',
     Calls.run qsqrt nm calls = Py.Ok (outs, nm') ->
     Norm.num_tracked_values nm' = Norm.num_tracked_values nm /\
     Norm.running_mean nm' = Norm.running_mean nm /\
     Norm.running_power nm' = Norm.running_power nm /\
     Norm.freezed nm' = Py.Ok true).
Proof.
  apply (freeze_keeps_running_stats qsqrt
           (forward_state freeze_norm doc_x (Some doc_seq_len)) 6 6
           (new_count (full [1; 10; 1]%nat 0)
              (count_of freeze_norm (mask_of freeze_norm doc_x (Some doc_seq_len))))).
  - reflexivity.
  - reflexivity.
  - reflexivity.
  - vm_compute. reflexivity.
  - vm_compute. discriminate.
Defined.

(** C6 as stated fails: with a freeze threshold of 6 the first call on the
    docstring input (mean 2, six valid values per channel) freezes the
    instance, the second call replays, and the running mean stays at 1
    where the law gives 3/2. *)
Lemma running_mean_law_fails_when_frozen :
  exists y1 nm1 y2 nm2 mask mu p n rm2,
    Norm.momentum freeze_norm = Some (1 # 2) /\
    Norm.track_running_stats freeze_norm = true /\
    Norm.training freeze_norm = true /\
    Norm.running_mean freeze_norm = Some (full [1; 10; 1]%nat 0) /\
    Norm.forward qsqrt freeze_norm doc_x (Some doc_seq_len) = Py.Ok (y1, nm1) /\
    Norm.forward qsqrt nm1 doc_x (Some doc_seq_len) = Py.Ok (y2, nm2) /\
    Norm.compute_mask freeze_norm doc_x (Some doc_seq_len) = Py.Ok mask /\
    Norm.compute_stats freeze_norm doc_x mask = Py.Ok (mu, p, n) /\
    Norm.running_mean nm2 = Some rm2 /\
    tget rm2 [0; 0; 0]%nat == 1 /\
    ~ tget rm2 [0; 0; 0]%nat ==
      (1 # 2) * ((1 # 2) * 0 + (1 - (1 # 2)) * tget mu [0; 0; 0]%nat)
      + (1 - (1 # 2)) * tget mu [0; 0; 0]%nat.
Proof.
  assert (Ha : accepts freeze_norm (shape doc_x) (Some doc_seq_len) = true)
    by (vm_compute; reflexivity).
  pose proof (accepts_inv _ _ _ Ha) as (A1 & A2 & A3 & _).
  set (nm1 := forward_state freeze_norm doc_x (Some doc_seq_len)).
  assert (Ha1 : accepts nm1 (shape doc_x) (Some doc_seq_len) = true)
    by (vm_compute; reflexivity).
  exists (forward_out qsqrt freeze_norm doc_x (Some doc_seq_len)), nm1,
    (forward_out qsqrt nm1 doc_x (Some doc_seq_len)),
    (forward_state nm1 doc_x (Some doc_seq_len)),
    (mask_of freeze_norm doc_x (Some doc_seq_len)).
  eexists _, _, _, _.
  split; [reflexivity |]. split; [reflexivity |]. split; [reflexivity |].
  split; [vm_compute; reflexivity |].
  split; [now apply forward_closed |].
  split; [now apply forward_closed |].
  split; [now apply compute_mask_closed |].
  split; [apply (compute_stats_closed freeze_norm doc_x); try assumption; reflexivity |].
  split; [vm_compute; reflexivity |].
  split; [vm_compute; reflexivity |].
  vm_compute. discriminate.
Qed.

Lemma running_mean_after_two_calls_witness :
  exists y1 nm1 y2 nm2 mask1 mask2 mu1 p1 n1 mu2 p2 n2 rm2,
    Norm.forward qsqrt doc_norm doc_x (Some doc_seq_len) = Py.Ok (y1, nm1) /\
    Norm.forward qsqrt nm1 doc_x (Some doc_seq_len) = Py.Ok (y2, nm2) /\
    Norm.compute_mask doc_norm doc_x (Some doc_seq_len) = Py.Ok mask1 /\
    Norm.compute_stats doc_norm doc_x mask1 = Py.Ok (mu1, p1, n1) /\
    Norm.compute_mask nm1 doc_x (Some doc_seq_len) = Py.Ok mask2 /\
    Norm.compute_stats nm1 doc_x mask2 = Py.Ok (mu2, p2, n2) /\
    Norm.running_mean nm2 = Some rm2 /\
    forall j, valid_index (shape rm2) j ->
      tget rm2 j ==
      (1 # 2) * ((1 # 2) * 0 + (1 - (1 # 2)) * tget mu1 j) + (1 - (1 # 2)) * tget mu2 j.
Proof.
  apply (running_mean_after_two_calls qsqrt doc_norm (1 # 2) doc_x doc_x
           (Some doc_seq_len) (Some doc_seq_len)).
  - reflexivity.
  - reflexivity.
  - reflexivity.
  - vm_compute. reflexivity.
  - vm_compute. reflexivity.
  - intros rm j [= <-] Hj. apply In_indices in Hj. simpl in Hj.
    repeat (destruct Hj as [<- | Hj]; [reflexivity |]). contradiction.
  - reflexivity.
  - intros y1 nm1 H. vm_compute in H. injection H as _ <-. vm_compute. reflexivity.
Defined.


(** *** Construction *)

Lemma reduced_shape_spec (sh : list (option nat)) (stats : list nat) :
  Forall (fun i => i < length sh)%nat stats ->
  ((exists d, (d < length sh)%nat /\ ~ In d stats /\ nth d sh None = None) ->
   Norm.reduced_shape (Some sh) stats = Py.Raise Py.AssertionError) /\
  (forall rs, Norm.reduced_shape (Some sh) stats = Py.Ok rs ->
   length rs = length sh /\
   forall d, (d < length sh)%nat ->
     nth d rs 0%nat = (if mem d stats then 1%nat
                       else match nth d sh None with Some n => n | None => 0%nat end) /\
     (~ In d stats -> nth d sh None <> None)).
Proof.
  intros Hin. unfold Norm.reduced_shape.
  destruct (set_items_spec stats sh (Some 1%nat) Hin) as (r & -> & L & Hr).
  cbn [Py.bind].
  destruct (existsb (fun d => negb (Norm.is_not_None d)) r) eqn:E.
  - split; [reflexivity | discriminate].
  - cbn [negb Py.assert Py.bind]. split.
    + intros (d & Hd & Hn & Hnone). exfalso.
      assert (existsb (fun d => negb (Norm.is_not_None d)) r = true); [| congruence].
      apply existsb_exists. exists (nth d r None). split.
      * apply nth_In. lia.
      * rewrite Hr. destruct (mem d stats) eqn:Em; [apply mem_In in Em; contradiction |].
        now rewrite Hnone.
    + intros rs [= <-]. split; [now rewrite length_map |].
      intros d Hd.
      assert (Hd' : nth d r None <> None).
      { intros Hnone.
        assert (existsb (fun d => negb (Norm.is_not_None d)) r = true); [| congruence].
        apply existsb_exists. exists (nth d r None). split.
        - apply nth_In. lia.
        - now rewrite Hnone. }
      split.
      * pose proof (map_nth (fun d => match d with Some n => n | None => 0%nat end)
                      r None d) as Hm.
        cbv beta iota in Hm. rewrite Hm, Hr. now destruct (mem d stats).
      * intros Hn. rewrite Hr in Hd'.
        destruct (mem d stats) eqn:Em; [apply mem_In in Em; contradiction | exact Hd'].
Qed.

(** C9.  When the batch axis is one of the statistics axes (and the axis
    names resolve in the layout and the shape descriptor covers the
    statistics axes), [Norm.__init__] fails with an [AssertionError] if some
    axis outside the statistics axes has size [None]; if it succeeds, every
    axis outside the statistics axes has a concrete size, and the count and
    running-mean buffers are allocated with the shape that has 1 on the
    statistics axes and that size on the others. *)
Theorem init_requires_concrete_kept_axes (a : Norm.args) (sh : list (option nat))
    (batch sequence : nat) (stats : list nat) :
  Norm.a_shape a = Some sh ->
  Norm.str_index (Norm.a_data_format a) (Norm.lower (Norm.a_batch_axis a)) = Py.Ok batch ->
  Norm.str_index (Norm.a_data_format a) (Norm.lower (Norm.a_sequence_axis a))
    = Py.Ok sequence ->
  Norm.mapM (fun ax => Norm.str_index (Norm.a_data_format a) (Norm.lower ax))
    (String.list_ascii_of_string (Norm.a_statistics_axis a)) = Py.Ok stats ->
  Forall (fun i => i < length sh)%nat stats ->
  Norm.str_contains (Norm.a_statistics_axis a) (Norm.a_batch_axis a) = true ->
  ((exists d, (d < length sh)%nat /\ ~ In d stats /\ nth d sh None = None) ->
   Norm.init a = Py.Raise Py.AssertionError) /\
  (forall nm, Norm.init a = Py.Ok nm ->
     Norm.track_running_stats nm = true /\
     Norm.statistics_axis nm = stats /\
     (forall d, (d < length sh)%nat -> ~ In d stats -> nth d sh None <> None) /\
     exists rs,
       Norm.num_tracked_values nm = Some (full rs 0) /\
       Norm.running_mean nm = Some (full rs 0) /\
       length rs = length sh /\
       forall d, (d < length sh)%nat ->
         nth d rs 0%nat = if mem d stats then 1%nat
                          else match nth d sh None with Some n => n | None => 0%nat end).
Proof.
  intros Hsh Hb Hs Hst Hin Ht.
  destruct (reduced_shape_spec sh stats Hin) as [Hfail Hok].
  unfold Norm.init. rewrite Hb, Hs, Hst, Ht, Hsh. cbn [Py.bind]. split.
  - intros Hex. now rewrite (Hfail Hex).
  - intros nm H.
    destruct (Norm.reduced_shape (Some sh) stats) as [rs |] eqn:Ers; [| discriminate].
    cbn [Py.bind] in H. bind_inv H. destruct a0 as [lscale lshift].
    injection H as <-. cbn.
    destruct (Hok rs eq_refl) as [L Hrs].
    split; [reflexivity |]. split; [reflexivity |]. split.
    + intros d Hd Hn. now apply (Hrs d Hd).
    + exists rs. split; [reflexivity |]. split; [reflexivity |]. split; [exact L |].
      intros d Hd. now apply (Hrs d Hd).
Qed.


Lemma init_requires_concrete_kept_axes_witness :
  ((exists d, (d < 3)%nat /\ ~ In d [0; 2]%nat /\ nth d open_shape None = None) ->
   Norm.init open_args = Py.Raise Py.AssertionError) /\
  (forall nm, Norm.init open_args = Py.Ok nm ->
     Norm.track_running_stats nm = true /\
     Norm.statistics_axis nm = [0; 2]%nat /\
     (forall d, (d < 3)%nat -> ~ In d [0; 2]%nat -> nth d open_shape None <> None) /\
     exists rs,
       Norm.num_tracked_values nm = Some (full rs 0) /\
       Norm.running_mean nm = Some (full rs 0) /\
       length rs = 3%nat /\
       forall d, (d < 3)%nat ->
         nth d rs 0%nat = if mem d [0; 2]%nat then 1%nat
                          else match nth d open_shape None with
                               | Some n => n
                               | None => 0%nat
                               end).
Proof.
  apply (init_requires_concrete_kept_axes open_args open_shape 0 2 [0; 2]%nat);
    try (vm_compute; reflexivity).
  repeat constructor.
Defined.

(** The channel axis is kept by statistics over ['bt']; left open, the
    construction fails at the assertion of line 148. *)
Example init_rejects_open_channel :
  Norm.init open_args = Py.Raise Py.AssertionError.
Proof. vm_compute. reflexivity. Qed.

(** *** Resetting *)

(** C4 fails on the code.  [reset_running_stats] tests
    [self.scale is not None], which holds for [scale=False] too; with
    running statistics tracked and [scale=False] the buffer [running_power]
    is [None] and [self.running_power.fill_(1)] raises.  So does
    [reset_parameters], which calls it first. *)
Theorem reset_raises_when_scale_is_False :
  Norm.init plain_args = Py.Ok plain_norm /\
  Norm.track_running_stats plain_norm = true /\
  Norm.scale plain_norm = Some false /\
  Norm.running_power plain_norm = None /\
  Norm.reset_running_stats plain_norm = Py.Raise Py.AttributeError /\
  Norm.reset_parameters plain_norm = Py.Raise Py.AttributeError.
Proof. repeat split; vm_compute; reflexivity. Qed.

(** What [reset_parameters] does where it returns: with [scale] on (or
    [scale=None]) and the buffers registered, the count and the running
    mean are zero, the running power is one when [scale] is on, the
    learnable scale is one and the learnable shift zero. *)
Lemma reset_parameters_ok (nm : Norm.t) (count mean : tensor) :
  Norm.track_running_stats nm = true ->
  Norm.num_tracked_values nm = Some count ->
  Norm.running_mean nm = Some mean ->
  (Norm.is_not_None (Norm.scale nm) = true -> Norm.is_not_None (Norm.running_power nm) = true) ->
  exists nm',
    Norm.reset_parameters nm = Py.Ok nm' /\
    Norm.num_tracked_values nm' = Some (full_like count 0) /\
    Norm.running_mean nm' = Some (full_like mean 0) /\
    Norm.running_power nm' =
      (if Norm.is_not_None (Norm.scale nm)
       then option_map (fun p => full_like p 1) (Norm.running_power nm)
       else Norm.running_power nm) /\
    Norm.learnable_scale nm' = option_map (fun p => full_like p 1) (Norm.learnable_scale nm) /\
    Norm.learnable_shift nm' = option_map (fun p => full_like p 0) (Norm.learnable_shift nm).
Proof.
  intros Ht Ec Em Hp. unfold Norm.reset_parameters, Norm.reset_running_stats.
  rewrite Ht, Ec, Em. cbn [Norm.attr Py.bind].
  destruct (Norm.is_not_None (Norm.scale nm)).
  - specialize (Hp eq_refl). destruct (Norm.running_power nm) as [p |]; [| discriminate].
    cbn [Norm.attr Py.bind]. eexists. split; [reflexivity |]. repeat split.
  - cbn [Py.bind]. eexists. split; [reflexivity |]. repeat split.
Qed.

(** *** Degenerate windows *)

Lemma fmax_ge_r (a b : Q) : b <= fmax a b.
Proof.
  unfold fmax. destruct (Qle_bool a b) eqn:E; [lra |].
  assert (~ a <= b) by (rewrite <- Qle_bool_iff; congruence). lra.
Qed.

(** The divisors of the mean and of the power are at least 1, the divisor
    [n - 1] of the variance is at least 1. *)
Lemma clamped_divisors (n : Q) : 1 <= fmax n 1 /\ 1 <= clamp2 n - 1.
Proof.
  split; [apply fmax_ge_r |]. unfold clamp2.
  pose proof (fmax_ge_r n (2 * 1)). lra.
Qed.

Lemma qsum_zero (l : list Q) : Forall (fun v => v == 0) l -> qsum l == 0.
Proof.
  induction 1 as [| v l Hv _ IH]; simpl; [reflexivity |]. rewrite Hv, IH. ring.
Qed.

(** A window without valid positions has count, mean and power zero, and
    the variance under the square root is zero. *)
Lemma empty_window (nm : Norm.t) (x mask : tensor) (j : list nat) :
  shape mask = shape x ->
  (forall i, In i (window (shape x) (stat_axes nm (shape x)) j) -> tget mask i == 0) ->
  count_at nm mask j == 0 /\
  moment_at nm (fun v => v) x mask j == 0 /\
  moment_at nm (fun v => v * v) x mask j == 0 /\
  var_at (count_at nm mask j) (moment_at nm (fun v => v * v) x mask j)
    (moment_at nm (fun v => v) x mask j) == 0.
Proof.
  intros Es Hz.
  assert (Hc : count_at nm mask j == 0).
  { unfold count_at. rewrite Es. apply qsum_zero. apply Forall_forall.
    intros v Hv. apply in_map_iff in Hv as (i & <- & Hi). now apply Hz. }
  assert (Hs : forall g, g 0 == 0 -> (forall a b, a == b -> g a == g b) ->
                         sum_at nm g x mask j == 0).
  { intros g Hg Hp. unfold sum_at. apply qsum_zero. apply Forall_forall.
    intros v Hv. apply in_map_iff in Hv as (i & <- & Hi).
    rewrite (Hp (tget x i * tget mask i) 0); [exact Hg |].
    rewrite (Hz i Hi). ring. }
  assert (Hm : forall g, g 0 == 0 -> (forall a b, a == b -> g a == g b) ->
                         moment_at nm g x mask j == 0).
  { intros g Hg Hp. unfold moment_at. rewrite (Hs g Hg Hp).
    unfold Qdiv. ring. }
  assert (H1 : moment_at nm (fun v => v) x mask j == 0)
    by (apply Hm; [reflexivity | auto]).
  assert (H2 : moment_at nm (fun v => v * v) x mask j == 0).
  { apply Hm; [ring | intros a b E; now rewrite E]. }
  repeat split; try assumption.
  unfold var_at. rewrite H1, H2. ring.
Qed.

(** C8 fails on the code.  The divisors of the mean, of the power and of
    the variance are clamped, but with [momentum=None] line 213 divides
    [n_values] by the count buffer, and both are zero at a window that has
    had no valid position yet -- here the second frame, which is padding in
    the first batch.  The call returns, having divided 0 by 0. *)
Theorem adaptive_momentum_divides_by_zero :
  exists mask mean power n_values count count' y nm',
    Norm.init adaptive_args = Py.Ok adaptive_norm /\
    Norm.momentum adaptive_norm = None /\
    Norm.estimate_mode adaptive_norm = Py.Ok true /\
    Norm.compute_mask adaptive_norm padding_x (Some padding_seq_len) = Py.Ok mask /\
    tget mask [0; 0; 1]%nat = 0 /\
    Norm.compute_stats adaptive_norm padding_x mask = Py.Ok (mean, Some power, n_values) /\
    tget n_values [0; 0; 1]%nat == 0 /\
    Norm.num_tracked_values adaptive_norm = Some count /\
    tbin_ Qplus count n_values = Py.Ok count' /\
    tget count' [0; 0; 1]%nat == 0 /\
    Norm.forward qsqrt adaptive_norm padding_x (Some padding_seq_len) = Py.Ok (y, nm').
Proof.
  do 8 eexists.
  split; [vm_compute; reflexivity |]. split; [reflexivity |].
  split; [vm_compute; reflexivity |]. split; [vm_compute; reflexivity |].
  split; [vm_compute; reflexivity |]. split; [vm_compute; reflexivity |].
  split; [vm_compute; reflexivity |]. split; [reflexivity |].
  split; [vm_compute; reflexivity |]. split; [vm_compute; reflexivity |].
  vm_compute. reflexivity.
Qed.

End NormClaims.

(** ** Sorting, rows and the forward pass of [ConditionedNorm] *)

Module SortFacts.

Import ConditionedNorm.
Open Scope nat_scope.

Section Keyed.

Variable key : nat -> nat.

Definition has_key (c : nat) (i : nat) : bool := key i =? c.

Definition key_le (i j : nat) : Prop := key i <= key j.

Lemma insert_by_perm (a : nat) (l : list nat) : Permutation (insert_by key a l) (a :: l).
Proof.
  induction l as [| b l IH]; simpl; [reflexivity |].
  destruct (key b <? key a); [| reflexivity].
  rewrite IH. apply perm_swap.
Qed.

Lemma sort_by_perm (l : list nat) : Permutation (sort_by key l) l.
Proof.
  induction l as [| a l IH]; simpl; [reflexivity |].
  rewrite insert_by_perm. now apply perm_skip.
Qed.

Lemma insert_by_sorted (a : nat) (l : list nat) :
  StronglySorted key_le l -> StronglySorted key_le (insert_by key a l).
Proof.
  induction 1 as [| b l Hs IH Hb]; simpl.
  - repeat constructor.
  - destruct (key b <? key a) eqn:E.
    + apply Nat.ltb_lt in E. constructor; [exact IH |].
      apply Forall_forall. intros j Hj.
      apply (Permutation_in _ (insert_by_perm a l)) in Hj as [<- | Hj].
      * unfold key_le. lia.
      * rewrite Forall_forall in Hb. now apply Hb.
    + apply Nat.ltb_ge in E. constructor; [now constructor |].
      constructor; [exact E |].
      apply Forall_forall. intros j Hj. rewrite Forall_forall in Hb.
      specialize (Hb j Hj). unfold key_le in *. lia.
Qed.

Lemma sort_by_sorted (l : list nat) : StronglySorted key_le (sort_by key l).
Proof.
  induction l as [| a l IH]; simpl; [constructor | now apply insert_by_sorted].
Qed.

(** The sort is stable: the entries of one key keep their order. *)
Lemma filter_insert_by (c a : nat) (l : list nat) :
  filter (has_key c) (insert_by key a l) =
  if has_key c a then a :: filter (has_key c) l else filter (has_key c) l.
Proof.
  unfold has_key. induction l as [| b l IH]; simpl; [reflexivity |].
  destruct (key b <? key a) eqn:E; simpl.
  - rewrite IH. apply Nat.ltb_lt in E.
    destruct (key a =? c) eqn:Ea; [| reflexivity].
    apply Nat.eqb_eq in Ea.
    destruct (key b =? c) eqn:Eb; [apply Nat.eqb_eq in Eb; lia | reflexivity].
  - reflexivity.
Qed.

Lemma filter_sort_by (c : nat) (l : list nat) :
  filter (has_key c) (sort_by key l) = filter (has_key c) l.
Proof.
  induction l as [| a l IH]; simpl; [reflexivity |].
  rewrite filter_insert_by, IH. reflexivity.
Qed.

(** [sorted_set] of the keys of a sorted list *)

Lemma filter_none (c : nat) (l : list nat) :
  Forall (fun j => key j <> c) l -> filter (has_key c) l = [].
Proof.
  induction 1 as [| b l Hb _ IH]; simpl; [reflexivity |].
  unfold has_key at 1. destruct (key b =? c) eqn:E; [apply Nat.eqb_eq in E; contradiction |].
  exact IH.
Qed.

Lemma flat_map_filter_skip (a : nat) (l : list nat) (cs : list nat) :
  Forall (fun c => key a <> c) cs ->
  flat_map (fun c => filter (has_key c) (a :: l)) cs =
  flat_map (fun c => filter (has_key c) l) cs.
Proof.
  induction 1 as [| c cs Hc _ IH]; cbn [flat_map]; [reflexivity |].
  rewrite IH. f_equal. cbn [filter]. unfold has_key at 1.
  destruct (key a =? c) eqn:E; [apply Nat.eqb_eq in E; contradiction | reflexivity].
Qed.

Lemma insert_set_front (c : nat) (cs : list nat) :
  Forall (fun d => c <= d) cs ->
  insert_set c cs =
  match cs with
  | d :: _ => if c =? d then cs else c :: cs
  | [] => [c]
  end.
Proof.
  intros H. destruct cs as [| d cs]; [reflexivity |].
  inversion H as [| ? ? Hd _]; subst. cbn [insert_set].
  destruct (c <? d) eqn:E1; [apply Nat.ltb_lt in E1 | apply Nat.ltb_ge in E1].
  - destruct (c =? d) eqn:E2; [apply Nat.eqb_eq in E2; lia | reflexivity].
  - assert (c = d) by lia. subst. now rewrite Nat.eqb_refl.
Qed.

Lemma filter_head (a : nat) (l : list nat) :
  filter (has_key (key a)) (a :: l) = a :: filter (has_key (key a)) l.
Proof. cbn [filter]. unfold has_key at 1. now rewrite Nat.eqb_refl. Qed.

(** A sorted list is the concatenation of its groups, by increasing key. *)
Lemma sorted_groups (l : list nat) :
  StronglySorted key_le l ->
  flat_map (fun c => filter (has_key c) l) (sorted_set (map key l)) = l /\
  StronglySorted lt (sorted_set (map key l)) /\
  (forall c, In c (sorted_set (map key l)) <-> In c (map key l)).
Proof.
  induction 1 as [| a l Hs IH Ha].
  - repeat split; try constructor; auto.
  - destruct IH as (IH1 & IH2 & IH3).
    cbn [map sorted_set fold_right]. fold (sorted_set (map key l)).
    set (cs := sorted_set (map key l)) in *.
    assert (Hge : Forall (fun c => key a <= c) cs).
    { apply Forall_forall. intros c Hc. apply IH3 in Hc.
      apply in_map_iff in Hc as (j & <- & Hj).
      rewrite Forall_forall in Ha. now apply Ha. }
    rewrite (insert_set_front (key a) cs Hge).
    assert (Hnew : forall cs', Forall (fun c => key a < c) cs' ->
              (forall c, In c cs -> In c cs') ->
              filter (has_key (key a)) l = [] /\
              flat_map (fun c => filter (has_key c) (a :: l)) cs' =
              flat_map (fun c => filter (has_key c) l) cs').
    { intros cs' Hlt Hsub. split.
      - apply filter_none. apply Forall_forall. intros j Hj E.
        assert (Hin : In (key j) cs) by (apply IH3; now apply in_map).
        apply Hsub in Hin. rewrite Forall_forall in Hlt. specialize (Hlt _ Hin). lia.
      - apply flat_map_filter_skip. apply Forall_forall. intros c Hc.
        rewrite Forall_forall in Hlt. specialize (Hlt _ Hc). lia. }
    destruct cs as [| d cs'] eqn:Ecs.
    + destruct (Hnew [] (Forall_nil _) (fun c H => H)) as [E1 _].
      cbn [flat_map]. rewrite filter_head, E1, app_nil_r.
      cbn [flat_map] in IH1. subst l.
      split; [reflexivity |]. split; [repeat constructor |].
      intros c. cbn [map]. reflexivity.
    + inversion Hge as [| ? ? Hd Hge']; subst.
      inversion IH2 as [| ? ? Hs' Hlt]; subst.
      destruct (key a =? d) eqn:E; [apply Nat.eqb_eq in E | apply Nat.eqb_neq in E].
      * subst d. cbn [flat_map]. rewrite filter_head.
        rewrite (flat_map_filter_skip a l cs').
        2:{ apply Forall_forall. intros c Hc.
            rewrite Forall_forall in Hlt. specialize (Hlt _ Hc). lia. }
        cbn [flat_map] in IH1. cbn [app]. rewrite IH1.
        repeat split; [exact IH2 | |].
        -- intros Hc. right. now apply IH3.
        -- intros [<- | Hc]; [now left | now apply IH3].
      * assert (Hlt' : Forall (fun c => key a < c) (d :: cs')).
        { constructor; [lia |]. apply Forall_forall. intros c Hc.
          rewrite Forall_forall in Hlt. specialize (Hlt _ Hc). lia. }
        destruct (Hnew (d :: cs') Hlt' (fun c H => H)) as [E1 E2].
        cbn [flat_map]. rewrite filter_head, E1. cbn [app].
        cbn [flat_map] in E2. rewrite E2. cbn [flat_map] in IH1. rewrite IH1.
        repeat split.
        -- constructor; [exact IH2 | exact Hlt'].
        -- intros [<- | Hc]; [now left | right; now apply IH3].
        -- intros [<- | Hc]; [now left | right; now apply IH3].
Qed.

End Keyed.

(** Positions and entries *)

Lemma map_nth_seq (l : list nat) :
  map (fun k => nth k l 0) (seq 0 (length l)) = l.
Proof.
  apply nth_ext with (d := 0) (d' := 0); [now rewrite length_map, length_seq |].
  intros k Hk. rewrite length_map, length_seq in Hk.
  rewrite (nth_indep _ 0 (nth 0 l 0)) by (rewrite length_map, length_seq; lia).
  rewrite (map_nth (fun k => nth k l 0)). now rewrite seq_nth.
Qed.

Lemma filter_map_comm {A B : Type} (f : A -> B) (p : B -> bool) (l : list A) :
  filter p (map f l) = map f (filter (fun a => p (f a)) l).
Proof.
  induction l as [| a l IH]; simpl; [reflexivity |].
  destruct (p (f a)); simpl; now rewrite IH.
Qed.

Lemma filter_ext_in' {A : Type} (p q : A -> bool) (l : list A) :
  (forall a, In a l -> p a = q a) -> filter p l = filter q l.
Proof.
  induction l as [| a l IH]; intros H; simpl; [reflexivity |].
  rewrite (H a (or_introl eq_refl)), IH; [reflexivity |].
  intros b Hb. apply H. now right.
Qed.

(** What a sort index is *)

Lemma nodupb_NoDup (l : list nat) : Tensor.nodupb l = true -> NoDup l.
Proof.
  induction l as [| a l IH]; cbn [Tensor.nodupb]; intros H; [constructor |].
  apply andb_true_iff in H as [H1 H2]. constructor; [| now apply IH].
  intros Hin. apply negb_true_iff in H1. unfold Tensor.mem in H1.
  assert (E : existsb (Nat.eqb a) l = true).
  { apply existsb_exists. exists a. split; [exact Hin | apply Nat.eqb_refl]. }
  congruence.
Qed.

Lemma sortedb_sorted (key : nat -> nat) (l : list nat) :
  sortedb (map key l) = true -> StronglySorted (key_le key) l.
Proof.
  intros H. apply Sorted_StronglySorted.
  { intros a b c. unfold key_le. lia. }
  induction l as [| a l IH]; [constructor |].
  cbn [map sortedb] in H. destruct l as [| b l].
  - repeat constructor.
  - cbn [map] in H. apply andb_true_iff in H as [H1 H2].
    constructor; [now apply IH |]. constructor. unfold key_le.
    now apply Nat.leb_le.
Qed.

Lemma is_argsort_inv (conds S : list nat) :
  is_argsort conds S = true ->
  Permutation S (seq 0 (length conds)) /\
  StronglySorted (key_le (fun i => nth i conds 0)) S.
Proof.
  unfold is_argsort. rewrite !andb_true_iff.
  intros (((H1 & H2) & H3) & H4). apply Nat.eqb_eq in H1. split.
  - apply NoDup_Permutation_bis.
    + now apply nodupb_NoDup.
    + rewrite length_seq. lia.
    + intros i Hi. apply in_seq. rewrite forallb_forall in H2.
      specialize (H2 i Hi). apply Nat.ltb_lt in H2. lia.
  - now apply sortedb_sorted.
Qed.

(** The stable sort is one of the sorts [np.argsort] may run. *)
Lemma sorted_sortedb (key : nat -> nat) (l : list nat) :
  StronglySorted (key_le key) l -> sortedb (map key l) = true.
Proof.
  induction 1 as [| a l Hs IH Ha]; [reflexivity |].
  cbn [map sortedb]. destruct l as [| b l]; [reflexivity |].
  cbn [map] in *. rewrite IH, andb_true_r.
  inversion Ha as [| ? ? Hab _]; subst. now apply Nat.leb_le.
Qed.

Lemma NoDup_nodupb (l : list nat) : NoDup l -> Tensor.nodupb l = true.
Proof.
  induction 1 as [| a l Ha _ IH]; [reflexivity |].
  cbn [Tensor.nodupb]. rewrite IH, andb_true_r. apply negb_true_iff.
  unfold Tensor.mem. destruct (existsb (Nat.eqb a) l) eqn:E; [| reflexivity].
  apply existsb_exists in E as (b & Hb & Eb). apply Nat.eqb_eq in Eb. now subst.
Qed.

Lemma argsort_is_argsort (conds : list nat) : is_argsort conds (argsort conds) = true.
Proof.
  pose proof (sort_by_perm (fun i => nth i conds 0) (seq 0 (length conds))) as P.
  fold (argsort conds) in P.
  unfold is_argsort. rewrite !andb_true_iff. repeat split.
  - rewrite (Permutation_length P), length_seq. apply Nat.eqb_refl.
  - apply forallb_forall. intros i Hi. apply (Permutation_in _ P) in Hi.
    apply in_seq in Hi. apply Nat.ltb_lt. lia.
  - apply NoDup_nodupb. apply (Permutation_NoDup (Permutation_sym P)). apply seq_NoDup.
  - apply sorted_sortedb. apply sort_by_sorted.
Qed.

(** The positions of the sorted array that hold key [c], read through the
    sort, are the rows of [c] in the order of the sort. *)
Lemma argwhere_sorted (conds S : list nat) (c : nat) :
  let sorted := map (fun i => nth i conds 0) S in
  map (fun j => nth j S 0) (argwhere sorted c) = CondSpec.rows_of conds S c.
Proof.
  intros sorted. unfold argwhere.
  assert (E : filter (fun j => nth j sorted 0 =? c) (seq 0 (length sorted)) =
              filter (fun j => has_key (fun i => nth i conds 0) c (nth j S 0))
                (seq 0 (length S))).
  { unfold sorted. rewrite length_map. apply filter_ext_in'.
    intros j Hj. apply in_seq in Hj. unfold has_key.
    rewrite (nth_indep _ 0 (nth 0 conds 0)) by (rewrite length_map; lia).
    now rewrite (map_nth (fun i => nth i conds 0)). }
  rewrite E, <- (filter_map_comm (fun j => nth j S 0)), map_nth_seq.
  reflexivity.
Qed.

(** A sorted batch is the concatenation of its groups of rows, by
    increasing condition. *)
Lemma argsort_groups (conds S : list nat) :
  is_argsort conds S = true ->
  let sorted := map (fun i => nth i conds 0) S in
  flat_map (CondSpec.rows_of conds S) (sorted_set sorted) = S /\
  NoDup (sorted_set sorted) /\
  (forall c, In c (sorted_set sorted) <-> In c conds).
Proof.
  intros H sorted. apply is_argsort_inv in H as [P Hs].
  destruct (sorted_groups (fun i => nth i conds 0) S Hs) as (G1 & G2 & G3).
  fold sorted in G1, G2, G3. split; [| split].
  - exact G1.
  - clear - G2. induction G2 as [| d cs _ IH Hd]; constructor; [| exact IH].
    intros Hin. rewrite Forall_forall in Hd. specialize (Hd _ Hin). lia.
  - intros c. rewrite G3. unfold sorted.
    rewrite (Permutation_map (fun i => nth i conds 0) P), map_nth_seq. reflexivity.
Qed.


Lemma rows_of_argsort (conds : list nat) (c : nat) :
  CondSpec.rows_of conds (argsort conds) c = argwhere conds c.
Proof.
  exact (filter_sort_by (fun i => nth i conds 0) c (seq 0 (length conds))).
Qed.

Lemma argsort_perm (conds : list nat) :
  Permutation (argsort conds) (seq 0 (length conds)).
Proof. apply sort_by_perm. Qed.

(** [a[idx] = vals] *)
Lemma put_each_spec (idx : list nat) :
  forall (a vals : list nat),
  NoDup idx -> Forall (fun i => i < length a) idx -> length vals = length idx ->
  exists r, put_each a idx vals = Py.Ok r /\ length r = length a /\
    (forall k, k < length idx -> nth (nth k idx 0) r 0 = nth k vals 0) /\
    (forall d, ~ In d idx -> nth d r 0 = nth d a 0).
Proof.
  induction idx as [| i idx IH]; intros a vals Hnd Hin Hl.
  - exists a. destruct vals; [| discriminate]. simpl.
    repeat split; auto. intros k Hk. simpl in Hk. lia.
  - destruct vals as [| v vals]; [discriminate |]. simpl in Hl.
    inversion Hnd as [| ? ? Hni Hnd']; subst.
    inversion Hin as [| ? ? Hi Hin']; subst.
    destruct (NormFacts.set_item_spec a i v Hi) as (a1 & E1 & L1 & H1).
    cbn [put_each]. rewrite E1. cbn [Py.bind].
    destruct (IH a1 vals Hnd') as (r & Er & Lr & Hr1 & Hr2).
    { rewrite L1. exact Hin'. }
    { lia. }
    exists r. split; [exact Er |]. split; [congruence |]. split.
    + intros [| k] Hk; simpl in *.
      * rewrite Hr2 by exact Hni. rewrite H1. now rewrite Nat.eqb_refl.
      * apply Hr1. lia.
    + intros d Hd. rewrite Hr2 by (intros H; apply Hd; now right).
      rewrite H1. destruct (d =? i) eqn:E; [| reflexivity].
      apply Nat.eqb_eq in E. subst. exfalso. apply Hd. now left.
Qed.

Lemma take_ok {A : Type} (l : list A) (idx : list nat) (d : A) :
  Forall (fun i => i < length l) idx ->
  take l idx = Py.Ok (map (fun i => nth i l d) idx).
Proof.
  unfold take. induction 1 as [| i idx Hi _ IH]; simpl; [reflexivity |].
  rewrite (NormFacts.get_item_ok l i d Hi), IH. reflexivity.
Qed.

End SortFacts.

Module RowFacts.

Import Tensor TensorFacts Rows.
Open Scope nat_scope.

Lemma index0_ok (t : tensor) (n : nat) (rest idx : list nat) :
  shape t = n :: rest -> Forall (fun i => i < n) idx ->
  index0 t idx = Py.Ok (gather t idx).
Proof.
  intros Es Hin. unfold index0, gather. rewrite Es.
  assert (E : forallb (fun i => i <? n) idx = true).
  { apply forallb_forall. intros i Hi. rewrite Forall_forall in Hin.
    apply Nat.ltb_lt. now apply Hin. }
  now rewrite E.
Qed.

Lemma length_row (t : tensor) (n : nat) (rest : list nat) (i : nat) :
  wf t -> shape t = n :: rest -> i < n -> length (row t i) = numel rest.
Proof.
  intros Hw Es Hi. unfold row, row_size. unfold wf in Hw. rewrite Es in *. simpl in *.
  rewrite length_firstn, length_skipn. nia.
Qed.

Lemma chunk_flat_map {A : Type} (g : nat -> list A) (m : nat) (l : list nat) (d : nat) :
  Forall (fun i => length (g i) = m) l ->
  forall k, k < length l ->
  firstn m (skipn (k * m) (flat_map g l)) = g (nth k l d).
Proof.
  induction 1 as [| i l Hi _ IH]; intros k Hk; simpl in Hk; [lia |].
  destruct k as [| k]; simpl.
  - rewrite <- Hi. now rewrite firstn_app, Nat.sub_diag, firstn_all, app_nil_r.
  - rewrite skipn_app, Hi.
    replace (m + k * m - m) with (k * m) by lia.
    rewrite (skipn_all2 (g i)) by (rewrite Hi; lia).
    apply IH. lia.
Qed.

Section Gather.

Variable t : tensor.
Variable n : nat.
Variable rest : list nat.

Hypothesis t_wf : wf t.
Hypothesis t_shape : shape t = n :: rest.

Lemma rows_uniform (idx : list nat) :
  Forall (fun i => i < n) idx ->
  Forall (fun i => length (row t i) = numel rest) idx.
Proof.
  intros H. apply Forall_forall. intros i Hi. rewrite Forall_forall in H.
  apply length_row with (n := n); auto.
Qed.

Lemma shape_gather (idx : list nat) : shape (gather t idx) = length idx :: rest.
Proof. unfold gather. simpl. now rewrite t_shape. Qed.

Lemma wf_gather (idx : list nat) :
  Forall (fun i => i < n) idx -> wf (gather t idx).
Proof.
  intros H. unfold wf. rewrite shape_gather. unfold gather. cbn [data numel fold_right].
  apply rows_uniform in H. induction H as [| i idx Hi _ IH]; simpl; [reflexivity |].
  rewrite length_app, Hi, IH. reflexivity.
Qed.

Lemma row_gather (idx : list nat) (k : nat) :
  Forall (fun i => i < n) idx -> k < length idx ->
  row (gather t idx) k = row t (nth k idx 0).
Proof.
  intros H Hk. unfold row at 1. unfold row_size. rewrite shape_gather.
  cbn [tl]. unfold gather. cbn [data].
  apply chunk_flat_map; [now apply rows_uniform | exact Hk].
Qed.

Lemma gather_gather (idx idx2 : list nat) :
  Forall (fun i => i < n) idx -> Forall (fun k => k < length idx) idx2 ->
  gather (gather t idx) idx2 = gather t (map (fun k => nth k idx 0) idx2).
Proof.
  intros H H2. unfold gather at 1 3. rewrite shape_gather, t_shape, length_map.
  cbn [tl]. f_equal.
  induction H2 as [| k idx2 Hk _ IH]; simpl; [reflexivity |].
  rewrite IH, row_gather by assumption. reflexivity.
Qed.

Lemma gather_all : gather t (seq 0 n) = t.
Proof.
  unfold gather. rewrite length_seq, t_shape. cbn [tl].
  destruct t as [sh dt]. simpl in *. subst sh. f_equal.
  unfold wf in t_wf. simpl in t_wf.
  unfold row, row_size. cbn [shape data tl].
  set (m := numel rest) in *.
  assert (G : forall k a, length dt = (a + k) * m ->
            flat_map (fun i => firstn m (skipn (i * m) dt)) (seq a k) = skipn (a * m) dt).
  { induction k as [| k IH]; intros a Hl; simpl.
    - rewrite skipn_all2 by lia. reflexivity.
    - rewrite IH by lia.
      replace (S a * m) with (m + a * m) by lia.
      rewrite <- skipn_skipn. apply firstn_skipn. }
  rewrite (G n 0) by (simpl; lia). reflexivity.
Qed.

End Gather.

Lemma cat0_ok (ts : list tensor) (rest : list nat) :
  ts <> [] ->
  Forall (fun y => exists m, shape y = m :: rest) ts ->
  cat0 ts =
  Py.Ok (mk_tensor (fold_right Nat.add 0 (map nrows ts) :: rest) (flat_map data ts)).
Proof.
  intros Hne Hs. unfold cat0. destruct ts as [| t0 ts']; [contradiction |].
  pose proof Hs as Hs0. inversion Hs0 as [| ? ? (m0 & E0) _]; subst.
  rewrite E0.
  assert (E : forallb (fun y => negb (shape_eqb (shape y) []) && shape_eqb (tl (shape y)) rest)
                (t0 :: ts') = true).
  { apply forallb_forall. intros y Hy. rewrite Forall_forall in Hs.
    destruct (Hs y Hy) as (m & Em). rewrite Em. cbn [tl].
    rewrite shape_eqb_refl. reflexivity. }
  now rewrite E.
Qed.

Lemma app_inj_length {A : Type} (a b c d : list A) :
  length a = length b -> a ++ c = b ++ d -> a = b /\ c = d.
Proof.
  revert b. induction a as [| x a IH]; intros [| y b] L H; simpl in *; try discriminate.
  - auto.
  - injection H as -> H. destruct (IH b) as [-> ->]; auto.
Qed.

Lemma flat_map_blocks_inj {A B : Type} (f g : A -> list B) (cs : list A) :
  (forall c, In c cs -> length (f c) = length (g c)) ->
  flat_map f cs = flat_map g cs ->
  forall c, In c cs -> f c = g c.
Proof.
  induction cs as [| c0 cs IH]; intros Hl H c Hc; [destruct Hc |].
  simpl in H. apply app_inj_length in H as [H0 H1]; [| apply Hl; now left].
  destruct Hc as [<- | Hc]; [exact H0 |].
  apply IH; auto. intros c' Hc'. apply Hl. now right.
Qed.

End RowFacts.

Module CondFacts.

Import Tensor TensorFacts NormSpec Stats NormFacts Rows RowFacts SortFacts CondSpec Examples.
Import ConditionedNorm.
Open Scope nat_scope.

Lemma reduce_shape_batch (n : nat) (rest ax : list nat) :
  mem 0 ax = true -> reduce_shape (n :: rest) ax = reduce_shape (1 :: rest) ax.
Proof. intros H. unfold reduce_shape. simpl. now rewrite H. Qed.

Lemma takes_rows_accepts (nm : Norm.t) (rest : list nat) :
  takes_rows nm rest = true ->
  forall n sl, lengths_ok sl n = true -> NormSpec.accepts nm (n :: rest) sl = true.
Proof.
  unfold takes_rows. rewrite !andb_true_iff, !negb_true_iff.
  intros ((((Hb & Ha) & Ht) & H1) & H2) n sl Hl.
  apply Nat.eqb_eq in Hb.
  unfold NormSpec.accepts in *. rewrite !andb_true_iff in Ha.
  destruct Ha as (((((A1 & A2) & A3) & A4) & A5) & A6).
  destruct A3 as ((B1 & B2) & B3).
  cbn [length] in *. rewrite A1, A2. cbn [andb].
  assert (E3 : match sl with
               | Some l => (Norm.batch_axis nm <? S (length rest))
                           && (Norm.sequence_axis nm <? S (length rest))
                           && (length l =? nth (Norm.batch_axis nm) (n :: rest) 0)
               | None => true
               end = true).
  { destruct sl as [l |]; [| reflexivity]. rewrite B1, B2, Hb. exact Hl. }
  rewrite E3. cbn [andb].
  destruct (Norm.learnable_scale nm); [discriminate |].
  destruct (Norm.learnable_shift nm); [discriminate |].
  cbn [param_fits]. rewrite !andb_true_r.
  destruct (Norm.track_running_stats nm); [| reflexivity].
  cbn [negb orb] in Ht.
  assert (Es : stat_shape nm (n :: rest) = stat_shape nm (1 :: rest)).
  { unfold stat_shape, stat_axes in *. cbn [length] in *. now apply reduce_shape_batch. }
  rewrite Es. exact A4.
Qed.

Section WithSqrt.

Variable fsqrt : Q -> Q.

Lemma apply_norms_closed (x : tensor) (seq_len : option (list nat))
    (ia : nat -> list nat) (X : nat -> tensor) (SL : nat -> option (list nat)) :
  forall (cs : list nat) (norms0 : list Norm.t),
  NoDup cs ->
  (forall c, In c cs ->
     c < length norms0 /\
     index0 x (ia c) = Py.Ok (X c) /\
     option_take seq_len (ia c) = Py.Ok (SL c) /\
     NormSpec.accepts (nth c norms0 no_norm) (shape (X c)) (SL c) = true) ->
  exists norms',
    apply_norms fsqrt norms0 x seq_len (map (fun c => (c, ia c)) cs) =
    Py.Ok (map (fun c => forward_out fsqrt (nth c norms0 no_norm) (X c) (SL c)) cs,
           norms') /\
    length norms' = length norms0 /\
    (forall c, In c cs ->
       nth c norms' no_norm = forward_state (nth c norms0 no_norm) (X c) (SL c)) /\
    (forall c, ~ In c cs -> nth c norms' no_norm = nth c norms0 no_norm).
Proof.
  induction cs as [| c cs IH]; intros norms0 Hnd H.
  - exists norms0. simpl. repeat split; auto. intros c [].
  - inversion Hnd as [| ? ? Hc Hnd']; subst.
    destruct (H c (or_introl eq_refl)) as (Hlt & EX & ES & Ha).
    cbn [map apply_norms].
    rewrite (get_item_ok norms0 c no_norm Hlt). cbn [Py.bind].
    rewrite EX, ES. cbn [Py.bind].
    rewrite (forward_closed fsqrt _ _ _ Ha). cbn [Py.bind].
    destruct (NormFacts.set_item_spec norms0 c
                (forward_state (nth c norms0 no_norm) (X c) (SL c)) Hlt)
      as (norms1 & E1 & L1 & H1).
    rewrite E1. cbn [Py.bind].
    assert (Hsame : forall c', In c' cs -> nth c' norms1 no_norm = nth c' norms0 no_norm).
    { intros c' Hc'. rewrite H1. destruct (c' =? c) eqn:E; [| reflexivity].
      apply Nat.eqb_eq in E. subst. contradiction. }
    destruct (IH norms1 Hnd') as (norms' & E' & L' & G1 & G2).
    { intros c' Hc'. destruct (H c' (or_intror Hc')) as (A & B & C & D).
      rewrite L1, (Hsame c' Hc'). auto. }
    rewrite E'. cbn [Py.bind].
    exists norms'. split; [| split; [congruence | split]].
    + do 2 f_equal. f_equal. apply map_ext_in. intros c' Hc'. now rewrite (Hsame c' Hc').
    + intros c' [<- | Hc'].
      * rewrite G2 by exact Hc. rewrite H1. now rewrite Nat.eqb_refl.
      * rewrite G1 by exact Hc'. now rewrite (Hsame c' Hc').
    + intros c' Hc'. rewrite G2 by (intros Hin; apply Hc'; now right).
      rewrite H1. destruct (c' =? c) eqn:E; [| reflexivity].
      apply Nat.eqb_eq in E. subst. exfalso. apply Hc'. now left.
Qed.


End WithSqrt.

Lemma batch_accepts_inv (cn : t) (x : tensor) (conds : list nat) (sl : option (list nat)) :
  CondSpec.accepts cn x conds sl = true ->
  exists n rest,
    shape x = n :: rest /\ wf x /\ n <> 0 /\ length conds = n /\
    lengths_ok sl n = true /\
    Forall (fun c => c < length (norms cn)) conds /\
    (forall nm, In nm (norms cn) -> takes_rows nm rest = true) /\
    learnable_scale cn = None /\ learnable_shift cn = None.
Proof.
  unfold CondSpec.accepts. destruct (shape x) as [| n rest] eqn:Es; [discriminate |].
  rewrite !andb_true_iff, !negb_true_iff.
  intros (((((((H1 & H2) & H3) & H4) & H5) & H6) & H7) & H8).
  exists n, rest. split; [reflexivity |].
  apply Nat.eqb_eq in H1, H3. apply Nat.eqb_neq in H2.
  split; [unfold wf; now rewrite Es |]. split; [exact H2 |]. split; [exact H3 |].
  split; [exact H4 |]. split.
  { apply Forall_forall. intros c Hc. rewrite forallb_forall in H5.
    apply Nat.ltb_lt. now apply H5. }
  split; [now apply forallb_forall |].
  split.
  - now destruct (learnable_scale cn).
  - now destruct (learnable_shift cn).
Qed.

Lemma argwhere_bound (conds : list nat) (c : nat) :
  Forall (fun i => i < length conds) (argwhere conds c).
Proof.
  apply Forall_forall. intros i Hi. unfold argwhere in Hi.
  apply filter_In in Hi as [Hi _]. apply in_seq in Hi. lia.
Qed.

Lemma length_flat_map_rows {A : Type} (f : nat -> list A) (m : nat) (l : list nat) :
  Forall (fun i => length (f i) = m) l -> length (flat_map f l) = length l * m.
Proof.
  induction 1 as [| i l Hi _ IH]; simpl; [reflexivity |].
  now rewrite length_app, Hi, IH.
Qed.


Lemma combine_map_self {A B : Type} (f : A -> B) (l : list A) :
  combine l (map f l) = map (fun a => (a, f a)) l.
Proof. induction l as [| a l IH]; simpl; [reflexivity | now rewrite IH]. Qed.

Lemma option_take_ok (sl : option (list nat)) (n : nat) (idx : list nat) :
  lengths_ok sl n = true -> Forall (fun i => i < n) idx ->
  option_take sl idx = Py.Ok (lengths_of sl idx).
Proof.
  intros Hl Hi. destruct sl as [l |]; [| reflexivity]. simpl in *.
  apply Nat.eqb_eq in Hl. subst n. now rewrite (take_ok l idx 0 Hi).
Qed.

Lemma lengths_ok_lengths_of (sl : option (list nat)) (idx : list nat) :
  lengths_ok (lengths_of sl idx) (length idx) = true.
Proof. destruct sl as [l |]; simpl; [| reflexivity]. rewrite length_map. apply Nat.eqb_refl. Qed.

Lemma lengths_of_compose (sl : option (list nat)) (idx idx2 : list nat) :
  Forall (fun k => k < length idx) idx2 ->
  lengths_of (lengths_of sl idx) idx2 = lengths_of sl (map (fun k => nth k idx 0) idx2).
Proof.
  intros H. destruct sl as [l |]; simpl; [| reflexivity]. f_equal.
  rewrite map_map. apply map_ext_in. intros k Hk.
  rewrite Forall_forall in H. specialize (H k Hk).
  rewrite (nth_indep _ 0 (nth 0 l 0)) by (rewrite length_map; lia).
  now rewrite (map_nth (fun i => nth i l 0)).
Qed.


Lemma flat_map_flat_map {A B C : Type} (f : B -> list C) (g : A -> list B) (l : list A) :
  flat_map f (flat_map g l) = flat_map (fun a => flat_map f (g a)) l.
Proof.
  induction l as [| a l IH]; simpl; [reflexivity |].
  now rewrite flat_map_app, IH.
Qed.

Lemma flat_map_map {A B C : Type} (f : B -> list C) (g : A -> B) (l : list A) :
  flat_map f (map g l) = flat_map (fun a => f (g a)) l.
Proof. induction l as [| a l IH]; simpl; [reflexivity | now rewrite IH]. Qed.

Lemma length_flat_data (Y : nat -> tensor) (I : nat -> list nat) (m : nat) (cs : list nat) :
  (forall c, length (data (Y c)) = length (I c) * m) ->
  length (flat_map data (map Y cs)) = length (flat_map I cs) * m.
Proof.
  intros H. induction cs as [| c cs IH]; simpl; [reflexivity |].
  rewrite !length_app, IH, H. lia.
Qed.

Lemma sum_nrows (Y : nat -> tensor) (I : nat -> list nat) (rest cs : list nat) :
  (forall c, shape (Y c) = length (I c) :: rest) ->
  fold_right Nat.add 0 (map nrows (map Y cs)) = length (flat_map I cs).
Proof.
  intros H. induction cs as [| c cs IH]; simpl; [reflexivity |].
  rewrite length_app, IH. unfold nrows. now rewrite H.
Qed.

Section Forward.

Variable fsqrt : Q -> Q.

(** The result of the normaliser of condition [c] on the rows of [c], in
    the order of the sort. *)
Definition group_out (cn : t) (x : tensor) (conds S : list nat) (sl : option (list nat))
    (c : nat) : tensor :=
  forward_out fsqrt (nth c (norms cn) no_norm) (gather x (rows_of conds S c))
    (lengths_of sl (rows_of conds S c)).

Lemma rows_of_bound (conds S : list nat) (c n : nat) :
  Forall (fun i => i < n) S -> Forall (fun i => i < n) (rows_of conds S c).
Proof.
  intros H. apply Forall_forall. intros i Hi. unfold rows_of in Hi.
  apply filter_In in Hi as [Hi _]. rewrite Forall_forall in H. now apply H.
Qed.

Lemma forward_groups (cn : t) (x : tensor) (conds S : list nat) (sl : option (list nat)) :
  is_argsort conds S = true ->
  CondSpec.accepts cn x conds sl = true ->
  exists out norms',
    forward_sorted fsqrt S cn x conds sl =
    Py.Ok (out, mk (n_conditions cn) norms' (learnable_scale cn) (learnable_shift cn)) /\
    shape out = shape x /\
    wf out /\
    length norms' = length (norms cn) /\
    (forall c, In c conds ->
       gather out (rows_of conds S c) = group_out cn x conds S sl c /\
       nth c norms' no_norm =
       forward_state (nth c (norms cn) no_norm) (gather x (rows_of conds S c))
         (lengths_of sl (rows_of conds S c))) /\
    (forall c, ~ In c conds -> nth c norms' no_norm = nth c (norms cn) no_norm).
Proof.
  intros HS Ha.
  destruct (batch_accepts_inv cn x conds sl Ha)
    as (n & rest & Es & Hw & Hn & Hc & Hl & Hlt & Ht & Hs1 & Hs2).
  set (sorted := map (fun i => nth i conds 0) S).
  set (cs := sorted_set sorted).
  destruct (argsort_groups conds S HS) as (G1 & G2 & G3). fold sorted cs in G1, G2, G3.
  pose proof (proj1 (is_argsort_inv conds S HS)) as P. rewrite Hc in P.
  assert (LS : length S = n) by (rewrite (Permutation_length P); apply length_seq).
  assert (BS : Forall (fun i => i < n) S).
  { apply Forall_forall. intros i Hi. apply (Permutation_in _ P) in Hi.
    apply in_seq in Hi. lia. }
  assert (NS : NoDup S).
  { apply (Permutation_NoDup (Permutation_sym P)). apply seq_NoDup. }
  destruct (put_each_spec S (map (fun _ => 0) (seq 0 n)) (seq 0 n))
    as (r & Er & Lr & R1 & R2).
  { exact NS. }
  { now rewrite length_map, length_seq. }
  { now rewrite length_seq. }
  rewrite length_map, length_seq in Lr.
  assert (Br : Forall (fun i => i < n) r).
  { apply Forall_forall. intros v Hv.
    apply (In_nth _ _ 0) in Hv as (d & Hd & <-). rewrite Lr in Hd.
    assert (Hin : In d S).
    { apply (Permutation_in _ (Permutation_sym P)). apply in_seq. lia. }
    apply (In_nth _ _ 0) in Hin as (k & Hk & <-).
    rewrite R1 by exact Hk. rewrite seq_nth by lia. lia. }
  assert (Bw : forall c, Forall (fun k => k < length S) (argwhere sorted c)).
  { intros c. pose proof (argwhere_bound sorted c) as H.
    unfold sorted in H at 1. now rewrite length_map in H. }
  assert (Bc : forall c, Forall (fun i => i < n) (rows_of conds S c)).
  { intros c. now apply rows_of_bound. }
  assert (Ew : forall c, map (fun j => nth j S 0) (argwhere sorted c) = rows_of conds S c)
    by (intros c; apply argwhere_sorted).
  set (X := fun c => gather x (rows_of conds S c)).
  set (SL := fun c => lengths_of sl (rows_of conds S c)).
  destruct (apply_norms_closed fsqrt (gather x S) (lengths_of sl S) (argwhere sorted)
              X SL cs (norms cn) G2) as (norms' & Ea & La & N1 & N2).
  { intros c Hcin.
    assert (Hcl : c < length (norms cn)).
    { rewrite Forall_forall in Hlt. apply Hlt. now apply G3. }
    split; [exact Hcl |]. split; [| split].
    - rewrite (index0_ok (gather x S) n rest).
      + f_equal. unfold X. rewrite <- Ew.
        apply (gather_gather x n rest Hw Es); [exact BS | apply Bw].
      + now rewrite (shape_gather x n rest Es), LS.
      + rewrite <- LS. apply Bw.
    - rewrite (option_take_ok _ (length S)).
      + f_equal. unfold SL. rewrite <- Ew. apply lengths_of_compose. apply Bw.
      + apply lengths_ok_lengths_of.
      + apply Bw.
    - unfold X, SL. rewrite (shape_gather x n rest Es).
      apply takes_rows_accepts; [| apply lengths_ok_lengths_of].
      apply Ht. now apply nth_In. }
  set (Y := group_out cn x conds S sl).
  assert (EY : map (fun c => forward_out fsqrt (nth c (norms cn) no_norm) (X c) (SL c)) cs
               = map Y cs) by reflexivity.
  rewrite EY in Ea.
  assert (SY : forall c, shape (Y c) = length (rows_of conds S c) :: rest).
  { intros c. unfold Y, group_out, forward_out. cbn [shape tabulate].
    apply (shape_gather x n rest Es). }
  assert (WY : forall c, length (data (Y c)) = length (rows_of conds S c) * numel rest).
  { intros c. pose proof (wf_tabulate (shape (Y c))) as W.
    unfold Y, group_out, forward_out in *. unfold wf in W.
    rewrite W. cbn [shape tabulate]. rewrite (shape_gather x n rest Es). reflexivity. }
  assert (Hne : map Y cs <> []).
  { destruct conds as [| c0 conds']; [simpl in Hc; congruence |].
    assert (Hin : In c0 cs) by (apply G3; now left).
    destruct cs; [destruct Hin | discriminate]. }
  assert (Hrows : fold_right Nat.add 0 (map nrows (map Y cs)) = n).
  { rewrite <- LS, <- G1. apply (sum_nrows Y (rows_of conds S) rest cs SY). }
  set (x2 := mk_tensor (n :: rest) (flat_map data (map Y cs))).
  assert (Ecat : cat0 (map Y cs) = Py.Ok x2).
  { rewrite (cat0_ok (map Y cs) rest Hne).
    - unfold x2. now rewrite Hrows.
    - apply Forall_forall. intros y Hy. apply in_map_iff in Hy as (c & <- & _).
      eexists. apply SY. }
  assert (Wx2 : wf x2).
  { unfold wf, x2. cbn [shape data numel fold_right].
    rewrite <- LS, <- G1.
    apply (length_flat_data Y (rows_of conds S) (numel rest) cs WY). }
  set (out := gather x2 r).
  assert (Eout : index0 x2 r = Py.Ok out).
  { apply (index0_ok x2 n rest); [reflexivity | exact Br]. }
  assert (Sout : shape out = n :: rest).
  { unfold out. rewrite (shape_gather x2 n rest eq_refl). now rewrite Lr. }
  assert (Wout : wf out) by (apply (wf_gather x2 n rest Wx2 eq_refl); exact Br).
  exists out, norms'. split; [| split; [| split; [exact Wout | split; [| split]]]].
  - unfold forward_sorted. rewrite Es. cbn [Norm.get_item nth_error Py.bind].
    unfold put. rewrite length_seq, LS, Nat.eqb_refl, Er. cbn [Py.bind].
    rewrite (index0_ok x n rest S Es BS). cbn [Py.bind].
    rewrite (option_take_ok sl n S Hl BS). cbn [Py.bind].
    rewrite (take_ok conds S 0) by (rewrite Hc; exact BS). cbn [Py.bind].
    fold sorted. fold cs. rewrite combine_map_self, Ea. cbn [Py.bind].
    rewrite Ecat. cbn [Py.bind]. rewrite Eout. cbn [Py.bind].
    rewrite Hs1, Hs2. reflexivity.
  - congruence.
  - exact La.
  - intros c Hcin. assert (Hcs : In c cs) by now apply G3.
    split; [| now apply N1].
    assert (Hall : gather out S = x2).
    { unfold out. rewrite (gather_gather x2 n rest Wx2 eq_refl) by (rewrite ?Lr; assumption).
      assert (Em : map (fun k => nth k r 0) S = seq 0 n).
      { apply nth_ext with (d := 0) (d' := 0); [now rewrite length_map, length_seq |].
        intros j Hj. rewrite length_map in Hj.
        rewrite (nth_indep _ 0 (nth 0 r 0)) by (rewrite length_map; lia).
        rewrite (map_nth (fun k => nth k r 0)). now apply R1. }
      rewrite Em. apply (gather_all x2 n rest Wx2 eq_refl). }
    assert (Hdata : flat_map (fun c => flat_map (row out) (rows_of conds S c)) cs
                    = flat_map (fun c => data (Y c)) cs).
    { rewrite <- flat_map_flat_map, G1, <- (flat_map_map data Y cs).
      change (flat_map (row out) S) with (data (gather out S)). now rewrite Hall. }
    pose proof (flat_map_blocks_inj (fun c => flat_map (row out) (rows_of conds S c))
                  (fun c => data (Y c)) cs) as Hinj.
    cbv beta in Hinj.
    assert (Hblock : flat_map (row out) (rows_of conds S c) = data (Y c)).
    { apply Hinj; [| exact Hdata | exact Hcs].
      intros c' _. rewrite WY.
      apply length_flat_map_rows. apply (rows_uniform out n rest Wout Sout). apply Bc. }
    unfold gather. rewrite Hblock, Sout. cbn [tl]. rewrite <- SY.
    now destruct (Y c).
  - intros c Hcn. apply N2. intros Hin. apply Hcn. now apply G3.
Qed.

End Forward.

End CondFacts.

(** ** Properties of [ConditionedNorm] *)

Module CondClaims.

Import Tensor TensorFacts NormSpec Stats NormFacts Rows RowFacts SortFacts CondSpec.
Import CondFacts Examples.
Open Scope Q_scope.




(** C1 fails on the code.  Line 339 rebinds [seq_len] to the lengths in
    sorted order, and line 361 computes the final mask from these for the
    tensor that line 355 has put back in the original order.  With
    conditions [1, 0], lengths [1, 2] and a shift of 1, the entry of
    example 0 at [t = 1 >= seq_len[0]] is -1, and the valid entry of
    example 1 at [t = 1 < seq_len[1]] is zeroed. *)
Theorem conditioned_mask_uses_sorted_lengths :
  exists out cn',
    ConditionedNorm.init cond_args = Py.Ok cond_norm /\
    ConditionedNorm.forward qsqrt shifted_norm cond_x cond_conditions (Some cond_seq_len)
      = Py.Ok (out, cn') /\
    shape out = shape cond_x /\
    (nth 0 cond_seq_len 0 <= 1)%nat /\
    tget out [0; 0; 1]%nat == -1 /\
    (1 < nth 1 cond_seq_len 0)%nat /\
    tget out [1; 0; 1]%nat == 0.
Proof.
  do 2 eexists.
  split; [vm_compute; reflexivity |]. split; [vm_compute; reflexivity |].
  split; [reflexivity |]. split; [simpl; lia |].
  split; [vm_compute; reflexivity |]. split; [simpl; lia |].
  vm_compute. reflexivity.
Qed.

End CondClaims.

(** ** The forward pass over floating-point values

    The lemmas of this part hold for every arithmetic [ar]: they follow the
    shapes through [forward] and read the last multiplication. *)

Module FloatFacts.

Import Tensor TensorFacts NormFacts FloatNorm.
Open Scope nat_scope.

Lemma tget_tab {A : Type} (d : A) (sh : list nat) (f : list nat -> A) (i : list nat) :
  valid_index sh i -> tget d (tabulate sh f) i = f i.
Proof.
  intros H. unfold tget, tabulate. cbn [shape data].
  rewrite (nth_indep _ d (f i)) by (rewrite length_map, length_indices; now apply ravel_lt).
  rewrite (map_nth f). now rewrite nth_ravel_indices.
Qed.

Lemma tbin_shapes {A B C : Type} (da : A) (db : B) (f : A -> B -> C)
    (a : tensor A) (b : tensor B) (r : list nat) :
  broadcast_shapes (shape a) (shape b) = Some r ->
  tbin da db f a b =
  Py.Ok (tabulate r (fun i => f (tget da a (bidx (shape a) i)) (tget db b (bidx (shape b) i)))).
Proof. intros H. unfold tbin. now rewrite H. Qed.

Lemma expand_fits {A : Type} (d : A) (t : tensor A) (sh : list nat) :
  fits (shape t) sh ->
  expand d t sh = Py.Ok (tabulate sh (fun i => tget d t (bidx (shape t) i))).
Proof.
  intros H. unfold expand. destruct (fits_broadcast _ _ H) as [_ ->].
  now rewrite shape_eqb_refl.
Qed.

Section Arith.

Context {F : Type}.
Variable ar : arith F.

Lemma top_into (f : F -> F -> F) (a b : tensor F) :
  fits (shape b) (shape a) ->
  top ar f a b =
  Py.Ok (tabulate (shape a)
           (fun i => f (entry ar a (bidx (shape a) i)) (entry ar b (bidx (shape b) i)))).
Proof. intros H. apply tbin_shapes. now apply fits_broadcast. Qed.

Lemma top_from (f : F -> F -> F) (a b : tensor F) :
  fits (shape a) (shape b) ->
  top ar f a b =
  Py.Ok (tabulate (shape b)
           (fun i => f (entry ar a (bidx (shape a) i)) (entry ar b (bidx (shape b) i)))).
Proof. intros H. apply tbin_shapes. now apply fits_broadcast. Qed.

Lemma top__into (f : F -> F -> F) (a b : tensor F) :
  fits (shape b) (shape a) ->
  top_ ar f a b =
  Py.Ok (tabulate (shape a)
           (fun i => f (entry ar a (bidx (shape a) i)) (entry ar b (bidx (shape b) i)))).
Proof.
  intros H. unfold top_. rewrite (top_into f a b H). cbn [Py.bind shape tabulate].
  now rewrite shape_eqb_refl.
Qed.

Lemma fsum_ok (t : tensor F) (axes : list nat) :
  forallb (fun d => d <? length (shape t)) axes = true ->
  nodupb axes = true ->
  exists s, tsum ar t axes = Py.Ok s /\
    shape s = reduce_shape (shape t) (reduce_axes axes (length (shape t))).
Proof.
  intros H1 H2. unfold tsum. rewrite H1, H2. cbn [negb].
  eexists. split; reflexivity.
Qed.

(** *** The mask *)

Lemma compute_mask_entries (nm : t F) (x : tensor F) (sl : list nat) :
  batch_axis nm < length (shape x) ->
  sequence_axis nm < length (shape x) ->
  length sl = nth (batch_axis nm) (shape x) 0 ->
  exists m, compute_mask ar nm x (Some sl) = Py.Ok m /\ shape m = shape x /\
    forall i, valid_index (shape x) i ->
      entry ar m i =
      if nth (sequence_axis nm) i 0 <? nth (nth (batch_axis nm) i 0) sl 0
      then one ar else zero ar.
Proof.
  intros Hb Hs Hl. unfold compute_mask.
  set (sh := shape x) in *.
  rewrite (get_item_ok sh (sequence_axis nm) 0) by exact Hs. cbn [Py.bind].
  set (I := nth (sequence_axis nm) sh 0 :: repeat 1 (length sh - (sequence_axis nm + 1))).
  set (S := length sl :: repeat 1 (length sh - (batch_axis nm + 1))).
  assert (FI : fits I sh) by (apply fits_lead with (p := sequence_axis nm); auto).
  assert (FS : fits S sh) by (apply fits_lead with (p := batch_axis nm); auto).
  destruct (broadcast_join I S sh FI FS) as (R & HR & FR).
  rewrite (tbin_shapes _ _ _ _ _ R) by exact HR. cbn [Py.bind].
  rewrite expand_fits by exact FR.
  eexists. split; [reflexivity |]. split; [reflexivity |].
  intros i Hi. unfold entry. rewrite tget_tab by exact Hi. cbn [shape tabulate].
  pose proof (valid_index_length _ _ Hi) as Li.
  pose proof FR as (LR & _).
  rewrite tget_tab by (apply valid_bidx with (r := sh); assumption).
  rewrite (bidx_bidx I R i) by (try lia; eapply broadcast_fits_l; eassumption).
  rewrite (bidx_bidx S R i) by (try lia; eapply broadcast_fits_r; eassumption).
  rewrite !tget_tab by (apply valid_bidx with (r := sh); assumption).
  apply valid_index_nth in Hi as (_ & Hi).
  assert (LI : length I = length sh - sequence_axis nm)
    by (unfold I; simpl; rewrite repeat_length; lia).
  assert (LS : length S = length sh - batch_axis nm)
    by (unfold S; simpl; rewrite repeat_length; lia).
  assert (E1 : hd 0 (bidx I i) = nth (sequence_axis nm) i 0).
  { rewrite hd_bidx; rewrite ?Li, ?LI; try lia.
    - f_equal. lia.
    - replace (length sh - (length sh - sequence_axis nm)) with (sequence_axis nm) by lia.
      unfold I. simpl. now apply Hi. }
  assert (E2 : hd 0 (bidx S i) = nth (batch_axis nm) i 0).
  { rewrite hd_bidx; rewrite ?Li, ?LS; try lia.
    - f_equal. lia.
    - replace (length sh - (length sh - batch_axis nm)) with (batch_axis nm) by lia.
      unfold S. simpl. rewrite Hl. now apply Hi. }
  now rewrite E1, E2.
Qed.

(** *** The statistics *)

Section Statistics.

Variable nm : t F.
Variables x mask : tensor F.

Hypothesis axes_in : forallb (fun d => d <? length (shape x)) (statistics_axis nm) = true.
Hypothesis axes_nodup : nodupb (statistics_axis nm) = true.
Hypothesis mask_shape : shape mask = shape x.

Lemma fsum_stat (t : tensor F) :
  shape t = shape x ->
  exists s, tsum ar t (statistics_axis nm) = Py.Ok s /\ shape s = stat_shape nm (shape x).
Proof.
  intros E. destruct (fsum_ok t (statistics_axis nm)) as (s & Es & Ss).
  - now rewrite E.
  - exact axes_nodup.
  - exists s. split; [exact Es |]. rewrite Ss, E. reflexivity.
Qed.

Lemma compute_stats_shapes :
  exists mean power n_values,
    compute_stats ar nm x mask = Py.Ok (mean, power, n_values) /\
    shape mean = stat_shape nm (shape x) /\
    shape n_values = stat_shape nm (shape x) /\
    (if Norm.truthy (scale nm)
     then exists p, power = Some p /\ shape p = stat_shape nm (shape x)
     else power = None).
Proof.
  unfold compute_stats.
  destruct (fsum_stat mask mask_shape) as (n & En & Sn). rewrite En. cbn [Py.bind].
  rewrite top_into by (rewrite mask_shape; apply fits_refl). cbn [Py.bind].
  destruct (fsum_stat (tabulate (shape x)
              (fun i => mul ar (entry ar x (bidx (shape x) i))
                          (entry ar mask (bidx (shape mask) i)))) eq_refl)
    as (s & Es & Ss).
  rewrite Es. cbn [Py.bind].
  rewrite top_into by apply fits_refl. cbn [Py.bind].
  rewrite top_into by (cbn [shape tabulate]; rewrite Ss, Sn; apply fits_refl).
  cbn [Py.bind].
  destruct (Norm.truthy (scale nm)); cbn [negb].
  - match goal with
    | |- context [tsum ar ?t _] => destruct (fsum_stat t eq_refl) as (s2 & Es2 & Ss2)
    end.
    rewrite Es2. cbn [Py.bind].
    rewrite top_into by (cbn [shape tabulate]; rewrite Ss2, Sn; apply fits_refl).
    cbn [Py.bind].
    do 3 eexists. split; [reflexivity |]. cbn [shape tabulate].
    split; [exact Ss |]. split; [exact Sn |].
    eexists. split; [reflexivity |]. exact Ss2.
  - do 3 eexists. split; [reflexivity |]. cbn [shape tabulate].
    split; [exact Ss |]. split; [exact Sn |]. reflexivity.
Qed.

End Statistics.

Lemma variance_shape (count power mean : tensor F) :
  shape power = shape count -> shape mean = shape count ->
  exists v, variance ar count power mean = Py.Ok v /\ shape v = shape count.
Proof.
  intros Ep Em. unfold variance.
  rewrite top_into by apply fits_refl. cbn [Py.bind].
  rewrite top_into by apply fits_refl. cbn [Py.bind].
  rewrite top_into by (cbn [shape tmap tabulate]; rewrite Em, Ep; apply fits_refl).
  cbn [Py.bind].
  rewrite top_into by (cbn [shape tabulate]; rewrite Ep; apply fits_refl).
  eexists. split; reflexivity.
Qed.

Lemma normalize_shape (nm : t F) (x var : tensor F) :
  fits (shape var) (shape x) ->
  exists y, normalize ar nm x var = Py.Ok y /\ shape y = shape x.
Proof.
  intros H. unfold normalize. rewrite top_into by exact H.
  eexists. split; reflexivity.
Qed.

Lemma has_shape_some (o : option (tensor F)) (sh : list nat) :
  has_shape o sh = true -> exists t, o = Some t /\ shape t = sh.
Proof.
  destruct o as [t |]; simpl; [| discriminate].
  intros H. apply shape_eqb_true in H. eauto.
Qed.

Lemma param_fits_some (o : option (tensor F)) (sh : list nat) :
  param_fits o sh = true ->
  match o with Some p => fits (shape p) sh | None => True end.
Proof.
  destruct o as [p |]; simpl; [| auto]. unfold NormSpec.fitsb.
  destruct (broadcast_shapes (shape p) sh) as [r |] eqn:E; [| discriminate].
  intros H. apply shape_eqb_true in H. subst r.
  now apply broadcast_fits_l in E.
Qed.

Lemma update_stat_shape (old momentum stat : tensor F) (A : Type)
    (K : tensor F -> Py.result A) :
  fits (shape momentum) (shape old) -> shape stat = shape old ->
  exists r, shape r = shape old /\
    (r <- top_ ar (mul ar) old momentum ;;
     new <- top ar (mul ar) (tmap ar (fun v => sub ar (one ar) v) momentum) stat ;;
     r <- top_ ar (add ar) r new ;;
     K r) = K r.
Proof.
  intros Hm Es.
  rewrite top__into by exact Hm. cbn [Py.bind].
  rewrite top_from by (cbn [shape tmap tabulate]; rewrite Es; exact Hm). cbn [Py.bind].
  rewrite top__into by (cbn [shape tabulate]; rewrite Es; apply fits_refl).
  cbn [Py.bind]. eexists. split; [| reflexivity]. reflexivity.
Qed.

Lemma update_running_stats_ok (nm : t F) (mean : tensor F) (power : option (tensor F))
    (n_values : tensor F) (sh : list nat) :
  has_shape (num_tracked_values nm) sh = true ->
  has_shape (running_mean nm) sh = true ->
  (Norm.truthy (scale nm) = true -> has_shape (running_power nm) sh = true) ->
  shape mean = sh -> shape n_values = sh ->
  (if Norm.truthy (scale nm) then exists p, power = Some p /\ shape p = sh
   else power = None) ->
  exists count rmean rpower,
    update_running_stats ar nm mean power n_values
    = Py.Ok (set_buffers nm count rmean rpower).
Proof.
  intros Hc Hm Hp Em En Hpow.
  apply has_shape_some in Hc as (c & Ec & Sc).
  apply has_shape_some in Hm as (m & Emn & Sm).
  unfold update_running_stats. rewrite Ec, Emn. cbn [Norm.attr Py.bind].
  rewrite top__into by (rewrite En, Sc; apply fits_refl). cbn [Py.bind].
  set (count := tabulate (shape c) _).
  assert (Hmom : exists mom,
            match momentum nm with
            | Some m0 => Py.Ok (tscalar m0)
            | None =>
                r <- top ar (div ar) n_values count ;;
                Py.Ok (tmap ar (fun v => sub ar (one ar) v) r)
            end = Py.Ok mom /\ fits (shape mom) sh).
  { destruct (momentum nm) as [m0 |].
    - eexists. split; [reflexivity |]. apply fits_nil.
    - rewrite top_into by (unfold count; cbn [shape tabulate]; rewrite En, Sc; apply fits_refl).
      cbn [Py.bind]. eexists. split; [reflexivity |].
      cbn [shape tmap tabulate]. rewrite En. apply fits_refl. }
  destruct Hmom as (mom & -> & Fm). cbn [Py.bind].
  destruct (Norm.truthy (scale nm)) eqn:Et.
  - destruct Hpow as (p & -> & Sp).
    destruct (has_shape_some _ _ (Hp eq_refl)) as (rp & Erp & Srp).
    rewrite Erp. cbn [Norm.attr].
    destruct (update_stat_shape m mom mean _
                (fun rmean =>
                   rpower <- Py.Ok rp ;;
                   rpower <- top_ ar (mul ar) rpower mom ;;
                   power <- Py.Ok p ;;
                   new <- top ar (mul ar) (tmap ar (fun v => sub ar (one ar) v) mom) power ;;
                   rpower <- top_ ar (add ar) rpower new ;;
                   Py.Ok (set_buffers nm (Some count) (Some rmean) (Some rpower))))
      as (r1 & S1 & E1).
    { now rewrite Sm. } { congruence. }
    rewrite E1. cbn [Py.bind].
    destruct (update_stat_shape rp mom p _
                (fun rpower => Py.Ok (set_buffers nm (Some count) (Some r1) (Some rpower))))
      as (r2 & S2 & E2).
    { now rewrite Srp. } { congruence. }
    rewrite E2. do 3 eexists. reflexivity.
  - destruct (update_stat_shape m mom mean _
                (fun rmean => Py.Ok (set_buffers nm (Some count) (Some rmean)
                                       (running_power nm))))
      as (r1 & S1 & E1).
    { now rewrite Sm. } { congruence. }
    rewrite E1. do 3 eexists. reflexivity.
Qed.

Lemma accepts_parts (nm : t F) (sh : list nat) (sl : option (list nat)) :
  accepts nm sh sl = true ->
  forallb (fun d => d <? length sh) (statistics_axis nm) = true /\
  nodupb (statistics_axis nm) = true /\
  match sl with
  | None => True
  | Some l =>
      batch_axis nm < length sh /\
      sequence_axis nm < length sh /\
      length l = nth (batch_axis nm) sh 0
  end /\
  (track_running_stats nm = true ->
   has_shape (num_tracked_values nm) (stat_shape nm sh) = true /\
   has_shape (running_mean nm) (stat_shape nm sh) = true /\
   (Norm.truthy (scale nm) = true ->
    has_shape (running_power nm) (stat_shape nm sh) = true) /\
   (Norm.is_not_None (n_freeze nm) = true -> nonempty (num_tracked_values nm) = true)) /\
  param_fits (learnable_scale nm) sh = true /\
  param_fits (learnable_shift nm) sh = true.
Proof.
  unfold accepts. rewrite !andb_true_iff.
  intros (((((H1 & H2) & H3) & H4) & H5) & H6).
  split; [exact H1 |]. split; [exact H2 |]. split.
  { destruct sl as [l |]; [| exact I].
    rewrite !andb_true_iff in H3. destruct H3 as ((A & B) & C).
    apply Nat.ltb_lt in A, B. apply Nat.eqb_eq in C. auto. }
  split; [| split; assumption].
  intros Ht. rewrite Ht, !andb_true_iff in H4.
  destruct H4 as (((A & B) & C) & D).
  split; [exact A |]. split; [exact B |]. split.
  - intros Hs. now rewrite Hs in C.
  - intros Hf. now rewrite Hf in D.
Qed.

Lemma estimate_mode_ok (nm : t F) :
  (track_running_stats nm = true -> Norm.is_not_None (n_freeze nm) = true ->
   nonempty (num_tracked_values nm) = true) ->
  exists est, estimate_mode ar nm = Py.Ok est.
Proof.
  intros H. unfold estimate_mode, freezed.
  destruct (training nm); [| eexists; reflexivity].
  destruct (n_freeze nm) as [k |]; [| eexists; reflexivity].
  destruct (track_running_stats nm); [| eexists; reflexivity].
  specialize (H eq_refl eq_refl). unfold nonempty in H.
  destruct (num_tracked_values nm) as [c |]; [| discriminate].
  cbn [Norm.attr Py.bind]. unfold tmax_all.
  destruct (data c); [discriminate |]. cbn [Py.bind].
  destruct (negb _); eexists; reflexivity.
Qed.

Lemma affine_shape (lscale lshift : option (tensor F)) (x : tensor F) :
  match lscale with Some p => fits (shape p) (shape x) | None => True end ->
  match lshift with Some p => fits (shape p) (shape x) | None => True end ->
  exists y, affine ar lscale lshift x = Py.Ok y /\ shape y = shape x.
Proof.
  intros H1 H2. unfold affine.
  destruct lscale as [s |]; destruct lshift as [u |]; cbn [Py.bind].
  - rewrite top_into by exact H1. cbn [Py.bind].
    rewrite top_into by exact H2. eexists. split; reflexivity.
  - rewrite top_into by exact H1. eexists. split; reflexivity.
  - rewrite top_into by exact H2. eexists. split; reflexivity.
  - eexists. split; reflexivity.
Qed.

Section Accepted.

Variable nm : t F.
Variables x mask : tensor F.
Variable sl : option (list nat).

Hypothesis Ha : accepts nm (shape x) sl = true.
Hypothesis mask_shape : shape mask = shape x.

Lemma estimate_ok :
  exists y nm',
    estimate ar nm x mask = Py.Ok (y, nm') /\ shape y = shape x /\
    learnable_scale nm' = learnable_scale nm /\
    learnable_shift nm' = learnable_shift nm.
Proof.
  destruct (accepts_parts nm (shape x) sl Ha) as (A1 & A2 & _ & A4 & _).
  destruct (compute_stats_shapes nm x mask A1 A2 mask_shape)
    as (mean & power & n & Ecs & Sm & Sn & Hp).
  unfold estimate. rewrite Ecs. cbn [Py.bind].
  rewrite top_into by (rewrite Sm; apply fits_reduce_shape). cbn [Py.bind].
  set (x1 := tabulate (shape x) _).
  assert (Hx2 : exists x2,
            (if Norm.truthy (scale nm)
             then power0 <- Norm.attr power ;;
                  var <- variance ar n power0 mean ;; normalize ar nm x1 var
             else Py.Ok x1) = Py.Ok x2 /\ shape x2 = shape x).
  { destruct (Norm.truthy (scale nm)).
    - destruct Hp as (p & -> & Sp). cbn [Norm.attr Py.bind].
      destruct (variance_shape n p mean) as (v & Ev & Sv); [congruence | congruence |].
      rewrite Ev. cbn [Py.bind].
      destruct (normalize_shape nm x1 v) as (y & Ey & Sy).
      { rewrite Sv, Sn. unfold x1. cbn [shape tabulate]. apply fits_reduce_shape. }
      exists y. split; [exact Ey |]. exact Sy.
    - exists x1. split; reflexivity. }
  destruct Hx2 as (x2 & -> & S2). cbn [Py.bind].
  destruct (track_running_stats nm) eqn:Et.
  - destruct (A4 eq_refl) as (B1 & B2 & B3 & _).
    destruct (update_running_stats_ok nm mean power n (stat_shape nm (shape x))
                B1 B2 B3 Sm Sn Hp) as (c & m & p & ->).
    cbn [Py.bind]. do 2 eexists. split; [reflexivity |]. split; [exact S2 |].
    split; reflexivity.
  - cbn [Py.bind]. do 2 eexists. split; [reflexivity |]. split; [exact S2 |].
    split; reflexivity.
Qed.

Lemma replay_ok :
  track_running_stats nm = true ->
  exists y, replay ar nm x = Py.Ok y /\ shape y = shape x.
Proof.
  intros Ht.
  destruct (accepts_parts nm (shape x) sl Ha) as (A1 & A2 & _ & A4 & _).
  destruct (A4 Ht) as (B1 & B2 & B3 & _).
  apply has_shape_some in B1 as (c & Ec & Sc).
  apply has_shape_some in B2 as (m & Em & Sm).
  unfold replay. rewrite Em. cbn [Norm.attr Py.bind].
  rewrite top_into by (rewrite Sm; apply fits_reduce_shape). cbn [Py.bind].
  destruct (Norm.truthy (scale nm)).
  - destruct (has_shape_some _ _ (B3 eq_refl)) as (rp & Erp & Srp).
    rewrite Ec, Erp. cbn [Norm.attr Py.bind].
    destruct (variance_shape c rp m) as (v & Ev & Sv); [congruence | congruence |].
    rewrite Ev. cbn [Py.bind].
    match goal with
    | |- context [normalize ar nm ?x1 v] =>
        destruct (normalize_shape nm x1 v) as (y & Ey & Sy)
    end.
    { rewrite Sv, Sc. cbn [shape tabulate]. apply fits_reduce_shape. }
    exists y. split; [exact Ey | exact Sy].
  - eexists. split; reflexivity.
Qed.

Lemma before_mask_ok :
  exists y nm', before_mask ar nm x mask = Py.Ok (y, nm') /\ shape y = shape x.
Proof.
  pose proof (accepts_parts nm (shape x) sl Ha) as (A1 & A2 & _ & A4 & A5 & A6).
  destruct (estimate_mode_ok nm) as (est & Ee).
  { intros Ht Hf. now destruct (A4 Ht) as (_ & _ & _ & B4); apply B4. }
  unfold before_mask. rewrite Ee. cbn [Py.bind].
  assert (H : exists y nm',
            (if est then estimate ar nm x mask
             else x0 <- replay ar nm x ;; Py.Ok (x0, nm)) = Py.Ok (y, nm') /\
            shape y = shape x /\
            learnable_scale nm' = learnable_scale nm /\
            learnable_shift nm' = learnable_shift nm).
  { destruct est.
    - apply estimate_ok.
    - assert (Ht : track_running_stats nm = true).
      { unfold estimate_mode in Ee. destruct (training nm).
        - destruct (freezed ar nm) as [f | e]; cbn [Py.bind] in Ee; [| discriminate].
          destruct (negb f); [discriminate |].
          injection Ee as Ee. now apply negb_false_iff in Ee.
        - injection Ee as Ee. now apply negb_false_iff in Ee. }
      destruct (replay_ok Ht) as (y & -> & Sy). cbn [Py.bind].
      exists y, nm. repeat split; auto. }
  destruct H as (y & nm' & -> & Sy & L1 & L2). cbn [Py.bind].
  rewrite L1, L2.
  destruct (affine_shape (learnable_scale nm) (learnable_shift nm) y)
    as (z & -> & Sz).
  - rewrite Sy. now apply param_fits_some.
  - rewrite Sy. now apply param_fits_some.
  - cbn [Py.bind]. exists z, nm'. split; [reflexivity | congruence].
Qed.

End Accepted.

(** Line 234: every entry of the result is the entry before the mask times
    the entry of the mask, which is [0.0] in the padding. *)
Lemma forward_entries (nm : t F) (x : tensor F) (seq_len : list nat) :
  accepts nm (shape x) (Some seq_len) = true ->
  exists mask y out nm',
    compute_mask ar nm x (Some seq_len) = Py.Ok mask /\
    before_mask ar nm x mask = Py.Ok (y, nm') /\
    forward ar nm x (Some seq_len) = Py.Ok (out, nm') /\
    shape y = shape x /\ shape out = shape x /\
    forall i, valid_index (shape x) i ->
      entry ar out i = mul ar (entry ar y i) (entry ar mask i) /\
      (padded nm seq_len i -> entry ar mask i = zero ar).
Proof.
  intros Ha.
  pose proof (accepts_parts nm (shape x) (Some seq_len) Ha) as (_ & _ & (Hb & Hs & Hl) & _).
  destruct (compute_mask_entries nm x seq_len Hb Hs Hl) as (mask & Em & Sm & Hm).
  destruct (before_mask_ok nm x mask (Some seq_len) Ha Sm) as (y & nm' & Ey & Sy).
  exists mask, y. eexists. exists nm'.
  split; [exact Em |]. split; [exact Ey |].
  unfold forward. rewrite Em. cbn [Py.bind]. rewrite Ey. cbn [Py.bind].
  rewrite top_into by (rewrite Sm, Sy; apply fits_refl). cbn [Py.bind].
  split; [reflexivity |]. split; [exact Sy |]. cbn [shape tabulate].
  split; [exact Sy |].
  intros i Hi. split.
  - unfold entry at 1. rewrite tget_tab by (rewrite Sy; exact Hi).
    rewrite Sy, Sm. now rewrite (bidx_same (shape x) i Hi).
  - intros Hp. rewrite (Hm i Hi). unfold padded in Hp.
    destruct (_ <? _) eqn:E; [| reflexivity].
    apply Nat.ltb_lt in E. lia.
Qed.

End Arith.

End FloatFacts.

(** ** Padding and values that are not finite *)

Module FloatClaims.

Import Tensor TensorFacts FloatNorm FloatFacts Ieee Examples FloatExamples.
Open Scope Q_scope.

(** What the multiplication by a mask entry [0.0] leaves. *)
Lemma fmul_zero (v : num) :
  (finite v -> is_zero (fmul v (Fin 0))) /\ (~ finite v -> fmul v (Fin 0) = NaN).
Proof.
  destruct v as [q | | |]; cbn [finite is_zero fmul]; split; try tauto;
    try (intros _; reflexivity).
  intros _. ring.
Qed.

(** C7, as amended.  Every input that matches the instance, with one length
    per batch entry, makes [Norm.forward] return a tensor of the input's
    shape.  At every position [t >= seq_len[b]] along the sequence axis its
    entry is the entry that lines 203-233 computed there, after the affine
    step, times the mask entry 0.0: it is zero if that entry is finite, and
    [nan] if that entry is an infinity or [nan]. *)
Theorem forward_padding_zero_or_nan (fsqrt : Q -> Q) (nm : FloatNorm.t num)
    (x : FloatNorm.tensor num) (seq_len : list nat) :
  FloatNorm.accepts nm (FloatNorm.shape x) (Some seq_len) = true ->
  exists mask y out nm',
    FloatNorm.compute_mask (ieee fsqrt) nm x (Some seq_len) = Py.Ok mask /\
    before_mask (ieee fsqrt) nm x mask = Py.Ok (y, nm') /\
    FloatNorm.forward (ieee fsqrt) nm x (Some seq_len) = Py.Ok (out, nm') /\
    FloatNorm.shape y = FloatNorm.shape x /\
    FloatNorm.shape out = FloatNorm.shape x /\
    forall i, valid_index (FloatNorm.shape x) i -> FloatNorm.padded nm seq_len i ->
      (finite (entry (ieee fsqrt) y i) -> is_zero (entry (ieee fsqrt) out i)) /\
      (~ finite (entry (ieee fsqrt) y i) -> entry (ieee fsqrt) out i = NaN).
Proof.
  intros Ha.
  destruct (forward_entries (ieee fsqrt) nm x seq_len Ha)
    as (mask & y & out & nm' & Em & Ey & Eo & Sy & So & H).
  exists mask, y, out, nm'. repeat (split; [assumption |]).
  intros i Hi Hp. destruct (H i Hi) as [E Hz].
  rewrite E, (Hz Hp). apply fmul_zero.
Qed.

Lemma forward_padding_zero_or_nan_witness :
  exists mask y out nm',
    FloatNorm.compute_mask (ieee qsqrt) (of_norm Fin doc_norm) (of_tensor Fin doc_x)
      (Some doc_seq_len) = Py.Ok mask /\
    before_mask (ieee qsqrt) (of_norm Fin doc_norm) (of_tensor Fin doc_x) mask
      = Py.Ok (y, nm') /\
    FloatNorm.forward (ieee qsqrt) (of_norm Fin doc_norm) (of_tensor Fin doc_x)
      (Some doc_seq_len) = Py.Ok (out, nm') /\
    FloatNorm.shape y = FloatNorm.shape (of_tensor Fin doc_x) /\
    FloatNorm.shape out = FloatNorm.shape (of_tensor Fin doc_x) /\
    forall i, valid_index (FloatNorm.shape (of_tensor Fin doc_x)) i ->
      FloatNorm.padded (of_norm Fin doc_norm) doc_seq_len i ->
      (finite (entry (ieee qsqrt) y i) -> is_zero (entry (ieee qsqrt) out i)) /\
      (~ finite (entry (ieee qsqrt) y i) -> entry (ieee qsqrt) out i = NaN).
Proof.
  apply (forward_padding_zero_or_nan qsqrt (of_norm Fin doc_norm) (of_tensor Fin doc_x)
           doc_seq_len).
  vm_compute. reflexivity.
Defined.

(** C7 as stated fails.  With [eps = 0] and an example whose valid frame
    is 2.0, the mean is 2, the power 4 and the variance 0, so line 209
    divides 0 by 0: the entry of the padding frame is [nan] before line 234
    and after it.  With the default [eps], in evaluation mode, an example
    whose padding frame holds [inf] gives [inf] there before line 234, and
    [inf * 0 = nan] after it, next to a finite entry at the valid frame. *)
Lemma padding_keeps_nan :
  exists out nm' out2 nm2,
    Norm.init zero_eps_args = Py.Ok zero_eps_norm /\
    FloatNorm.forward (ieee qsqrt) (of_norm Fin zero_eps_norm) (of_tensor Fin constant_x)
      (Some [1%nat]) = Py.Ok (out, nm') /\
    FloatNorm.padded (of_norm Fin zero_eps_norm) [1%nat] [0; 0; 1]%nat /\
    entry (ieee qsqrt) out [0; 0; 1]%nat = NaN /\
    ~ is_zero (entry (ieee qsqrt) out [0; 0; 1]%nat) /\
    Norm.init one_channel_args = Py.Ok one_channel_norm /\
    FloatNorm.forward (ieee qsqrt) (of_norm Fin (Norm.train false one_channel_norm))
      inf_padded_x (Some [1%nat]) = Py.Ok (out2, nm2) /\
    finite (entry (ieee qsqrt) out2 [0; 0; 0]%nat) /\
    entry (ieee qsqrt) out2 [0; 0; 1]%nat = NaN /\
    ~ is_zero (entry (ieee qsqrt) out2 [0; 0; 1]%nat).
Proof.
  do 4 eexists.
  split; [vm_compute; reflexivity |]. split; [vm_compute; reflexivity |].
  split; [unfold FloatNorm.padded; simpl; lia |].
  split; [vm_compute; reflexivity |]. split; [vm_compute; tauto |].
  split; [vm_compute; reflexivity |]. split; [vm_compute; reflexivity |].
  split; [vm_compute; exact I |].
  split; [vm_compute; reflexivity | vm_compute; tauto].
Qed.

End FloatClaims.

(** ** Construction *)

Module InitFacts.

Import Tensor TensorFacts NormSpec Stats NormFacts Examples Descriptor.
Import NormClaims.
Open Scope nat_scope.

Ltac bind_as H x Hx :=
  apply bind_Ok_inv in H; destruct H as (x & Hx & H).

Lemma length_list_ascii (s : String.string) :
  length (String.list_ascii_of_string s) = String.length s.
Proof. induction s as [| c s IH]; simpl; congruence. Qed.

Lemma find_from_spec (s : list ascii) (c : ascii) (d k : nat) :
  Norm.find_from d s c = Some k ->
  d <= k /\ k < d + length s /\ nth (k - d) s c = c.
Proof.
  revert d. induction s as [| a s IH]; intros d H; simpl in H; [discriminate |].
  destruct (Ascii.eqb a c) eqn:E.
  - injection H as <-. apply Ascii.eqb_eq in E. subst. simpl.
    rewrite Nat.sub_diag. repeat split; lia.
  - apply IH in H as (H1 & H2 & H3). simpl. repeat split; try lia.
    destruct (k - d) as [| n] eqn:Ek; [lia |].
    replace (k - S d) with n in H3 by lia. exact H3.
Qed.

Lemma find_from_In (s : list ascii) (c : ascii) (d : nat) :
  In c s -> exists k, Norm.find_from d s c = Some k.
Proof.
  revert d. induction s as [| a s IH]; intros d H; simpl in *; [contradiction |].
  destruct (Ascii.eqb a c) eqn:E; [eauto |].
  destruct H as [-> | H]; [rewrite Ascii.eqb_refl in E; discriminate |].
  now apply IH.
Qed.

Lemma str_index_lt (s : String.string) (c : ascii) (d : nat) :
  Norm.str_index s c = Py.Ok d -> d < String.length s.
Proof.
  unfold Norm.str_index. destruct (Norm.find_from 0 _ c) as [k |] eqn:E; [| discriminate].
  intros [= <-]. apply find_from_spec in E. rewrite length_list_ascii in E. lia.
Qed.

Lemma str_index_raises (s : String.string) (c : ascii) :
  ~ In c (String.list_ascii_of_string s) ->
  Norm.str_index s c = Py.Raise Py.ValueError.
Proof.
  intros H. unfold Norm.str_index.
  destruct (Norm.find_from 0 _ c) as [k |] eqn:E; [| reflexivity].
  apply find_from_spec in E as (_ & E1 & E2). exfalso. apply H.
  rewrite <- E2. apply nth_In. lia.
Qed.

Lemma mapM_spec {A B : Type} (f : A -> Py.result B) (l : list A) (r : list B) :
  Norm.mapM f l = Py.Ok r -> Forall2 (fun a b => f a = Py.Ok b) l r.
Proof.
  revert r. induction l as [| a l IH]; intros r H; simpl in H.
  - injection H as <-. constructor.
  - bind_inv H. bind_inv H. injection H as <-. constructor; auto.
Qed.

Lemma str_contains_In (s : String.string) (c : ascii) :
  Norm.str_contains s c = true <-> In c (String.list_ascii_of_string s).
Proof.
  unfold Norm.str_contains. rewrite existsb_exists. split.
  - intros (a & Ha & E). apply Ascii.eqb_eq in E. now subst.
  - intros H. exists c. split; [exact H | apply Ascii.eqb_refl].
Qed.


Lemma set_item_inv {A : Type} (l : list A) (i : nat) (v : A) (r : list A) :
  Norm.set_item l i v = Py.Ok r ->
  i < length l /\ length r = length l /\
  forall d dflt, nth d r dflt = if d =? i then v else nth d l dflt.
Proof.
  intros H. destruct (Nat.lt_ge_cases i (length l)) as [Hi | Hi].
  - destruct (set_item_spec l i v Hi) as (r' & E & L & Hn).
    rewrite E in H. injection H as <-. auto.
  - exfalso. revert i r H Hi. induction l as [| a l IH]; intros i r H Hi; simpl in H.
    + discriminate.
    + destruct i as [| i]; [simpl in Hi; lia |].
      bind_inv H. apply (IH i a0 E). simpl in Hi. lia.
Qed.

Lemma get_item_inv {A : Type} (l : list A) (k : nat) (a d : A) :
  Norm.get_item l k = Py.Ok a -> k < length l /\ nth k l d = a.
Proof.
  unfold Norm.get_item. destruct (nth_error l k) as [b |] eqn:E; [| discriminate].
  intros [= <-]. split; [apply nth_error_Some; congruence | now apply nth_error_nth].
Qed.

Lemma affine_shape_ok (sh : list (option nat)) (df : String.string) (ia : list ascii) :
  forall (idx r : list nat),
    Norm.mapM (fun ax => Norm.str_index df (Norm.lower ax)) ia = Py.Ok idx ->
    Forall (fun d => d < length sh /\ d < length r /\ nth d sh None <> None) idx ->
    exists rs, Norm.affine_shape (Some sh) df ia r = Py.Ok rs /\
      length rs = length r /\
      forall d, nth d rs 0 = if mem d idx then size_of sh d else nth d r 0.
Proof.
  induction ia as [| c ia IH]; intros idx r Hm Hf; simpl in Hm.
  - injection Hm as <-. exists r. simpl. auto.
  - bind_inv Hm. bind_inv Hm. injection Hm as <-.
    inversion Hf as [| ? ? (H1 & H2 & H3) Hrest]; subst.
    cbn [Norm.affine_shape]. rewrite E. cbn [Py.bind].
    rewrite (get_item_ok sh a None H1). cbn [Py.bind].
    destruct (nth a sh None) as [n |] eqn:En; [| congruence].
    destruct (set_item_spec r a n H2) as (r1 & -> & L1 & Hr1). cbn [Py.bind].
    destruct (IH a0 r1 E0) as (rs & Hrs & L & Hn).
    { eapply Forall_impl; [| exact Hrest]. intros d (? & ? & ?). rewrite L1. auto. }
    exists rs. split; [exact Hrs |]. split; [congruence |].
    intros d. rewrite Hn, Hr1. unfold mem. cbn [existsb].
    destruct (d =? a) eqn:Ed; cbn [orb].
    + apply Nat.eqb_eq in Ed. subst d. unfold size_of. rewrite En.
      now destruct (existsb (Nat.eqb a) a0).
    + reflexivity.
Qed.

Lemma affine_shape_raises (sh : list (option nat)) (df : String.string) (ia : list ascii) :
  forall (idx r : list nat),
    Norm.mapM (fun ax => Norm.str_index df (Norm.lower ax)) ia = Py.Ok idx ->
    Forall (fun d => d < length sh /\ d < length r) idx ->
    Exists (fun d => nth d sh None = None) idx ->
    Norm.affine_shape (Some sh) df ia r = Py.Raise Py.AssertionError.
Proof.
  induction ia as [| c ia IH]; intros idx r Hm Hf Hex; simpl in Hm.
  - injection Hm as <-. inversion Hex.
  - bind_inv Hm. bind_inv Hm. injection Hm as <-.
    inversion Hf as [| ? ? (H1 & H2) Hrest]; subst.
    cbn [Norm.affine_shape]. rewrite E. cbn [Py.bind].
    rewrite (get_item_ok sh a None H1). cbn [Py.bind].
    destruct (nth a sh None) as [n |] eqn:En; [| reflexivity].
    destruct (set_item_spec r a n H2) as (r1 & -> & L1 & Hr1). cbn [Py.bind].
    apply (IH a0 r1 E0).
    + eapply Forall_impl; [| exact Hrest]. intros d (? & ?). rewrite L1. auto.
    + inversion Hex as [? ? Hh | ? ? Ht]; subst; [congruence | exact Ht].
Qed.

Lemma affine_shape_inv (sh : list (option nat)) (df : String.string) (ia : list ascii) :
  forall (r rs : list nat),
    Norm.affine_shape (Some sh) df ia r = Py.Ok rs ->
    exists idx,
      Norm.mapM (fun ax => Norm.str_index df (Norm.lower ax)) ia = Py.Ok idx /\
      Forall (fun d => d < length sh /\ d < length r /\ nth d sh None <> None) idx.
Proof.
  induction ia as [| c ia IH]; intros r rs H; cbn [Norm.affine_shape] in H.
  - exists []. split; [reflexivity | constructor].
  - bind_inv H. bind_inv H.
    apply (get_item_inv sh a a0 None) in E0 as [H1 H2].
    destruct a0 as [n |]; [| discriminate].
    bind_inv H. apply set_item_inv in E0 as (H3 & L & _).
    apply IH in H as (idx & Hm & Hf).
    exists (a :: idx). split.
    + cbn [Norm.mapM]. rewrite E. cbn [Py.bind]. rewrite Hm. reflexivity.
    + constructor; [repeat split; try assumption; congruence |].
      eapply Forall_impl; [| exact Hf]. intros d (? & ? & ?). rewrite <- L. auto.
Qed.

Lemma lower_not_upper (c : ascii) : is_upper (Norm.lower c) = false.
Proof. destruct c as [[] [] [] [] [] [] [] []]; reflexivity. Qed.

Lemma Forall2_In_l {A B : Type} (R : A -> B -> Prop) (l : list A) (r : list B) (a : A) :
  Forall2 R l r -> In a l -> exists b, In b r /\ R a b.
Proof.
  induction 1 as [| x y l r Hxy _ IH]; intros Hin; [contradiction |].
  destruct Hin as [-> | Hin].
  - exists y. split; [now left | exact Hxy].
  - destruct (IH Hin) as (b & Hb & Hr). exists b. split; [now right | exact Hr].
Qed.

Lemma Forall2_Forall_r {A B : Type} (R : A -> B -> Prop) (P : B -> Prop)
    (l : list A) (r : list B) :
  Forall2 R l r -> (forall a b, R a b -> P b) -> Forall P r.
Proof. induction 1; intros H'; constructor; eauto. Qed.

(** What a successful [Norm.__init__] has computed. *)
Lemma init_inv (a : Norm.args) (nm : Norm.t) :
  Norm.init a = Py.Ok nm ->
  exists batch seq stats count mean power lscale lshift,
    Norm.str_index (Norm.a_data_format a) (Norm.lower (Norm.a_batch_axis a)) = Py.Ok batch /\
    Norm.str_index (Norm.a_data_format a) (Norm.lower (Norm.a_sequence_axis a)) = Py.Ok seq /\
    Norm.mapM (fun ax => Norm.str_index (Norm.a_data_format a) (Norm.lower ax))
      (String.list_ascii_of_string (Norm.a_statistics_axis a)) = Py.Ok stats /\
    (if Norm.str_contains (Norm.a_statistics_axis a) (Norm.a_batch_axis a) then
       exists rs, Norm.reduced_shape (Norm.a_shape a) stats = Py.Ok rs /\
         count = Some (full rs 0%Q) /\ mean = Some (full rs 0%Q) /\
         power = (if Norm.truthy (Norm.a_scale a) then Some (full rs 1%Q) else None)
     else count = None /\ mean = None /\ power = None) /\
    match Norm.a_independent_axis a with
    | Some ia =>
        exists sc sh,
          Norm.Scale_init (Norm.a_shape a) (Norm.a_data_format a) ia = Py.Ok sc /\
          Norm.Shift_init (Norm.a_shape a) (Norm.a_data_format a) ia = Py.Ok sh /\
          lscale = Some sc /\ lshift = Some sh
    | None => lscale = None /\ lshift = None
    end /\
    nm = Norm.mk (Norm.str_lower (Norm.a_data_format a)) batch seq stats (Norm.a_scale a)
           (Norm.a_eps a)
           (Norm.str_contains (Norm.a_statistics_axis a) (Norm.a_batch_axis a))
           count mean power (Norm.a_momentum a) lscale lshift (Norm.a_n_freeze a) true.
Proof.
  unfold Norm.init. intros H.
  bind_inv H. bind_inv H. bind_inv H. bind_inv H.
  destruct a3 as [[count mean] power].
  bind_inv H. destruct a3 as [lscale lshift]. injection H as <-.
  exists a0, a1, a2, count, mean, power, lscale, lshift.
  split; [exact E |]. split; [exact E0 |]. split; [exact E1 |]. split; [| split].
  - destruct (Norm.str_contains _ _).
    + bind_inv E2. injection E2 as <- <- <-. exists a3. auto.
    + injection E2 as <- <- <-. auto.
  - destruct (Norm.a_independent_axis a) as [ia |].
    + bind_inv E3. bind_inv E3. injection E3 as <- <-. exists a3, a4. auto.
    + injection E3 as <- <-. auto.
  - reflexivity.
Qed.

Lemma describes_spec (dsh : list (option nat)) (sh : list nat) :
  describes dsh sh = true ->
  length dsh = length sh /\ forall d k, nth d dsh None = Some k -> nth d sh 0 = k.
Proof.
  revert sh. induction dsh as [| o dsh IH]; intros [| n sh] H; simpl in H; try discriminate.
  - split; [reflexivity |]. intros [| d] k; discriminate.
  - apply andb_true_iff in H as [H1 H2]. apply IH in H2 as [L Hn].
    split; [simpl; congruence |].
    intros [| d] k; simpl.
    + intros ->. now apply Nat.eqb_eq in H1.
    + apply Hn.
Qed.

Lemma fits_fitsb (a r : list nat) : fits a r -> fitsb a r = true.
Proof.
  intros F. unfold fitsb. destruct (fits_broadcast a r F) as [_ ->].
  apply shape_eqb_refl.
Qed.

Lemma numel_nonzero (sh : list nat) :
  Forall (fun n => n <> 0) sh -> numel sh <> 0.
Proof.
  induction 1 as [| n sh Hn _ IH]; simpl; [lia | nia].
Qed.

Lemma numel_positive (sh : list nat) :
  numel sh <> 0 -> Forall (fun n => n <> 0) sh.
Proof.
  induction sh as [| n sh IH]; simpl; intros H; constructor.
  - intros ->. simpl in H. lia.
  - apply IH. intros E. rewrite E in H. lia.
Qed.

Lemma forallb_ltb (l : list nat) (n : nat) :
  Forall (fun d => d < n) l -> forallb (fun d => d <? n) l = true.
Proof.
  intros H. apply forallb_forall. rewrite Forall_forall in H.
  intros d Hd. apply Nat.ltb_lt. auto.
Qed.

(** A freshly constructed instance accepts every input of the declared
    layout. *)
Lemma init_accepts (a : Norm.args) (nm : Norm.t) (dsh : list (option nat))
    (sh : list nat) (sl : option (list nat)) :
  Norm.init a = Py.Ok nm ->
  Norm.a_shape a = Some dsh ->
  length dsh = String.length (Norm.a_data_format a) ->
  nodupb (Norm.statistics_axis nm) = true ->
  describes dsh sh = true ->
  CondSpec.lengths_ok sl (nth (Norm.batch_axis nm) sh 0) = true ->
  (Norm.a_n_freeze a <> None -> numel sh <> 0) ->
  accepts nm sh sl = true.
Proof.
  intros H Hsh Hlen Hnd Hd Hsl Hpos.
  pose proof H as Hinit.
  apply init_inv in H
    as (batch & seq & stats & count & mean & power & lscale & lshift
        & Hb & Hs & Hst & Hbuf & Haff & ->).
  apply describes_spec in Hd as [L Hsz].
  pose proof (str_index_lt _ _ _ Hb) as Hb'.
  pose proof (str_index_lt _ _ _ Hs) as Hs'.
  pose proof (mapM_spec _ _ _ Hst) as F2.
  assert (Fst : Forall (fun d => d < length sh) stats).
  { apply (Forall2_Forall_r _ _ _ _ F2). intros c d Hc.
    apply str_index_lt in Hc. lia. }
  cbn [Norm.statistics_axis Norm.batch_axis] in Hnd, Hsl.
  unfold accepts.
  cbn [Norm.batch_axis Norm.sequence_axis Norm.statistics_axis Norm.training
       Norm.track_running_stats Norm.num_tracked_values Norm.running_mean
       Norm.running_power Norm.scale Norm.learnable_scale Norm.learnable_shift
       Norm.n_freeze].
  rewrite (forallb_ltb _ _ Fst), Hnd. cbn [andb].
  assert (C3 : match sl with
               | Some l => (batch <? length sh) && (seq <? length sh)
                           && (length l =? nth batch sh 0)
               | None => true
               end = true).
  { destruct sl as [l |]; [| reflexivity]. simpl in Hsl.
    assert (E1 : (batch <? length sh) = true) by (apply Nat.ltb_lt; lia).
    assert (E2 : (seq <? length sh) = true) by (apply Nat.ltb_lt; lia).
    now rewrite E1, E2, Hsl. }
  rewrite C3. cbn [andb].
  assert (C5 : param_fits lscale sh = true /\ param_fits lshift sh = true).
  { rewrite Hsh in Haff. destruct (Norm.a_independent_axis a) as [ia |].
    - destruct Haff as (sc & sf & Hsc & Hsf & -> & ->).
      unfold Norm.Scale_init in Hsc. unfold Norm.Shift_init in Hsf.
      bind_inv Hsc. injection Hsc as <-. rewrite E in Hsf. cbn [Py.bind] in Hsf.
      injection Hsf as <-.
      destruct (affine_shape_inv _ _ _ _ _ E) as (idx & Hm & Hf).
      destruct (affine_shape_ok dsh _ _ idx _ Hm Hf) as (rs & Hrs & Lr & Hn).
      rewrite E in Hrs. injection Hrs as ->. rewrite repeat_length in Lr.
      assert (F : fits rs sh).
      { split; [lia |]. intros k Hk. rewrite Hn.
        replace (length sh - length rs + k) with k by lia.
        destruct (mem k idx) eqn:Em.
        - apply mem_In in Em. rewrite Forall_forall in Hf.
          destruct (Hf k Em) as (_ & _ & Hc).
          unfold size_of. destruct (nth k dsh None) as [n |] eqn:En; [| congruence].
          right. symmetry. now apply Hsz.
        - left. apply nth_repeat_lt. lia. }
      cbn [param_fits full tabulate shape]. now rewrite (fits_fitsb _ _ F).
    - destruct Haff as [-> ->]. auto. }
  destruct C5 as [-> ->]. rewrite !andb_true_r.
  destruct (Norm.str_contains (Norm.a_statistics_axis a) (Norm.a_batch_axis a)) eqn:Et;
    [| reflexivity].
  destruct Hbuf as (rs & Hrs & -> & -> & ->). rewrite Hsh in Hrs.
  assert (Fst' : Forall (fun d => d < length dsh) stats).
  { eapply Forall_impl; [| exact Fst]. intros d Hd0. cbv beta in Hd0. rewrite L. exact Hd0. }
  destruct (reduced_shape_spec dsh stats Fst') as [_ Hok].
  destruct (Hok rs Hrs) as [Lr Hn].
  assert (Hin : In batch stats).
  { apply str_contains_In in Et.
    destruct (Forall2_In_l _ _ _ _ F2 Et) as (b & Hin & Hb2).
    simpl in Hb2. rewrite Hb in Hb2. now injection Hb2 as ->. }
  assert (Ers : stat_shape
                  (Norm.mk (Norm.str_lower (Norm.a_data_format a)) batch seq stats
                     (Norm.a_scale a) (Norm.a_eps a) true (Some (full rs 0%Q))
                     (Some (full rs 0%Q))
                     (if Norm.truthy (Norm.a_scale a) then Some (full rs 1%Q) else None)
                     (Norm.a_momentum a) lscale lshift (Norm.a_n_freeze a) true) sh = rs).
  { unfold stat_shape, stat_axes. cbn [Norm.statistics_axis].
    assert (Eax : reduce_axes stats (length sh) = stats)
      by (destruct stats; [contradiction | reflexivity]).
    rewrite Eax.
    apply nth_ext with (d := 0) (d' := 0); [rewrite length_reduce_shape; lia |].
    intros k Hk. rewrite length_reduce_shape in Hk.
    rewrite nth_reduce_shape by exact Hk.
    destruct (Hn k ltac:(lia)) as [-> Hc].
    destruct (mem k stats) eqn:Em; [reflexivity |].
    assert (Hnin : ~ In k stats) by (rewrite <- mem_In; congruence).
    specialize (Hc Hnin). destruct (nth k dsh None) as [n |] eqn:En; [| congruence].
    now apply Hsz. }
  rewrite Ers. cbn [has_shape full tabulate shape]. rewrite shape_eqb_refl. cbn [andb].
  assert (Hpow : (if Norm.truthy (Norm.a_scale a)
                  then has_shape (if Norm.truthy (Norm.a_scale a)
                                  then Some (full rs 1%Q) else None) rs
                  else true) = true).
  { destruct (Norm.truthy (Norm.a_scale a)); [| reflexivity].
    cbn [has_shape full tabulate shape]. apply shape_eqb_refl. }
  rewrite Hpow. cbn [andb].
  destruct (Norm.a_n_freeze a) as [kf |]; [| reflexivity]. cbn [Norm.is_not_None].
  specialize (Hpos ltac:(discriminate)). apply numel_positive in Hpos.
  assert (Hne : numel rs <> 0).
  { apply numel_nonzero. rewrite <- Ers. unfold stat_shape, reduce_shape.
    apply Forall_forall. intros n Hn'.
    apply (In_nth _ _ 0) in Hn' as (k & Hk & <-).
    rewrite length_mapi_from in Hk.
    rewrite (nth_mapi_from _ _ _ _ 0 0) by exact Hk.
    destruct (mem _ _); [lia |].
    rewrite Forall_forall in Hpos. apply Hpos. now apply nth_In. }
  change (full rs 0%Q) with (tabulate rs (fun _ => 0%Q)).
  rewrite (nonempty_tabulate rs _ Hne).
  apply Nat.eqb_neq in Hne. now rewrite Hne.
Qed.


Lemma accepts_train (mode : bool) (nm : Norm.t) (sh : list nat) (sl : option (list nat)) :
  accepts (Norm.train mode nm) sh sl = accepts nm sh sl.
Proof. reflexivity. Qed.

Lemma forward_state_train (mode : bool) (nm : Norm.t) (x : tensor) (sl : option (list nat))
    (sh : list nat) (sl' : option (list nat)) :
  accepts nm sh sl' = true ->
  accepts (forward_state (Norm.train mode nm) x sl) sh sl' = true.
Proof. intros H. apply accepts_forward_state. now rewrite accepts_train. Qed.

(** A sequence of calls on inputs the instance accepts returns, every
    output has the shape of its input, and the instance accepts afterwards
    what it accepted before. *)
Lemma run_accepted (fsqrt : Q -> Q) (calls : list (bool * tensor * option (list nat))) :
  forall nm,
    Forall (fun c => accepts nm (shape (snd (fst c))) (snd c) = true) calls ->
    exists outs nm',
      Calls.run fsqrt nm calls = Py.Ok (outs, nm') /\
      map shape outs = map (fun c => shape (snd (fst c))) calls /\
      forall sh sl, accepts nm sh sl = true -> accepts nm' sh sl = true.
Proof.
  induction calls as [| [[mode x] sl] calls IH]; intros nm H.
  - exists [], nm. simpl. auto.
  - inversion H as [| ? ? Hc Hrest]; subst. cbn [fst snd] in Hc.
    cbn [Calls.run].
    rewrite (forward_closed fsqrt (Norm.train mode nm) x sl)
      by (now rewrite accepts_train).
    cbn [Py.bind].
    destruct (IH (forward_state (Norm.train mode nm) x sl)) as (outs & nm' & E & Hs & Hacc).
    { eapply Forall_impl; [| exact Hrest]. intros c Hc'. cbv beta in Hc'.
      now apply forward_state_train. }
    rewrite E. cbn [Py.bind].
    exists (forward_out fsqrt (Norm.train mode nm) x sl :: outs), nm'.
    split; [reflexivity |]. split.
    + cbn [map fst snd]. now rewrite Hs.
    + intros sh sl' Ha. apply Hacc. now apply forward_state_train.
Qed.

End InitFacts.

(** ** Resetting *)

Module ResetFacts.

Import Tensor TensorFacts NormSpec Stats NormFacts InitFacts Examples.
Import NormClaims.
Open Scope nat_scope.

Lemma tbin__shape (f : Q -> Q -> Q) (a b r : tensor) :
  tbin_ f a b = Py.Ok r -> shape r = shape a.
Proof.
  unfold tbin_. intros H. bind_inv H.
  destruct (shape_eqb (shape a0) (shape a)) eqn:Es; [| discriminate].
  injection H as <-. now apply shape_eqb_true.
Qed.

(** A returning update replaces each buffer by one of the same shape. *)
Lemma update_running_stats_shapes (nm nm' : Norm.t) (mean n : tensor)
    (power : option tensor) :
  Norm.update_running_stats nm mean power n = Py.Ok nm' ->
  exists cnt rm cnt' rm' rp',
    Norm.num_tracked_values nm = Some cnt /\ Norm.running_mean nm = Some rm /\
    shape cnt' = shape cnt /\ shape rm' = shape rm /\
    nm' = Norm.set_buffers nm (Some cnt') (Some rm') rp' /\
    ((Norm.truthy (Norm.scale nm) = false /\ rp' = Norm.running_power nm) \/
     (Norm.truthy (Norm.scale nm) = true /\
      exists rp rp1, Norm.running_power nm = Some rp /\ rp' = Some rp1 /\
                     shape rp1 = shape rp)).
Proof.
  unfold Norm.update_running_stats. intros H.
  bind_as H cnt Ec. bind_as H cnt' Ec'. bind_as H mom Em.
  bind_as H rm Er. bind_as H rm1 Er1. bind_as H new En. bind_as H rm' Er'.
  destruct (Norm.num_tracked_values nm) as [cnt0 |]; [| discriminate].
  destruct (Norm.running_mean nm) as [rm0 |]; [| discriminate].
  injection Ec as <-. injection Er as <-.
  apply tbin__shape in Ec', Er1, Er'.
  destruct (Norm.truthy (Norm.scale nm)).
  - bind_as H rp Ep. bind_as H rp1 Ep1. bind_as H pw Epw. bind_as H new2 En2.
    bind_as H rp' Ep'. injection H as <-.
    destruct (Norm.running_power nm) as [rp0 |]; [| discriminate].
    injection Ep as <-. apply tbin__shape in Ep1, Ep'.
    exists cnt0, rm0, cnt', rm', (Some rp').
    repeat split; try congruence. right. split; [reflexivity |].
    exists rp0, rp'. repeat split. congruence.
  - injection H as <-. exists cnt0, rm0, cnt', rm', (Norm.running_power nm).
    repeat split; try congruence. now left.
Qed.

Lemma truthy_is_not_None (s : option bool) :
  Norm.truthy s = true -> Norm.is_not_None s = true.
Proof. destruct s as [[|] |]; simpl; congruence. Qed.

Lemma reset_same_shapes (nm : Norm.t) (cnt rm cnt' rm' : tensor) (rp' : option tensor) :
  Norm.track_running_stats nm = true ->
  Norm.num_tracked_values nm = Some cnt -> Norm.running_mean nm = Some rm ->
  shape cnt' = shape cnt -> shape rm' = shape rm ->
  ((Norm.truthy (Norm.scale nm) = false /\ rp' = Norm.running_power nm) \/
   (Norm.truthy (Norm.scale nm) = true /\
    exists rp rp1, Norm.running_power nm = Some rp /\ rp' = Some rp1 /\
                   shape rp1 = shape rp)) ->
  Norm.reset_parameters (Norm.set_buffers nm (Some cnt') (Some rm') rp') =
  Norm.reset_parameters nm.
Proof.
  intros Et Ec Er Sc Sr Hp. unfold Norm.reset_parameters, Norm.reset_running_stats.
  cbn [Norm.set_buffers Norm.track_running_stats Norm.running_mean
       Norm.num_tracked_values Norm.scale Norm.running_power].
  rewrite Ec, Er, Et.
  cbn [Norm.attr Py.bind]. unfold full_like. rewrite Sc, Sr.
  destruct Hp as [[Hs ->] | (Hs & rp & rp1 & Ep & -> & Sp)].
  - destruct (Norm.is_not_None (Norm.scale nm)); [| reflexivity].
    destruct (Norm.running_power nm); reflexivity.
  - rewrite (truthy_is_not_None _ Hs), Ep. cbn [Norm.attr Py.bind]. now rewrite Sp.
Qed.

Lemma estimate_shapes (fsqrt : Q -> Q) (nm nm' : Norm.t) (x mask y : tensor) :
  Norm.estimate fsqrt nm x mask = Py.Ok (y, nm') ->
  Norm.track_running_stats nm = true ->
  Norm.reset_parameters nm' = Norm.reset_parameters nm.
Proof.
  unfold Norm.estimate. intros H Ht.
  bind_inv H. destruct a as ((mean & power) & n).
  do 3 bind_inv H. injection H as <- <-. rewrite Ht in E2.
  apply update_running_stats_shapes in E2
    as (cnt & rm & cnt' & rm' & rp' & Ec & Er & Sc & Sr & -> & Hp).
  now apply (reset_same_shapes nm cnt rm).
Qed.

(** A forward call that returns has no effect that [reset_parameters] does
    not undo. *)
Lemma reset_after_forward (fsqrt : Q -> Q) (nm nm' : Norm.t) (x out : tensor)
    (seq_len : option (list nat)) :
  Norm.forward fsqrt nm x seq_len = Py.Ok (out, nm') ->
  Norm.reset_parameters nm' = Norm.reset_parameters nm.
Proof.
  unfold Norm.forward. intros H.
  bind_inv H. bind_inv H. bind_inv H. destruct a1 as (y & nm1).
  do 2 bind_inv H. injection H as <- <-.
  destruct a0.
  - destruct (Norm.track_running_stats nm) eqn:Et.
    + now apply estimate_shapes in E1.
    + apply estimate_state in E1 as [[_ ->] | [Ht' _]]; [reflexivity | congruence].
  - bind_inv E1. now injection E1 as <- <-.
Qed.

Lemma reset_parameters_train (mode : bool) (nm : Norm.t) :
  Norm.reset_parameters (Norm.train mode nm) =
  (r <- Norm.reset_parameters nm ;; Py.Ok (Norm.train mode r)).
Proof.
  unfold Norm.reset_parameters, Norm.reset_running_stats.
  cbn [Norm.train Norm.track_running_stats Norm.running_mean Norm.num_tracked_values
       Norm.scale Norm.running_power].
  destruct (Norm.track_running_stats nm); [| reflexivity].
  destruct (Norm.running_mean nm); [| reflexivity].
  destruct (Norm.num_tracked_values nm); [| reflexivity].
  cbn [Norm.attr Py.bind].
  destruct (Norm.is_not_None (Norm.scale nm)); [| reflexivity].
  destruct (Norm.running_power nm); reflexivity.
Qed.

Lemma run_reset (fsqrt : Q -> Q) (calls : list (bool * tensor * option (list nat))) :
  forall nm outs nm',
    Calls.run fsqrt nm calls = Py.Ok (outs, nm') ->
    forall mode, Norm.reset_parameters (Norm.train mode nm') =
                 Norm.reset_parameters (Norm.train mode nm).
Proof.
  induction calls as [| [[m x] sl] calls IH]; intros nm outs nm' H mode.
  - now injection H as <- <-.
  - cbn [Calls.run] in H. bind_inv H. destruct a as [y nm1].
    bind_inv H. destruct a as [ys nm2]. injection H as <- <-.
    rewrite (IH _ _ _ E0 mode).
    apply reset_after_forward in E.
    rewrite !reset_parameters_train, E. rewrite reset_parameters_train.
    destruct (Norm.reset_parameters nm); reflexivity.
Qed.

End ResetFacts.

(** ** Statistics over the valid positions *)

Module StatFacts.

Import Tensor TensorFacts NormSpec Stats NormFacts Valid Examples MoreExamples InitFacts.
Import NormClaims.
Open Scope Q_scope.

Lemma of_nat_S (n : nat) : Norm.of_nat (S n) == 1 + Norm.of_nat n.
Proof.
  unfold Norm.of_nat. rewrite Nat2Z.inj_succ, <- Z.add_1_l, inject_Z_plus. reflexivity.
Qed.

Lemma of_nat_nonneg (n : nat) : 0 <= Norm.of_nat n.
Proof.
  unfold Norm.of_nat. change 0 with (inject_Z 0). rewrite <- Zle_Qle. lia.
Qed.

Lemma mask_at_validb (nm : Norm.t) (sl : option (list nat)) (i : list nat) :
  mask_at nm sl i = if validb nm sl i then 1 else 0.
Proof.
  unfold mask_at, validb. destruct sl as [l |]; [| reflexivity].
  unfold Norm.lt_float, Norm.of_nat.
  set (t := nth (Norm.sequence_axis nm) i 0%nat).
  set (n := nth (nth (Norm.batch_axis nm) i 0%nat) l 0%nat).
  destruct (t <? n)%nat eqn:E.
  - apply Nat.ltb_lt in E.
    destruct (Qle_bool (inject_Z (Z.of_nat n)) (inject_Z (Z.of_nat t))) eqn:E'; [| reflexivity].
    apply Qle_bool_iff in E'. rewrite <- Zle_Qle in E'. lia.
  - apply Nat.ltb_ge in E.
    assert (E' : Qle_bool (inject_Z (Z.of_nat n)) (inject_Z (Z.of_nat t)) = true).
    { apply Qle_bool_iff. rewrite <- Zle_Qle. lia. }
    now rewrite E'.
Qed.

Lemma qsum_app (l1 l2 : list Q) : qsum (l1 ++ l2) == qsum l1 + qsum l2.
Proof. induction l1 as [| a l IH]; simpl; [ring | rewrite IH; ring]. Qed.

Lemma qsum_ext {A : Type} (f g : A -> Q) (l : list A) :
  (forall a, In a l -> f a == g a) -> qsum (map f l) == qsum (map g l).
Proof.
  induction l as [| a l IH]; intros H; simpl; [reflexivity |].
  rewrite (H a) by now left. rewrite IH; [reflexivity |].
  intros b Hb. apply H. now right.
Qed.

(** A sum weighted by an indicator is the sum over the positions it
    selects. *)
Lemma qsum_indicator {A : Type} (v : A -> bool) (f : A -> Q) (l : list A) :
  qsum (map (fun a => f a * (if v a then 1 else 0)) l) == qsum (map f (filter v l)).
Proof.
  induction l as [| a l IH]; simpl; [reflexivity |].
  destruct (v a); simpl; rewrite IH; ring.
Qed.

Lemma qsum_count {A : Type} (v : A -> bool) (l : list A) :
  qsum (map (fun a => if v a then 1 else 0) l) == Norm.of_nat (length (filter v l)).
Proof.
  induction l as [| a l IH]; simpl; [reflexivity |].
  destruct (v a); simpl length; rewrite IH; [rewrite of_nat_S |]; ring.
Qed.

Section Window.

Variable nm : Norm.t.
Variable x : tensor.
Variable sl : option (list nat).

Lemma count_at_valid (j : list nat) :
  count_at nm (mask_of nm x sl) j == valid_count nm (shape x) sl j.
Proof.
  unfold count_at, valid_count, valid_positions, mask_of. cbn [shape tabulate].
  rewrite <- qsum_count. apply qsum_ext. intros i Hi.
  apply In_window in Hi as [Hi _].
  rewrite tget_tabulate by exact Hi. now rewrite mask_at_validb.
Qed.

Lemma sum_at_valid (g : Q -> Q) (j : list nat) :
  (forall a b, a == b -> g a == g b) -> g 0 == 0 ->
  sum_at nm g x (mask_of nm x sl) j == valid_sum nm g x sl j.
Proof.
  intros Hg H0. unfold sum_at, valid_sum, valid_positions.
  rewrite <- qsum_indicator. apply qsum_ext. intros i Hi.
  apply In_window in Hi as [Hi _].
  unfold mask_of. rewrite tget_tabulate by exact Hi. rewrite mask_at_validb.
  destruct (validb nm sl i).
  - rewrite (Hg (tget x i * 1) (tget x i)) by ring. ring.
  - rewrite (Hg (tget x i * 0) 0) by ring. rewrite H0. ring.
Qed.

End Window.

Lemma fmax_proper (a a' b b' : Q) : a == a' -> b == b' -> fmax a b == fmax a' b'.
Proof.
  intros Ha Hb. unfold fmax.
  destruct (Qle_bool a b) eqn:E; destruct (Qle_bool a' b') eqn:E'; try assumption.
  - apply Qle_bool_iff in E. rewrite Ha, Hb in E. apply Qle_bool_iff in E. congruence.
  - apply Qle_bool_iff in E'. rewrite <- Ha, <- Hb in E'. apply Qle_bool_iff in E'.
    congruence.
Qed.

Lemma fmax_ge_l (a b : Q) : a <= fmax a b.
Proof.
  unfold fmax. destruct (Qle_bool a b) eqn:E; [now apply Qle_bool_iff | lra].
Qed.

Lemma var_at_proper (n n' p p' m m' : Q) :
  n == n' -> p == p' -> m == m' -> var_at n p m == var_at n' p' m'.
Proof.
  intros Hn Hp Hm. unfold var_at, clamp2.
  rewrite (fmax_proper n n' (2 * 1) (2 * 1) Hn (Qeq_refl _)), Hp, Hm. reflexivity.
Qed.

Lemma sq_nonneg (a : Q) : 0 <= a * a.
Proof.
  destruct (Qlt_le_dec a 0) as [H | H].
  - setoid_replace (a * a) with ((- a) * (- a)) by ring.
    apply Qmult_le_0_compat; lra.
  - apply Qmult_le_0_compat; lra.
Qed.

(** For every number [t], [n t^2 - 2 t S + P] is the sum of the squares
    [(t - v)^2] over the list. *)
Lemma square_distance_nonneg (l : list Q) (t : Q) :
  0 <= Norm.of_nat (length l) * t * t - 2 * t * qsum l + qsum (map (fun v => v * v) l).
Proof.
  induction l as [| v l IH]; simpl length; cbn [map qsum fold_right].
  - assert (E : Norm.of_nat 0 * t * t - 2 * t * 0 + 0 == 0)
      by (change (Norm.of_nat 0) with 0; ring).
    rewrite E. lra.
  - rewrite of_nat_S. fold (qsum l). fold (qsum (map (fun v => v * v) l)).
    pose proof (sq_nonneg (t - v)) as H.
    lra.
Qed.

(** The Cauchy-Schwarz inequality for a list: the square of the sum is at
    most the length times the sum of the squares. *)
Lemma square_of_sum (l : list Q) :
  qsum l * qsum l <= Norm.of_nat (length l) * qsum (map (fun v => v * v) l).
Proof.
  induction l as [| v l IH]; simpl length; cbn [map qsum fold_right].
  - assert (E : Norm.of_nat 0 * 0 == 0) by (change (Norm.of_nat 0) with 0; ring).
    rewrite E. lra.
  - rewrite of_nat_S. fold (qsum l). fold (qsum (map (fun v => v * v) l)).
    pose proof (square_distance_nonneg l v) as H.
    lra.
Qed.

Lemma qsum_squares_nonneg (l : list Q) : 0 <= qsum (map (fun v => v * v) l).
Proof.
  induction l as [| v l IH]; cbn [map qsum fold_right]; [lra |].
  fold (qsum (map (fun v => v * v) l)). pose proof (sq_nonneg v). lra.
Qed.

(** The mean of the squares is at least the square of the mean, also when
    the divisor is clamped. *)
Lemma moments_nonneg (l : list Q) (d : Q) :
  1 <= d -> Norm.of_nat (length l) <= d ->
  0 <= qsum (map (fun v => v * v) l) / d - (qsum l / d) * (qsum l / d).
Proof.
  intros H1 Hn.
  pose proof (square_of_sum l) as Hcs.
  pose proof (qsum_squares_nonneg l) as Hp.
  set (S := qsum l) in *. set (P := qsum (map (fun v => v * v) l)) in *.
  set (N := Norm.of_nat (length l)) in *.
  assert (Hr : 0 < / d) by (apply Qinv_lt_0_compat; lra).
  assert (E : P / d - (S / d) * (S / d) == (/ d) * (/ d) * (d * P - S * S)).
  { field. lra. }
  rewrite E. apply Qmult_le_0_compat; [nra |].
  assert (N * P <= d * P) by nra. lra.
Qed.

Lemma valid_sum_map (nm : Norm.t) (g : Q -> Q) (x : tensor) (sl : option (list nat))
    (j : list nat) :
  valid_sum nm g x sl j =
  qsum (map g (map (tget x) (valid_positions nm (shape x) sl j))).
Proof. unfold valid_sum. now rewrite map_map. Qed.

Lemma valid_count_map (nm : Norm.t) (x : tensor) (sl : option (list nat)) (j : list nat) :
  valid_count nm (shape x) sl j =
  Norm.of_nat (length (map (tget x) (valid_positions nm (shape x) sl j))).
Proof. unfold valid_count. now rewrite length_map. Qed.

Lemma moment_at_valid (nm : Norm.t) (g : Q -> Q) (x : tensor) (sl : option (list nat))
    (j : list nat) :
  (forall a b, a == b -> g a == g b) -> g 0 == 0 ->
  moment_at nm g x (mask_of nm x sl) j ==
  valid_sum nm g x sl j / fmax (valid_count nm (shape x) sl j) 1.
Proof.
  intros Hg H0. unfold moment_at.
  rewrite (sum_at_valid nm x sl g j Hg H0).
  rewrite (fmax_proper _ _ 1 1 (count_at_valid nm x sl j) (Qeq_refl _)).
  reflexivity.
Qed.

Lemma square_proper (a b : Q) : a == b -> a * a == b * b.
Proof. intros ->. reflexivity. Qed.

Lemma moving_average_proper (m r r' : Q) (l : list Q) :
  r == r' -> moving_average m r l == moving_average m r' l.
Proof.
  revert r r'. induction l as [| v l IH]; intros r r' H; cbn [moving_average]; [exact H |].
  apply IH. unfold blend. now rewrite H.
Qed.

Lemma blend_proper (m r r' v v' : Q) : r == r' -> v == v' -> blend m r v == blend m r' v'.
Proof. intros H1 H2. unfold blend. now rewrite H1, H2. Qed.

Lemma moving_average_values (m r : Q) (l l' : list Q) :
  Forall2 Qeq l l' -> moving_average m r l == moving_average m r l'.
Proof.
  intros H. revert r.
  induction H as [| v v' l l' Hv _ IH]; intros r; cbn [moving_average]; [reflexivity |].
  rewrite IH. apply moving_average_proper. now apply blend_proper.
Qed.




(** One call in the estimate branch with running statistics tracked: the
    instance afterwards, entry by entry. *)
Lemma training_update (nm : Norm.t) (x : tensor) (sl : option (list nat)) :
  accepts nm (shape x) sl = true ->
  Norm.track_running_stats nm = true ->
  estimating nm = true ->
  exists cnt rm,
    Norm.num_tracked_values nm = Some cnt /\ Norm.running_mean nm = Some rm /\
    shape cnt = stat_shape nm (shape x) /\ shape rm = stat_shape nm (shape x) /\
    forward_state nm x sl = updated nm x (mask_of nm x sl) /\
    Norm.num_tracked_values (forward_state nm x sl)
      = Some (new_count cnt (count_of nm (mask_of nm x sl))) /\
    Norm.running_mean (forward_state nm x sl)
      = Some (new_stat nm cnt (count_of nm (mask_of nm x sl)) rm
                (mean_of nm x (mask_of nm x sl))) /\
    (Norm.truthy (Norm.scale nm) = true ->
     exists rp, Norm.running_power nm = Some rp /\ shape rp = stat_shape nm (shape x) /\
       Norm.running_power (forward_state nm x sl)
       = Some (new_stat nm cnt (count_of nm (mask_of nm x sl)) rp
                 (power_of nm x (mask_of nm x sl)))) /\
    forall j, valid_index (stat_shape nm (shape x)) j ->
      tget (new_count cnt (count_of nm (mask_of nm x sl))) j
      = tget cnt j + count_at nm (mask_of nm x sl) j /\
      forall old g, shape old = stat_shape nm (shape x) ->
        tget (new_stat nm cnt (count_of nm (mask_of nm x sl)) old
                (tabulate (stat_shape nm (shape x)) (moment_at nm g x (mask_of nm x sl)))) j
        = blend (momentum_at nm (count_at nm (mask_of nm x sl) j)
                   (tget cnt j + count_at nm (mask_of nm x sl) j))
            (tget old j) (moment_at nm g x (mask_of nm x sl) j).
Proof.
  intros Ha Ht He.
  pose proof (accepts_inv _ _ _ Ha) as (_ & _ & _ & A4 & _).
  destruct (A4 Ht) as (B1 & B2 & B3 & _).
  apply has_shape_inv in B1 as (cnt & Ec & Sc), B2 as (rm & Er & Sr).
  exists cnt, rm.
  assert (Ef : forward_state nm x sl = updated nm x (mask_of nm x sl))
    by (unfold forward_state; now rewrite He, Ht).
  split; [exact Ec |]. split; [exact Er |]. split; [exact Sc |]. split; [exact Sr |].
  split; [exact Ef |].
  rewrite Ef. unfold updated. rewrite Ec, Er.
  split; [reflexivity |]. split; [reflexivity |]. split.
  - intros Hs. apply has_shape_inv in B3 as (rp & Ep & Sp); [| exact Hs].
    exists rp. rewrite Ep, Hs. auto.
  - intros j Hj.
    assert (Hcnt : tget (new_count cnt (count_of nm (mask_of nm x sl))) j
                   = tget cnt j + count_at nm (mask_of nm x sl) j).
    { unfold new_count. rewrite tget_tabulate by (rewrite Sc; exact Hj).
      unfold count_of. cbn [mask_of shape tabulate].
      now rewrite tget_tabulate by exact Hj. }
    split; [exact Hcnt |].
    intros old g So. unfold new_stat.
    rewrite tget_tabulate by (rewrite So; exact Hj).
    fold (new_count cnt (count_of nm (mask_of nm x sl))). rewrite Hcnt.
    rewrite (tget_tabulate (stat_shape nm (shape x))) by exact Hj.
    unfold count_of at 1. cbn [mask_of shape tabulate].
    now rewrite tget_tabulate by exact Hj.
Qed.



Lemma estimate_mode_untracked (nm : Norm.t) :
  Norm.track_running_stats nm = false -> Norm.estimate_mode nm = Py.Ok true.
Proof.
  intros Ht. unfold Norm.estimate_mode, Norm.freezed. rewrite Ht.
  destruct (Norm.training nm), (Norm.n_freeze nm); reflexivity.
Qed.

Lemma rsqrt_proper (a b : Q) : a == b -> rsqrt a == rsqrt b.
Proof. intros H. unfold rsqrt. now rewrite (Qred_complete a b H). Qed.

Lemma same_entries_refl (o : option tensor) : same_entries o o.
Proof. destruct o as [t |]; simpl; [| exact I]. split; [reflexivity | intros; reflexivity]. Qed.

Lemma affine_at_proper (ls lsh : option tensor) (v v' : Q) (i : list nat) :
  v == v' -> affine_at ls lsh v i == affine_at ls lsh v' i.
Proof.
  intros H. unfold affine_at. destruct ls, lsh; rewrite H; reflexivity.
Qed.

Section Agree.

Variable fsqrt : Q -> Q.
Hypothesis fsqrt_proper : forall a b, a == b -> fsqrt a == fsqrt b.

Variable nm : Norm.t.
Variables x x' : tensor.
Variable sl : option (list nat).

Hypothesis same_shape : shape x' = shape x.
Hypothesis agree :
  forall i, valid_index (shape x) i -> validb nm sl i = true -> tget x' i == tget x i.

Lemma mask_of_agree : mask_of nm x' sl = mask_of nm x sl.
Proof. unfold mask_of. now rewrite same_shape. Qed.

Lemma moment_at_agree (g : Q -> Q) (j : list nat) :
  (forall a b, a == b -> g a == g b) ->
  moment_at nm g x' (mask_of nm x sl) j == moment_at nm g x (mask_of nm x sl) j.
Proof.
  intros Hg. unfold moment_at, sum_at. rewrite same_shape.
  assert (E : qsum (map (fun i => g (tget x' i * tget (mask_of nm x sl) i))
                      (window (shape x) (stat_axes nm (shape x)) j))
              == qsum (map (fun i => g (tget x i * tget (mask_of nm x sl) i))
                         (window (shape x) (stat_axes nm (shape x)) j))).
  { apply qsum_ext. intros i Hi. apply In_window in Hi as [Hi _].
    apply Hg. unfold mask_of. rewrite tget_tabulate by exact Hi.
    rewrite mask_at_validb. destruct (validb nm sl i) eqn:Ev.
    - now rewrite (agree i Hi Ev).
    - ring. }
  now rewrite E.
Qed.

Lemma standardize_agree (mean mean' count : tensor) (power power' : option tensor)
    (i : list nat) :
  valid_index (shape x) i ->
  tget x' i == tget x i ->
  tget mean' (proj (stat_axes nm (shape x)) i) == tget mean (proj (stat_axes nm (shape x)) i) ->
  match power, power' with
  | Some p, Some p' =>
      tget p' (proj (stat_axes nm (shape x)) i) == tget p (proj (stat_axes nm (shape x)) i)
  | None, None => True
  | _, _ => False
  end ->
  tget (standardize fsqrt nm x' mean' count power') i ==
  tget (standardize fsqrt nm x mean count power) i.
Proof.
  intros Hi Hx Hm Hp. unfold standardize. rewrite same_shape.
  rewrite !tget_tabulate by exact Hi.
  destruct (Norm.truthy (Norm.scale nm)).
  - destruct power as [p |], power' as [p' |]; try contradiction.
    + rewrite (fsqrt_proper _ _ (var_at_proper _ _ _ _ _ _ (Qeq_refl _) Hp Hm)).
      now rewrite Hx, Hm.
    + now rewrite Hx, Hm.
  - now rewrite Hx, Hm.
Qed.

Lemma normalized_agree (i : list nat) :
  valid_index (shape x) i -> validb nm sl i = true ->
  tget (normalized fsqrt nm x' sl) i == tget (normalized fsqrt nm x sl) i.
Proof.
  intros Hi Hv. unfold normalized. rewrite mask_of_agree.
  pose proof (valid_proj (shape x) (stat_axes nm (shape x)) i Hi) as Hj.
  fold (stat_shape nm (shape x)) in Hj.
  destruct (estimating nm).
  - apply standardize_agree; [exact Hi | now apply agree | |].
    + unfold mean_of. rewrite same_shape. rewrite !tget_tabulate by exact Hj.
      apply moment_at_agree. auto.
    + unfold power_of. rewrite same_shape. rewrite !tget_tabulate by exact Hj.
      apply moment_at_agree. apply square_proper.
  - destruct (Norm.running_mean nm) as [rm |]; [| now apply agree].
    destruct (Norm.num_tracked_values nm) as [cnt |]; [| now apply agree].
    apply standardize_agree; [exact Hi | now apply agree | reflexivity |].
    destruct (Norm.running_power nm); [reflexivity | exact I].
Qed.

Lemma forward_out_agree (i : list nat) :
  valid_index (shape x) i ->
  tget (forward_out fsqrt nm x' sl) i == tget (forward_out fsqrt nm x sl) i.
Proof.
  intros Hi. unfold forward_out. rewrite same_shape.
  rewrite !tget_tabulate by exact Hi. rewrite mask_at_validb.
  destruct (validb nm sl i) eqn:Ev.
  - now rewrite (affine_at_proper _ _ _ _ i (normalized_agree i Hi Ev)).
  - ring.
Qed.

Lemma new_stat_agree (cnt old stat stat' : tensor) :
  shape stat' = shape stat -> shape stat = shape old ->
  (forall j, valid_index (shape old) j -> tget stat' j == tget stat j) ->
  same_entries (Some (new_stat nm cnt (count_of nm (mask_of nm x sl)) old stat))
    (Some (new_stat nm cnt (count_of nm (mask_of nm x sl)) old stat')).
Proof.
  intros S1 S2 H. unfold same_entries, new_stat. cbn [shape tabulate].
  split; [reflexivity |]. intros j Hj. rewrite !tget_tabulate by exact Hj.
  apply blend_proper; [reflexivity | now apply H].
Qed.

Lemma forward_state_agree :
  accepts nm (shape x) sl = true ->
  same_entries (Norm.num_tracked_values (forward_state nm x sl))
    (Norm.num_tracked_values (forward_state nm x' sl)) /\
  same_entries (Norm.running_mean (forward_state nm x sl))
    (Norm.running_mean (forward_state nm x' sl)) /\
  same_entries (Norm.running_power (forward_state nm x sl))
    (Norm.running_power (forward_state nm x' sl)).
Proof.
  intros Ha. unfold forward_state.
  destruct (estimating nm && Norm.track_running_stats nm) eqn:E;
    [| repeat split; apply same_entries_refl].
  apply andb_true_iff in E as [He Ht].
  pose proof (accepts_inv _ _ _ Ha) as (_ & _ & _ & A4 & _).
  destruct (A4 Ht) as (B1 & B2 & B3 & _).
  apply has_shape_inv in B1 as (cnt & Ec & Sc), B2 as (rm & Er & Sr).
  unfold updated. rewrite Ec, Er, mask_of_agree.
  cbn [Norm.set_buffers Norm.num_tracked_values Norm.running_mean Norm.running_power].
  split; [apply same_entries_refl |]. split.
  - apply new_stat_agree.
    + unfold mean_of. cbn [shape tabulate]. now rewrite same_shape.
    + unfold mean_of. cbn [shape tabulate]. congruence.
    + intros j Hj. rewrite Sr in Hj. unfold mean_of. rewrite same_shape.
      rewrite !tget_tabulate by exact Hj. apply moment_at_agree. auto.
  - destruct (Norm.truthy (Norm.scale nm)) eqn:Es; [| apply same_entries_refl].
    apply has_shape_inv in B3 as (rp & Ep & Sp); [| reflexivity]. rewrite Ep.
    apply new_stat_agree.
    + unfold power_of. cbn [shape tabulate]. now rewrite same_shape.
    + unfold power_of. cbn [shape tabulate]. congruence.
    + intros j Hj. rewrite Sp in Hj. unfold power_of. rewrite same_shape.
      rewrite !tget_tabulate by exact Hj. apply moment_at_agree. apply square_proper.
Qed.

End Agree.

End StatFacts.

(** ** The mask *)

Module MaskFacts.

Import Tensor TensorFacts NormSpec Stats NormFacts.
Open Scope nat_scope.

(** Axis [k] of a shape with one leading size and ones behind it, seen
    from a result of rank [n]. *)
Lemma dim_in_lead (n p ones k : nat) :
  k < n -> S ones <= n ->
  dim_in n (p :: repeat 1 ones) k = if k =? n - S ones then p else 1.
Proof.
  intros Hk Hn. unfold dim_in. rewrite nth_pad_left. cbn [length].
  rewrite repeat_length.
  destruct (k <? n - S ones) eqn:E1.
  - apply Nat.ltb_lt in E1.
    destruct (k =? n - S ones) eqn:E2; [apply Nat.eqb_eq in E2; lia | reflexivity].
  - apply Nat.ltb_ge in E1.
    destruct (k =? n - S ones) eqn:E2.
    + apply Nat.eqb_eq in E2. rewrite E2, Nat.sub_diag. reflexivity.
    + apply Nat.eqb_neq in E2.
      destruct (k - (n - S ones)) as [| j] eqn:Ej; [lia |].
      cbn [nth]. apply nth_repeat_lt. lia.
Qed.

Lemma bdim_one_l (n d : nat) : bdim 1 n = Some d -> d = n.
Proof. intros H. apply bdim_cases in H. lia. Qed.

Lemma bdim_one_r (n d : nat) : bdim n 1 = Some d -> d = n.
Proof. intros H. apply bdim_cases in H. lia. Qed.

(** The comparison of line 245 before it is expanded: the positions along
    the sequence axis against the lengths along the batch axis. *)
Lemma positions_against_lengths (dim b s T L : nat) :
  b < dim -> s < dim -> b <> s ->
  exists R,
    broadcast_shapes (T :: repeat 1 (dim - (s + 1))) (L :: repeat 1 (dim - (b + 1)))
      = Some R /\
    length R = Nat.max (dim - s) (dim - b) /\
    nth (length R - (dim - b)) R 0 = L.
Proof.
  intros Hb Hs Hne.
  set (I := T :: repeat 1 (dim - (s + 1))). set (S' := L :: repeat 1 (dim - (b + 1))).
  assert (LI : length I = dim - s) by (unfold I; simpl; rewrite repeat_length; lia).
  assert (LS : length S' = dim - b) by (unfold S'; simpl; rewrite repeat_length; lia).
  set (n := Nat.max (dim - s) (dim - b)).
  assert (En : n = Nat.max (dim - s) (dim - b)) by reflexivity. clearbody n.
  assert (Hd : forall k, k < n ->
            dim_in n I k = (if k =? n - (dim - s) then T else 1) /\
            dim_in n S' k = (if k =? n - (dim - b) then L else 1)).
  { intros k Hk. split.
    - unfold I. rewrite dim_in_lead by lia.
      replace (n - S (dim - (s + 1))) with (n - (dim - s)) by lia. reflexivity.
    - unfold S'. rewrite dim_in_lead by lia.
      replace (n - S (dim - (b + 1))) with (n - (dim - b)) by lia. reflexivity. }
  assert (Hex : exists R, broadcast_shapes I S' = Some R).
  { unfold broadcast_shapes. rewrite LI, LS, <- En. apply bzip_exists.
    - rewrite !length_pad_left; lia.
    - intros k Hk. rewrite length_pad_left in Hk by lia.
      fold (dim_in n I k). fold (dim_in n S' k).
      destruct (Hd k Hk) as [-> ->]. apply bdim_some.
      destruct (k =? n - (dim - s)) eqn:E1; destruct (k =? n - (dim - b)) eqn:E2; auto.
      apply Nat.eqb_eq in E1, E2. lia. }
  destruct Hex as [R HR]. exists R. split; [exact HR |].
  apply broadcast_shapes_spec in HR as (LR & HR). rewrite LI, LS, <- En in LR.
  split; [congruence |].
  specialize (HR (n - (dim - b)) ltac:(lia)). rewrite LR in HR |- *.
  destruct (Hd (n - (dim - b)) ltac:(lia)) as [E1 E2]. rewrite E1, E2 in HR.
  rewrite Nat.eqb_refl in HR.
  destruct (n - (dim - b) =? n - (dim - s)) eqn:E; [apply Nat.eqb_eq in E; lia |].
  now apply bdim_one_l.
Qed.

Lemma lt_float_valid (t len : nat) :
  t < len -> Norm.lt_float (Norm.of_nat t) (Norm.of_nat len) = 1%Q.
Proof.
  intros H. unfold Norm.lt_float, Norm.of_nat.
  destruct (Qle_bool (inject_Z (Z.of_nat len)) (inject_Z (Z.of_nat t))) eqn:E; [| reflexivity].
  apply Qle_bool_iff in E. rewrite <- Zle_Qle in E. lia.
Qed.

Lemma mask_of_full_lengths (nm : Norm.t) (x : tensor) :
  Norm.batch_axis nm < length (shape x) -> Norm.sequence_axis nm < length (shape x) ->
  mask_of nm x (Some (repeat (nth (Norm.sequence_axis nm) (shape x) 0)
                        (nth (Norm.batch_axis nm) (shape x) 0)))
  = mask_of nm x None.
Proof.
  intros Hb Hs. unfold mask_of. apply tabulate_ext. intros i Hi.
  unfold mask_at. apply valid_index_nth in Hi as [_ Hi].
  rewrite nth_repeat_lt by now apply Hi.
  apply lt_float_valid. now apply Hi.
Qed.

End MaskFacts.

(** ** Rows of a batch *)

Module RowMoreFacts.

Import Tensor TensorFacts NormSpec Stats NormFacts Rows RowFacts.
Open Scope nat_scope.

(** An entry of a tensor, read in its row. *)
Lemma tget_row (t : tensor) (n : nat) (rest : list nat) (b : nat) (r : list nat) :
  shape t = n :: rest -> valid_index rest r ->
  tget t (b :: r) = nth (ravel rest r) (row t b) 0%Q.
Proof.
  intros Es Hr. unfold tget, row, row_size. rewrite Es. cbn [ravel tl].
  pose proof (ravel_lt rest r Hr) as Hlt.
  rewrite nth_firstn.
  assert (E : (ravel rest r <? numel rest) = true) by now apply Nat.ltb_lt.
  rewrite E. now rewrite nth_skipn.
Qed.

(** Row [b] of a tabulated tensor. *)
Lemma row_tabulate (n : nat) (rest : list nat) (F : list nat -> Q) (b : nat) :
  b < n ->
  row (tabulate (n :: rest) F) b = map (fun r => F (b :: r)) (indices rest).
Proof.
  intros Hb. unfold row, row_size, tabulate. cbn [shape data tl indices].
  assert (E : map F (flat_map (fun k => map (cons k) (indices rest)) (seq 0 n))
              = flat_map (fun k => map (fun r => F (k :: r)) (indices rest)) (seq 0 n)).
  { induction (seq 0 n) as [| k l IH]; simpl; [reflexivity |].
    now rewrite map_app, map_map, IH. }
  rewrite E.
  rewrite (chunk_flat_map (fun k => map (fun r => F (k :: r)) (indices rest))
             (numel rest) (seq 0 n) 0).
  - now rewrite seq_nth.
  - apply Forall_forall. intros k _. now rewrite length_map, length_indices.
  - now rewrite length_seq.
Qed.

Lemma data_tabulate_row (rest : list nat) (F : list nat -> Q) :
  data (tabulate (1 :: rest) F) = map (fun r => F (0 :: r)) (indices rest).
Proof.
  unfold tabulate. cbn [data indices seq flat_map]. now rewrite app_nil_r, map_map.
Qed.

(** A parameter that broadcasts into single rows is read at the same
    position in every row. *)
Lemma bidx_row (a rest : list nat) (b : nat) (r : list nat) :
  fits a (1 :: rest) -> length r = length rest ->
  bidx a (b :: r) = bidx a (0 :: r).
Proof.
  intros (F1 & F2) Lr. unfold bidx. cbn [length] in *.
  destruct (Nat.eq_dec (length a) (S (length rest))) as [E | E].
  - rewrite Lr, E, Nat.sub_diag. cbn [skipn].
    destruct a as [| d a']; [reflexivity |]. cbn [bclip].
    destruct (F2 0 ltac:(simpl; lia)) as [H | H]; cbn [nth] in H.
    + now rewrite H.
    + rewrite E, Nat.sub_diag in H. cbn [nth Nat.add] in H. now rewrite H.
  - destruct (S (length r) - length a) as [| k] eqn:Ek; [lia |]. reflexivity.
Qed.

Lemma proj_row (ax : list nat) (b : nat) (r : list nat) :
  mem 0 ax = true \/ b = 0 -> proj ax (b :: r) = proj ax (0 :: r).
Proof.
  intros H. unfold proj. cbn [mapi_from].
  destruct (mem 0 ax) eqn:E; [reflexivity |].
  destruct H as [H | ->]; [discriminate | reflexivity].
Qed.

Lemma tget_gather_one (x : tensor) (n : nat) (rest : list nat) (b : nat) (r : list nat) :
  shape x = n :: rest -> valid_index rest r ->
  tget (gather x [b]) (0 :: r) = tget x (b :: r).
Proof.
  intros Es Hr.
  rewrite (tget_row x n rest b r Es Hr).
  unfold tget, gather. rewrite Es. cbn [shape data tl ravel flat_map length].
  now rewrite app_nil_r.
Qed.

Lemma stat_axes_rows (nm : Norm.t) (n m : nat) (rest : list nat) :
  stat_axes nm (n :: rest) = stat_axes nm (m :: rest).
Proof. reflexivity. Qed.

Lemma mask_at_row (nm : Norm.t) (sl : option (list nat)) (b : nat) (r : list nat) :
  Norm.batch_axis nm = 0 -> Norm.sequence_axis nm <> 0 ->
  mask_at nm (CondSpec.lengths_of sl [b]) (0 :: r) = mask_at nm sl (b :: r).
Proof.
  intros Hb Hs. unfold mask_at, CondSpec.lengths_of. destruct sl as [l |]; [| reflexivity].
  cbn [option_map map]. rewrite Hb. cbn [nth].
  destruct (Norm.sequence_axis nm) as [| s]; [congruence | reflexivity].
Qed.

Lemma affine_at_row (ls lsh : option tensor) (rest : list nat) (v : Q) (b : nat)
    (r : list nat) :
  param_fits ls (1 :: rest) = true -> param_fits lsh (1 :: rest) = true ->
  length r = length rest ->
  affine_at ls lsh v (b :: r) = affine_at ls lsh v (0 :: r).
Proof.
  intros F1 F2 Lr. apply param_fits_inv in F1, F2. unfold affine_at.
  destruct ls as [s |], lsh as [t |];
    rewrite ?(bidx_row (shape s) rest b r F1 Lr), ?(bidx_row (shape t) rest b r F2 Lr);
    reflexivity.
Qed.

Section Replay.

Variable fsqrt : Q -> Q.
Variable nm : Norm.t.
Variable x : tensor.
Variable sl : option (list nat).
Variables (n : nat) (rest : list nat) (b : nat).

Hypothesis x_shape : shape x = n :: rest.
Hypothesis b_row : b < n.
Hypothesis batch_first : Norm.batch_axis nm = 0.
Hypothesis sequence_later : Norm.sequence_axis nm <> 0.
Hypothesis tracked : Norm.track_running_stats nm = true.
Hypothesis replaying : estimating nm = false.
Hypothesis accepts_batch : accepts nm (n :: rest) sl = true.
Hypothesis accepts_row : accepts nm (1 :: rest) (CondSpec.lengths_of sl [b]) = true.

Lemma batch_reduced : mem 0 (stat_axes nm (n :: rest)) = true \/ b = 0.
Proof.
  pose proof (accepts_inv _ _ _ accepts_batch) as (_ & _ & _ & A4 & _).
  pose proof (accepts_inv _ _ _ accepts_row) as (_ & _ & _ & B4 & _).
  destruct (A4 tracked) as (A & _). destruct (B4 tracked) as (B & _).
  apply has_shape_inv in A as (c & Ec & Sc). apply has_shape_inv in B as (c' & Ec' & Sc').
  rewrite Ec in Ec'. injection Ec' as <-. rewrite Sc in Sc'.
  unfold stat_shape, reduce_shape in Sc'. rewrite (stat_axes_rows nm 1 n) in Sc'.
  cbn [mapi_from] in Sc'. injection Sc' as E.
  destruct (mem 0 (stat_axes nm (n :: rest))); [now left | right; lia].
Qed.

Lemma normalized_row (r : list nat) :
  valid_index rest r ->
  tget (normalized fsqrt nm (gather x [b]) (CondSpec.lengths_of sl [b])) (0 :: r) =
  tget (normalized fsqrt nm x sl) (b :: r).
Proof.
  intros Hr. unfold normalized. rewrite replaying.
  destruct (Norm.running_mean nm) as [rm |];
    [| now apply (tget_gather_one x n rest)].
  destruct (Norm.num_tracked_values nm) as [cnt |];
    [| now apply (tget_gather_one x n rest)].
  unfold standardize. rewrite x_shape.
  assert (Sg : shape (gather x [b]) = 1 :: rest)
    by (unfold gather; cbn [shape length]; now rewrite x_shape).
  rewrite Sg.
  rewrite !tget_tabulate by (constructor; [lia | exact Hr]).
  rewrite (tget_gather_one x n rest b r x_shape Hr).
  rewrite (stat_axes_rows nm 1 n).
  rewrite (proj_row (stat_axes nm (n :: rest)) b r batch_reduced).
  reflexivity.
Qed.

Lemma forward_out_row :
  data (forward_out fsqrt nm (gather x [b]) (CondSpec.lengths_of sl [b])) =
  row (forward_out fsqrt nm x sl) b.
Proof.
  unfold forward_out. rewrite x_shape.
  assert (Sg : shape (gather x [b]) = 1 :: rest)
    by (unfold gather; cbn [shape length]; now rewrite x_shape).
  rewrite Sg, data_tabulate_row, (row_tabulate n rest _ b b_row).
  apply map_ext_in. intros r Hr. apply In_indices in Hr.
  pose proof (accepts_inv _ _ _ accepts_row) as (_ & _ & _ & _ & F1 & F2).
  rewrite (normalized_row r Hr), (mask_at_row nm sl b r batch_first sequence_later).
  rewrite (affine_at_row _ _ rest _ b r F1 F2 (valid_index_length _ _ Hr)).
  reflexivity.
Qed.

End Replay.

End RowMoreFacts.

(** ** More on [ConditionedNorm] *)

Module CondMoreFacts.

Import Tensor TensorFacts NormSpec NormFacts InitFacts Rows RowFacts SortFacts Examples Valid.
Import ConditionedNorm.
Open Scope nat_scope.

Lemma mapM_const {A B : Type} (r : Py.result B) (l : list A) :
  Norm.mapM (fun _ => r) l =
  match l with
  | [] => Py.Ok []
  | _ :: _ => b <- r ;; Py.Ok (repeat b (length l))
  end.
Proof.
  induction l as [| a l IH]; [reflexivity |].
  cbn [Norm.mapM]. rewrite IH. destruct r as [b | e]; [| reflexivity].
  cbn [Py.bind]. destruct l; reflexivity.
Qed.

(** Lines 333-336: [reverse_idx] is the inverse of the permutation
    [sort_idx]. *)
Lemma reverse_idx_spec (conds : list nat) :
  exists r,
    put (map (fun _ => 0) (seq 0 (length conds))) (argsort conds) (seq 0 (length conds))
      = Py.Ok r /\
    length r = length conds /\
    Forall (fun i => i < length conds) r /\
    (forall k, k < length conds -> nth (nth k (argsort conds) 0) r 0 = k) /\
    (forall p, p < length conds -> nth (nth p r 0) (argsort conds) 0 = p).
Proof.
  set (n := length conds). set (S := argsort conds).
  pose proof (argsort_perm conds) as P. fold S n in P.
  assert (LS : length S = n) by (rewrite (Permutation_length P); apply length_seq).
  assert (NS : NoDup S).
  { apply (Permutation_NoDup (Permutation_sym P)). apply seq_NoDup. }
  assert (BS : Forall (fun i => i < n) S).
  { apply Forall_forall. intros i Hi. apply (Permutation_in _ P) in Hi.
    apply in_seq in Hi. lia. }
  destruct (put_each_spec S (map (fun _ => 0) (seq 0 n)) (seq 0 n))
    as (r & Er & Lr & R1 & R2).
  { exact NS. }
  { now rewrite length_map, length_seq. }
  { now rewrite length_seq. }
  rewrite length_map, length_seq in Lr.
  assert (Hinv : forall p, p < n -> exists k, k < n /\ nth k S 0 = p /\ nth p r 0 = k).
  { intros p Hp.
    assert (Hin : In p S).
    { apply (Permutation_in _ (Permutation_sym P)). apply in_seq. lia. }
    apply (In_nth _ _ 0) in Hin as (k & Hk & E).
    exists k. split; [lia |]. split; [exact E |].
    rewrite <- E. rewrite R1 by exact Hk. apply seq_nth. lia. }
  exists r. split; [| split; [exact Lr | split; [| split]]].
  - unfold put. now rewrite length_seq, LS, Nat.eqb_refl.
  - apply Forall_forall. intros v Hv.
    apply (In_nth _ _ 0) in Hv as (p & Hp & <-). rewrite Lr in Hp.
    destruct (Hinv p Hp) as (k & Hk & _ & ->). exact Hk.
  - intros k Hk. rewrite R1 by lia. apply seq_nth. lia.
  - intros p Hp. destruct (Hinv p Hp) as (k & Hk & E & ->). exact E.
Qed.

Lemma sorted_conditions (conds : list nat) :
  StronglySorted le (map (fun i => nth i conds 0) (argsort conds)).
Proof.
  pose proof (sort_by_sorted (fun i => nth i conds 0) (seq 0 (length conds))) as Hs.
  fold (argsort conds) in Hs.
  induction Hs as [| i l Hs IH Hi]; simpl; constructor; [exact IH |].
  apply Forall_forall. intros c Hc. apply in_map_iff in Hc as (j & <- & Hj).
  rewrite Forall_forall in Hi. apply (Hi j Hj).
Qed.

Lemma rebuffered_refl (nm : Norm.t) : rebuffered nm nm.
Proof.
  exists (Norm.num_tracked_values nm), (Norm.running_mean nm), (Norm.running_power nm).
  now destruct nm.
Qed.

Lemma rebuffered_trans (a b c : Norm.t) : rebuffered a b -> rebuffered b c -> rebuffered a c.
Proof. intros (c1 & m1 & p1 & ->) (c2 & m2 & p2 & ->). now exists c2, m2, p2. Qed.

Lemma forward_rebuffered (fsqrt : Q -> Q) (nm nm' : Norm.t) (x out : tensor)
    (sl : option (list nat)) :
  Norm.forward fsqrt nm x sl = Py.Ok (out, nm') -> rebuffered nm nm'.
Proof.
  intros H. apply NormClaims.forward_cases in H as [(_ & _ & H) | ->];
    [exact H | apply rebuffered_refl].
Qed.

Lemma apply_norms_frame (fsqrt : Q -> Q) (x : tensor) (sl : option (list nat))
    (groups : list (nat * list nat)) :
  forall norms0 ys norms1,
    apply_norms fsqrt norms0 x sl groups = Py.Ok (ys, norms1) ->
    length norms1 = length norms0 /\
    length ys = length groups /\
    forall i, rebuffered (nth i norms0 no_norm) (nth i norms1 no_norm).
Proof.
  induction groups as [| [c idx] groups IH]; intros norms0 ys norms1 H.
  - injection H as <- <-. repeat split. intros i. apply rebuffered_refl.
  - cbn [apply_norms] in H.
    bind_as H nm Enm. bind_as H xc Hxc. bind_as H slc Esl. bind_as H r Er.
    destruct r as [y nm']. bind_as H norms2 En2. bind_as H r2 Er2.
    destruct r2 as [ys2 norms3]. injection H as <- <-.
    apply (get_item_inv norms0 c nm no_norm) in Enm as [Hc Enm].
    apply set_item_inv in En2 as (_ & L2 & H2).
    apply IH in Er2 as (L3 & Ly & H3).
    apply forward_rebuffered in Er.
    split; [congruence |]. split; [simpl; congruence |].
    intros i. apply rebuffered_trans with (b := nth i norms2 no_norm); [| apply H3].
    rewrite H2. destruct (i =? c) eqn:E.
    + apply Nat.eqb_eq in E. subst i. now rewrite Enm.
    + apply rebuffered_refl.
Qed.

Lemma sortedb_repeat (c n : nat) : sortedb (repeat c n) = true.
Proof.
  induction n as [| n IH]; [reflexivity |].
  cbn [repeat sortedb]. destruct n as [| n]; [reflexivity |].
  cbn [repeat] in *. now rewrite Nat.leb_refl, IH.
Qed.

(** On a batch of equal conditions the identity is a sort. *)
Lemma identity_sorts_equal_conditions (c n : nat) :
  is_argsort (repeat c n) (seq 0 n) = true.
Proof.
  unfold is_argsort. rewrite !andb_true_iff. repeat split.
  - rewrite length_seq, repeat_length. apply Nat.eqb_refl.
  - apply forallb_forall. intros i Hi. apply in_seq in Hi.
    rewrite repeat_length. apply Nat.ltb_lt. lia.
  - apply NoDup_nodupb. apply seq_NoDup.
  - pose proof (map_nth_seq (repeat c n)) as E. rewrite repeat_length in E.
    rewrite E. apply sortedb_repeat.
Qed.

Lemma rows_of_repeat (c n : nat) : CondSpec.rows_of (repeat c n) (seq 0 n) c = seq 0 n.
Proof.
  unfold CondSpec.rows_of.
  rewrite (filter_ext_in' _ (fun _ => true)).
  - clear. induction (seq 0 n) as [| a l IH]; simpl; [reflexivity | now rewrite IH].
  - intros i Hi. apply in_seq in Hi. rewrite nth_repeat_lt by lia. apply Nat.eqb_refl.
Qed.

Lemma lengths_of_all (sl : option (list nat)) (n : nat) :
  CondSpec.lengths_ok sl n = true -> CondSpec.lengths_of sl (seq 0 n) = sl.
Proof.
  destruct sl as [l |]; simpl; [| reflexivity]. intros H. apply Nat.eqb_eq in H.
  subst n. now rewrite map_nth_seq.
Qed.

End CondMoreFacts.

(** ** Properties of the construction, of resetting and of the mask *)

Module ConstructionProps.

Import Tensor TensorFacts NormSpec Stats NormFacts Examples MoreExamples Descriptor.
Import InitFacts ResetFacts MaskFacts.
Open Scope nat_scope.

(** X1.  What [Norm.__init__] establishes (lines 134-177). Of an instance it
    returns: the batch, sequence and statistics axes are positions of
    [data_format]; the module is in training mode; if running statistics are
    tracked, the batch axis is one of the statistics axes, the count and the
    running mean are zero tensors of one shape, and the running power is a
    tensor of ones of that shape when [scale] is true and absent otherwise; if
    they are not tracked, the three buffers are absent; with
    [independent_axis=None] there is no learnable scale or shift. *)
Theorem init_establishes_axes_and_buffers (a : Norm.args) (nm : Norm.t) :
  Norm.init a = Py.Ok nm ->
  Norm.batch_axis nm < String.length (Norm.a_data_format a) /\
  Norm.sequence_axis nm < String.length (Norm.a_data_format a) /\
  Forall (fun d => d < String.length (Norm.a_data_format a)) (Norm.statistics_axis nm) /\
  Norm.training nm = true /\
  (Norm.track_running_stats nm = true ->
   In (Norm.batch_axis nm) (Norm.statistics_axis nm) /\
   exists rs,
     Norm.num_tracked_values nm = Some (full rs 0%Q) /\
     Norm.running_mean nm = Some (full rs 0%Q) /\
     Norm.running_power nm =
       (if Norm.truthy (Norm.scale nm) then Some (full rs 1%Q) else None)) /\
  (Norm.track_running_stats nm = false ->
   Norm.num_tracked_values nm = None /\ Norm.running_mean nm = None /\
   Norm.running_power nm = None) /\
  (Norm.a_independent_axis a = None ->
   Norm.learnable_scale nm = None /\ Norm.learnable_shift nm = None).
Proof.
  intros H.
  apply init_inv in H
    as (batch & seq & stats & count & mean & power & lscale & lshift
        & Hb & Hs & Hst & Hbuf & Haff & ->).
  cbn [Norm.batch_axis Norm.sequence_axis Norm.statistics_axis Norm.training
       Norm.track_running_stats Norm.num_tracked_values Norm.running_mean
       Norm.running_power Norm.scale Norm.learnable_scale Norm.learnable_shift].
  split; [now apply str_index_lt in Hb |].
  split; [now apply str_index_lt in Hs |].
  pose proof (mapM_spec _ _ _ Hst) as F2.
  split.
  { apply (Forall2_Forall_r _ _ _ _ F2). intros c d Hd. now apply str_index_lt in Hd. }
  split; [reflexivity |].
  split; [| split].
  - intros Ht. rewrite Ht in Hbuf. destruct Hbuf as (rs & _ & -> & -> & ->). split.
    + apply str_contains_In in Ht.
      destruct (Forall2_In_l _ _ _ _ F2 Ht) as (b & Hin & Hb').
      simpl in Hb'. rewrite Hb in Hb'. now injection Hb' as ->.
    + exists rs. auto.
  - intros Ht. rewrite Ht in Hbuf. exact Hbuf.
  - intros Hn. rewrite Hn in Haff. exact Haff.
Qed.

Lemma init_establishes_axes_and_buffers_witness :
  Norm.batch_axis doc_norm < String.length (Norm.a_data_format doc_args) /\
  Norm.sequence_axis doc_norm < String.length (Norm.a_data_format doc_args) /\
  Forall (fun d => d < String.length (Norm.a_data_format doc_args))
    (Norm.statistics_axis doc_norm) /\
  Norm.training doc_norm = true /\
  (Norm.track_running_stats doc_norm = true ->
   In (Norm.batch_axis doc_norm) (Norm.statistics_axis doc_norm) /\
   exists rs,
     Norm.num_tracked_values doc_norm = Some (full rs 0%Q) /\
     Norm.running_mean doc_norm = Some (full rs 0%Q) /\
     Norm.running_power doc_norm =
       (if Norm.truthy (Norm.scale doc_norm) then Some (full rs 1%Q) else None)) /\
  (Norm.track_running_stats doc_norm = false ->
   Norm.num_tracked_values doc_norm = None /\ Norm.running_mean doc_norm = None /\
   Norm.running_power doc_norm = None) /\
  (Norm.a_independent_axis doc_args = None ->
   Norm.learnable_scale doc_norm = None /\ Norm.learnable_shift doc_norm = None).
Proof.
  apply (init_establishes_axes_and_buffers doc_args doc_norm).
  vm_compute. reflexivity.
Defined.

(** X2.  [Scale.__init__] and [Shift.__init__] (lines 260-286), for independent
    axes that are axes of the layout and of the shape descriptor. If one of them
    has no size in the descriptor, both raise [AssertionError]; otherwise
    [scale] is a tensor of ones and [shift] a tensor of zeros, of one shape: as
    many axes as the layout, the declared size on the independent axes and 1 on
    the others. *)
Theorem scale_and_shift_parameters (sh : list (option nat)) (data_format : String.string)
    (independent_axis : String.string) (idx : list nat) :
  Norm.mapM (fun ax => Norm.str_index data_format (Norm.lower ax))
    (String.list_ascii_of_string independent_axis) = Py.Ok idx ->
  Forall (fun d => d < length sh) idx ->
  (Exists (fun d => nth d sh None = None) idx ->
   Norm.Scale_init (Some sh) data_format independent_axis = Py.Raise Py.AssertionError /\
   Norm.Shift_init (Some sh) data_format independent_axis = Py.Raise Py.AssertionError) /\
  (Forall (fun d => nth d sh None <> None) idx ->
   exists rs,
     Norm.Scale_init (Some sh) data_format independent_axis = Py.Ok (full rs 1%Q) /\
     Norm.Shift_init (Some sh) data_format independent_axis = Py.Ok (full rs 0%Q) /\
     length rs = String.length data_format /\
     forall d, d < String.length data_format ->
       nth d rs 0 = if mem d idx then size_of sh d else 1).
Proof.
  intros Hm Hf.
  assert (Hlt : Forall (fun d => d < String.length data_format) idx).
  { apply (Forall2_Forall_r _ _ _ _ (mapM_spec _ _ _ Hm)).
    intros c d Hd. now apply str_index_lt in Hd. }
  split.
  - intros Hex. unfold Norm.Scale_init, Norm.Shift_init.
    rewrite (affine_shape_raises sh data_format _ idx _ Hm); [auto | | exact Hex].
    rewrite Forall_forall in *. intros d Hd. rewrite repeat_length. auto.
  - intros Hc.
    destruct (affine_shape_ok sh data_format _ idx
                (repeat 1 (String.length data_format)) Hm) as (rs & Hrs & L & Hn).
    { rewrite Forall_forall in *. intros d Hd. rewrite repeat_length. auto. }
    exists rs. unfold Norm.Scale_init, Norm.Shift_init. rewrite Hrs. cbn [Py.bind].
    split; [reflexivity |]. split; [reflexivity |].
    rewrite repeat_length in L. split; [exact L |].
    intros d Hd. rewrite Hn. destruct (mem d idx); [reflexivity |].
    now apply nth_repeat_lt.
Qed.

Lemma scale_and_shift_parameters_witness :
  (Exists (fun d => nth d [None; Some 10; None] None = None) [1] ->
   Norm.Scale_init (Some [None; Some 10; None]) "bct" "c" = Py.Raise Py.AssertionError /\
   Norm.Shift_init (Some [None; Some 10; None]) "bct" "c" = Py.Raise Py.AssertionError) /\
  (Forall (fun d => nth d [None; Some 10; None] None <> None) [1] ->
   exists rs,
     Norm.Scale_init (Some [None; Some 10; None]) "bct" "c" = Py.Ok (full rs 1%Q) /\
     Norm.Shift_init (Some [None; Some 10; None]) "bct" "c" = Py.Ok (full rs 0%Q) /\
     length rs = String.length "bct" /\
     forall d, d < String.length "bct" ->
       nth d rs 0 = if mem d [1] then size_of [None; Some 10; None] d else 1).
Proof.
  apply (scale_and_shift_parameters [None; Some 10; None] "bct" "c" [1]).
  - reflexivity.
  - repeat constructor.
Defined.

(** X3.  [__init__] looks the lower-cased axis names up in [data_format] as
    given (lines 136-140); the lower-cased copy of line 135 is not what is
    searched. A layout written in upper-case letters only therefore makes every
    construction (with one-letter axis names) fail with [ValueError], at line
    136. *)
Theorem uppercase_layout_is_rejected (a : Norm.args) :
  (forall c, In c (String.list_ascii_of_string (Norm.a_data_format a)) ->
             is_upper c = true) ->
  Norm.init a = Py.Raise Py.ValueError.
Proof.
  intros H. unfold Norm.init.
  rewrite str_index_raises; [reflexivity |].
  intros Hin. apply H in Hin. rewrite lower_not_upper in Hin. discriminate.
Qed.

Lemma uppercase_layout_is_rejected_witness :
  Norm.init (Norm.mk_args "BCT" (Some [None; Some 10; None]) "bt" (Some "c")
               "b" "t" (Some true) (1 # 100000) (Some (1 # 2)) None)
  = Py.Raise Py.ValueError.
Proof.
  apply (uppercase_layout_is_rejected
           (Norm.mk_args "BCT" (Some [None; Some 10; None]) "bt" (Some "c")
              "b" "t" (Some true) (1 # 100000) (Some (1 # 2)) None)).
  intros c Hc. simpl in Hc.
  repeat (destruct Hc as [<- | Hc]; [reflexivity |]). contradiction.
Defined.

(** X4.  A module that [__init__] returned runs on every input of the declared
    layout. With a shape descriptor of the rank of the layout and statistics
    axes that are pairwise different, any sequence of forward calls, in training
    or in evaluation mode, returns, provided every input has the declared sizes,
    one length per batch entry when lengths are given, and at least one entry
    when a freeze threshold is set; every output has the shape of its input. *)
Theorem constructed_module_runs (fsqrt : Q -> Q) (a : Norm.args) (nm : Norm.t)
    (dsh : list (option nat)) (calls : list (bool * tensor * option (list nat))) :
  Norm.init a = Py.Ok nm ->
  Norm.a_shape a = Some dsh ->
  length dsh = String.length (Norm.a_data_format a) ->
  nodupb (Norm.statistics_axis nm) = true ->
  Forall (fun c =>
            describes dsh (shape (snd (fst c))) = true /\
            CondSpec.lengths_ok (snd c)
              (nth (Norm.batch_axis nm) (shape (snd (fst c))) 0) = true /\
            (Norm.a_n_freeze a <> None -> numel (shape (snd (fst c))) <> 0)) calls ->
  exists outs nm',
    Calls.run fsqrt nm calls = Py.Ok (outs, nm') /\
    map shape outs = map (fun c => shape (snd (fst c))) calls.
Proof.
  intros Hi Hsh Hlen Hnd Hc.
  destruct (run_accepted fsqrt calls nm) as (outs & nm' & E & Hs & _).
  - eapply Forall_impl; [| exact Hc]. intros c (H1 & H2 & H3).
    now apply (init_accepts a nm dsh).
  - exists outs, nm'. auto.
Qed.

Lemma constructed_module_runs_witness :
  exists outs nm',
    Calls.run qsqrt doc_norm
      [(true, doc_x, Some doc_seq_len); (false, full [2; 10; 7] 1%Q, None)]
      = Py.Ok (outs, nm') /\
    map shape outs =
    map (fun c : bool * tensor * option (list nat) => shape (snd (fst c)))
      [(true, doc_x, Some doc_seq_len); (false, full [2; 10; 7] 1%Q, None)].
Proof.
  apply (constructed_module_runs qsqrt doc_args doc_norm [None; Some 10; None]).
  - vm_compute. reflexivity.
  - reflexivity.
  - reflexivity.
  - reflexivity.
  - repeat constructor; try reflexivity; intros H; vm_compute; discriminate.
Defined.

(** X5.  [reset_running_stats] and [reset_parameters] on a module just
    constructed. With running statistics tracked and [scale=False] both raise
    [AttributeError]: the test of line 191 lets [fill_] be called on the buffer
    that line 156 left absent. In every other configuration both return, and the
    module is what it was: buffers and parameters already hold their initial
    values. *)
Theorem reset_of_constructed_module (a : Norm.args) (nm : Norm.t) :
  Norm.init a = Py.Ok nm ->
  (Norm.track_running_stats nm = true -> Norm.scale nm = Some false ->
   Norm.reset_running_stats nm = Py.Raise Py.AttributeError /\
   Norm.reset_parameters nm = Py.Raise Py.AttributeError) /\
  (Norm.track_running_stats nm = false \/ Norm.scale nm <> Some false ->
   Norm.reset_running_stats nm = Py.Ok nm /\
   Norm.reset_parameters nm = Py.Ok nm).
Proof.
  intros H.
  apply init_inv in H
    as (batch & seq & stats & count & mean & power & lscale & lshift
        & Hb & Hs & Hst & Hbuf & Haff & ->).
  assert (Hl : option_map (fun p => full_like p 1%Q) lscale = lscale /\
               option_map (fun p => full_like p 0%Q) lshift = lshift).
  { destruct (Norm.a_independent_axis a) as [ia |].
    - destruct Haff as (sc & sf & Hsc & Hsf & -> & ->).
      unfold Norm.Scale_init in Hsc. unfold Norm.Shift_init in Hsf.
      bind_inv Hsc. injection Hsc as <-. bind_inv Hsf. injection Hsf as <-.
      split; reflexivity.
    - destruct Haff as [-> ->]. split; reflexivity. }
  destruct Hl as [Hl1 Hl2].
  unfold Norm.reset_parameters, Norm.reset_running_stats.
  cbn [Norm.track_running_stats Norm.scale Norm.running_mean Norm.num_tracked_values
       Norm.running_power].
  destruct (Norm.str_contains (Norm.a_statistics_axis a) (Norm.a_batch_axis a)).
  - destruct Hbuf as (rs & _ & -> & -> & ->). cbn [Norm.attr Py.bind]. split.
    + intros _ ->. cbn [Norm.is_not_None Norm.truthy Norm.attr Py.bind]. auto.
    + intros [Hf | Hsc]; [discriminate |].
      destruct (Norm.a_scale a) as [[|] |]; [| congruence |];
        cbn [Norm.is_not_None Norm.truthy Norm.attr Py.bind];
        unfold Norm.set_affine, Norm.set_buffers;
        cbn [Norm.data_format Norm.batch_axis Norm.sequence_axis Norm.statistics_axis
             Norm.scale Norm.eps Norm.track_running_stats Norm.num_tracked_values
             Norm.running_mean Norm.running_power Norm.momentum Norm.learnable_scale
             Norm.learnable_shift Norm.n_freeze Norm.training];
        rewrite Hl1, Hl2; split; reflexivity.
  - destruct Hbuf as (-> & -> & ->). split; [discriminate |]. intros _.
    cbn [Py.bind]. unfold Norm.set_affine.
    cbn [Norm.data_format Norm.batch_axis Norm.sequence_axis Norm.statistics_axis
         Norm.scale Norm.eps Norm.track_running_stats Norm.num_tracked_values
         Norm.running_mean Norm.running_power Norm.momentum Norm.learnable_scale
         Norm.learnable_shift Norm.n_freeze Norm.training].
    rewrite Hl1, Hl2. split; reflexivity.
Qed.

Lemma reset_of_constructed_module_witness :
  (Norm.track_running_stats doc_norm = true -> Norm.scale doc_norm = Some false ->
   Norm.reset_running_stats doc_norm = Py.Raise Py.AttributeError /\
   Norm.reset_parameters doc_norm = Py.Raise Py.AttributeError) /\
  (Norm.track_running_stats doc_norm = false \/ Norm.scale doc_norm <> Some false ->
   Norm.reset_running_stats doc_norm = Py.Ok doc_norm /\
   Norm.reset_parameters doc_norm = Py.Ok doc_norm).
Proof.
  apply (reset_of_constructed_module doc_args doc_norm).
  vm_compute. reflexivity.
Defined.

(** X6.  [reset_parameters] undoes what forward calls did: after any sequence of
    forward calls that return, it gives what it gives on the module before the
    calls, put in the mode the calls left it in -- the same module or the same
    error. (A forward call replaces each buffer by one of the same shape and
    changes nothing else.) *)
Theorem reset_forgets_forward_calls (fsqrt : Q -> Q) (nm nm' : Norm.t)
    (calls : list (bool * tensor * option (list nat))) (outs : list tensor) :
  Calls.run fsqrt nm calls = Py.Ok (outs, nm') ->
  Norm.reset_parameters nm' =
  Norm.reset_parameters (Norm.train (Norm.training nm') nm).
Proof.
  intros H. rewrite <- (run_reset fsqrt calls nm outs nm' H (Norm.training nm')).
  now destruct nm'.
Qed.

Lemma reset_forgets_forward_calls_witness :
  Norm.reset_parameters
    (forward_state (Norm.train false (forward_state doc_norm doc_x (Some doc_seq_len)))
       doc_x None) =
  Norm.reset_parameters
    (Norm.train
       (Norm.training
          (forward_state (Norm.train false (forward_state doc_norm doc_x (Some doc_seq_len)))
             doc_x None))
       doc_norm).
Proof.
  apply (reset_forgets_forward_calls qsqrt doc_norm _
           [(true, doc_x, Some doc_seq_len); (false, doc_x, None)]
           [forward_out qsqrt doc_norm doc_x (Some doc_seq_len);
            forward_out qsqrt
              (Norm.train false (forward_state doc_norm doc_x (Some doc_seq_len)))
              doc_x None]).
  vm_compute. reflexivity.
Defined.

(** X7.  [compute_mask] with a list of lengths, the batch axis and the sequence
    axis being two different axes of the input. A list whose length is neither
    the batch size nor one makes the expansion of line 245 fail with
    [RuntimeError]. A list of one length is accepted for any batch size, and
    that one length is used for every batch entry. *)
Theorem compute_mask_checks_lengths (nm : Norm.t) (x : tensor) (seq_len : list nat) :
  Norm.batch_axis nm < length (shape x) ->
  Norm.sequence_axis nm < length (shape x) ->
  Norm.batch_axis nm <> Norm.sequence_axis nm ->
  (length seq_len <> nth (Norm.batch_axis nm) (shape x) 0 -> length seq_len <> 1 ->
   Norm.compute_mask nm x (Some seq_len) = Py.Raise Py.RuntimeError) /\
  (length seq_len = 1 ->
   exists mask,
     Norm.compute_mask nm x (Some seq_len) = Py.Ok mask /\ shape mask = shape x /\
     forall i, valid_index (shape x) i ->
       tget mask i =
       Norm.lt_float (Norm.of_nat (nth (Norm.sequence_axis nm) i 0))
         (Norm.of_nat (nth 0 seq_len 0))).
Proof.
  intros Hb Hs Hne. set (sh := shape x) in *.
  unfold Norm.compute_mask. fold sh.
  rewrite (get_item_ok sh (Norm.sequence_axis nm) 0) by exact Hs. cbn [Py.bind].
  set (I := nth (Norm.sequence_axis nm) sh 0 :: repeat 1 (length sh - (Norm.sequence_axis nm + 1))).
  set (S' := length seq_len :: repeat 1 (length sh - (Norm.batch_axis nm + 1))).
  destruct (positions_against_lengths (length sh) (Norm.batch_axis nm)
              (Norm.sequence_axis nm) (nth (Norm.sequence_axis nm) sh 0) (length seq_len)
              Hb Hs Hne) as (R & HR & LR & HL).
  fold I S' in HR.
  rewrite (tbin_ok _ _ _ R) by exact HR. cbn [Py.bind shape tabulate].
  split.
  - intros H1 H2. unfold expand. cbn [shape tabulate].
    destruct (broadcast_shapes R sh) as [sh2 |] eqn:E; [| reflexivity].
    destruct (shape_eqb sh2 sh) eqn:E2; [| reflexivity].
    exfalso. apply shape_eqb_true in E2. subst sh2.
    apply broadcast_fits_l in E as (F1 & F2).
    destruct (F2 (length R - (length sh - Norm.batch_axis nm)) ltac:(lia)) as [F | F];
      rewrite HL in F; [lia |].
    replace (length sh - length R + (length R - (length sh - Norm.batch_axis nm)))
      with (Norm.batch_axis nm) in F by lia.
    lia.
  - intros H1.
    assert (FI : fits I sh) by (apply fits_lead with (p := Norm.sequence_axis nm); auto).
    assert (FS : fits S' sh).
    { split; unfold S'; simpl; rewrite repeat_length; [lia |].
      intros [| j] Hj; left; [exact H1 | simpl; apply nth_repeat_lt; lia]. }
    destruct (broadcast_join I S' sh FI FS) as (R' & HR' & FR).
    rewrite HR in HR'. injection HR' as <-.
    rewrite expand_ok by exact FR.
    eexists. split; [reflexivity |]. split; [reflexivity |].
    intros i Hi. cbn [shape tabulate]. rewrite tget_tabulate by exact Hi.
    pose proof (valid_index_length _ _ Hi) as Li.
    pose proof FR as (LR' & _).
    rewrite tget_tabulate by (apply valid_bidx with (r := sh); assumption).
    rewrite (bidx_bidx I R i) by (try lia; eapply broadcast_fits_l; eassumption).
    rewrite (bidx_bidx S' R i) by (try lia; eapply broadcast_fits_r; eassumption).
    rewrite !tget_tabulate by (apply valid_bidx with (r := sh); assumption).
    apply valid_index_nth in Hi as (_ & Hi).
    assert (LI : length I = length sh - Norm.sequence_axis nm)
      by (unfold I; simpl; rewrite repeat_length; lia).
    assert (LS : length S' = length sh - Norm.batch_axis nm)
      by (unfold S'; simpl; rewrite repeat_length; lia).
    assert (E1 : hd 0 (bidx I i) = nth (Norm.sequence_axis nm) i 0).
    { rewrite hd_bidx; rewrite ?Li, ?LI; try lia.
      - f_equal. lia.
      - replace (length sh - (length sh - Norm.sequence_axis nm))
          with (Norm.sequence_axis nm) by lia.
        unfold I. simpl. now apply Hi. }
    assert (E2 : hd 0 (bidx S' i) = 0).
    { assert (E : hd 0 (bidx S' i) = nth 0 (bidx S' i) 0).
      { pose proof (length_bidx S' i ltac:(lia)) as L.
        destruct (bidx S' i); [simpl in L; lia | reflexivity]. }
      rewrite E, nth_bidx by lia. unfold S'. cbn [nth]. now rewrite H1. }
    now rewrite E1, E2.
Qed.

Lemma compute_mask_checks_lengths_witness :
  (length [2; 1] <> nth (Norm.batch_axis doc_norm) (shape doc_x) 0 -> length [2; 1] <> 1 ->
   Norm.compute_mask doc_norm doc_x (Some [2; 1]) = Py.Raise Py.RuntimeError) /\
  (length [2; 1] = 1 ->
   exists mask,
     Norm.compute_mask doc_norm doc_x (Some [2; 1]) = Py.Ok mask /\
     shape mask = shape doc_x /\
     forall i, valid_index (shape doc_x) i ->
       tget mask i =
       Norm.lt_float (Norm.of_nat (nth (Norm.sequence_axis doc_norm) i 0))
         (Norm.of_nat (nth 0 [2; 1] 0))).
Proof.
  apply (compute_mask_checks_lengths doc_norm doc_x [2; 1]).
  - vm_compute. lia.
  - vm_compute. lia.
  - vm_compute. lia.
Defined.

End ConstructionProps.

(** ** Properties of the statistics *)

Module StatisticsProps.

Import Tensor TensorFacts NormSpec Stats NormFacts Valid Examples MoreExamples.
Import InitFacts StatFacts.
Import NormClaims.
Open Scope Q_scope.



(** X9.  The variance that the estimate branch puts under the square root (lines
    207-209) is never negative, in exact arithmetic and on an input that matches
    the instance: the mean of the squares of the valid entries is at least the
    square of their mean (Cauchy-Schwarz), also where the divisor is clamped. *)
Theorem estimated_variance_is_nonnegative (nm : Norm.t) (x : tensor)
    (seq_len : option (list nat)) :
  accepts nm (shape x) seq_len = true ->
  Norm.truthy (Norm.scale nm) = true ->
  exists mask mean power n_values var,
    Norm.compute_mask nm x seq_len = Py.Ok mask /\
    Norm.compute_stats nm x mask = Py.Ok (mean, Some power, n_values) /\
    Norm.variance n_values power mean = Py.Ok var /\
    shape var = stat_shape nm (shape x) /\
    forall j, valid_index (shape var) j -> 0 <= tget var j.
Proof.
  intros Ha Hs. pose proof (accepts_inv _ _ _ Ha) as (A1 & A2 & A3 & _).
  set (mask := mask_of nm x seq_len).
  exists mask, (mean_of nm x mask), (power_of nm x mask), (count_of nm mask).
  eexists.
  split; [now apply compute_mask_closed |].
  split.
  { rewrite (compute_stats_closed nm x mask) by (try assumption; reflexivity).
    now rewrite Hs. }
  split; [apply variance_closed; reflexivity |].
  split; [reflexivity |].
  intros j Hj. cbn [shape tabulate count_of] in Hj.
  rewrite tget_tabulate by exact Hj.
  unfold count_of, power_of, mean_of. cbn [mask mask_of shape tabulate] in Hj |- *.
  rewrite !tget_tabulate by exact Hj. subst mask.
  rewrite (var_at_proper _ _ _ _ _ _
             (count_at_valid nm x seq_len j)
             (moment_at_valid nm (fun v => v * v) x seq_len j square_proper ltac:(cbv beta; ring))
             (moment_at_valid nm (fun v => v) x seq_len j ltac:(auto) (Qeq_refl _))).
  unfold var_at.
  pose proof (clamped_divisors (valid_count nm (shape x) seq_len j)) as [_ Hc].
  apply Qmult_le_0_compat.
  - apply Qle_shift_div_l; lra.
  - rewrite !valid_sum_map, valid_count_map.
    rewrite map_id.
    apply moments_nonneg; [apply fmax_ge_r | apply fmax_ge_l].
Qed.

Lemma estimated_variance_is_nonnegative_witness :
  exists mask mean power n_values var,
    Norm.compute_mask doc_norm doc_x (Some doc_seq_len) = Py.Ok mask /\
    Norm.compute_stats doc_norm doc_x mask = Py.Ok (mean, Some power, n_values) /\
    Norm.variance n_values power mean = Py.Ok var /\
    shape var = stat_shape doc_norm (shape doc_x) /\
    forall j, valid_index (shape var) j -> 0 <= tget var j.
Proof.
  apply (estimated_variance_is_nonnegative doc_norm doc_x (Some doc_seq_len)).
  - vm_compute. reflexivity.
  - reflexivity.
Defined.

(** X10.  With running statistics tracked, a forward call on an input that
    matches the instance adds to the count buffer the number of valid positions
    of each window when it takes the estimate branch (line 211), and leaves the
    buffer as it is in the replay branch; no entry of the count ever decreases. *)
Theorem count_accumulates_valid_positions (fsqrt : Q -> Q) (nm : Norm.t) (x : tensor)
    (seq_len : option (list nat)) :
  Norm.track_running_stats nm = true ->
  accepts nm (shape x) seq_len = true ->
  exists out nm' cnt cnt' est,
    Norm.forward fsqrt nm x seq_len = Py.Ok (out, nm') /\
    Norm.estimate_mode nm = Py.Ok est /\
    Norm.num_tracked_values nm = Some cnt /\
    Norm.num_tracked_values nm' = Some cnt' /\
    shape cnt' = shape cnt /\
    forall j, valid_index (shape cnt) j ->
      tget cnt' j ==
        tget cnt j + (if est then valid_count nm (shape x) seq_len j else 0) /\
      tget cnt j <= tget cnt' j.
Proof.
  intros Ht Ha.
  pose proof (accepts_inv _ _ _ Ha) as (_ & _ & _ & A4 & _).
  destruct (A4 Ht) as (B1 & _ & _ & B4).
  assert (Hem : Norm.estimate_mode nm = Py.Ok (estimating nm)).
  { apply estimate_mode_closed. intros _ Hn. now apply B4. }
  destruct (estimating nm) eqn:He.
  - destruct (training_update nm x seq_len Ha Ht He)
      as (cnt & rm & Ec & Er & Sc & Sr & Ef & Ec' & Er' & _ & Hj).
    eexists _, _, cnt, _, true.
    split; [now apply forward_closed |]. split; [exact Hem |].
    split; [exact Ec |]. split; [exact Ec' |]. split; [reflexivity |].
    intros j Hv. rewrite Sc in Hv. destruct (Hj j Hv) as [-> _].
    rewrite (count_at_valid nm x seq_len j).
    split; [reflexivity |].
    pose proof (of_nat_nonneg (length (valid_positions nm (shape x) seq_len j))) as Hn.
    unfold valid_count. lra.
  - apply has_shape_inv in B1 as (cnt & Ec & Sc).
    eexists _, _, cnt, cnt, false.
    split; [now apply forward_closed |]. split; [exact Hem |].
    split; [exact Ec |].
    assert (Ef : forward_state nm x seq_len = nm) by (unfold forward_state; now rewrite He).
    rewrite Ef. split; [exact Ec |]. split; [reflexivity |].
    intros j Hv. split; [ring | lra].
Qed.

Lemma count_accumulates_valid_positions_witness :
  exists out nm' cnt cnt' est,
    Norm.forward qsqrt doc_norm doc_x (Some doc_seq_len) = Py.Ok (out, nm') /\
    Norm.estimate_mode doc_norm = Py.Ok est /\
    Norm.num_tracked_values doc_norm = Some cnt /\
    Norm.num_tracked_values nm' = Some cnt' /\
    shape cnt' = shape cnt /\
    forall j, valid_index (shape cnt) j ->
      tget cnt' j ==
        tget cnt j
        + (if est then valid_count doc_norm (shape doc_x) (Some doc_seq_len) j else 0) /\
      tget cnt j <= tget cnt' j.
Proof.
  apply (count_accumulates_valid_positions qsqrt doc_norm doc_x (Some doc_seq_len)).
  - reflexivity.
  - vm_compute. reflexivity.
Defined.





(** X13.  Finite values in the padding reach neither the statistics nor the
    valid entries. Two inputs of one shape, with finite entries, that match the
    instance and agree on the valid positions give outputs that agree at every
    valid position and running statistics that agree, for every square-root
    function that maps equal rationals to equal rationals. ([compute_stats]
    multiplies by the mask before it sums, line 252.) *)
Theorem finite_padding_is_ignored (fsqrt : Q -> Q) (nm : Norm.t) (x x' : tensor)
    (seq_len : option (list nat)) :
  (forall a b, a == b -> fsqrt a == fsqrt b) ->
  accepts nm (shape x) seq_len = true ->
  shape x' = shape x ->
  (forall i, valid_index (shape x) i -> validb nm seq_len i = true ->
             tget x' i == tget x i) ->
  exists out nm1 out' nm1',
    Norm.forward fsqrt nm x seq_len = Py.Ok (out, nm1) /\
    Norm.forward fsqrt nm x' seq_len = Py.Ok (out', nm1') /\
    shape out' = shape out /\
    (forall i, valid_index (shape out) i -> validb nm seq_len i = true ->
               tget out' i == tget out i) /\
    same_entries (Norm.num_tracked_values nm1) (Norm.num_tracked_values nm1') /\
    same_entries (Norm.running_mean nm1) (Norm.running_mean nm1') /\
    same_entries (Norm.running_power nm1) (Norm.running_power nm1').
Proof.
  intros Hf Ha Hs Hx.
  exists (forward_out fsqrt nm x seq_len), (forward_state nm x seq_len),
    (forward_out fsqrt nm x' seq_len), (forward_state nm x' seq_len).
  split; [now apply forward_closed |].
  split; [apply forward_closed; now rewrite Hs |].
  split; [unfold forward_out; cbn [shape tabulate]; exact Hs |].
  split; [intros i Hi _; now apply forward_out_agree |].
  now apply forward_state_agree.
Qed.

Lemma finite_padding_is_ignored_witness :
  exists out nm1 out' nm1',
    Norm.forward rsqrt doc_norm doc_x (Some doc_seq_len) = Py.Ok (out, nm1) /\
    Norm.forward rsqrt doc_norm padded_x (Some doc_seq_len) = Py.Ok (out', nm1') /\
    shape out' = shape out /\
    (forall i, valid_index (shape out) i -> validb doc_norm (Some doc_seq_len) i = true ->
               tget out' i == tget out i) /\
    same_entries (Norm.num_tracked_values nm1) (Norm.num_tracked_values nm1') /\
    same_entries (Norm.running_mean nm1) (Norm.running_mean nm1') /\
    same_entries (Norm.running_power nm1) (Norm.running_power nm1').
Proof.
  apply (finite_padding_is_ignored rsqrt doc_norm doc_x padded_x (Some doc_seq_len)).
  - exact rsqrt_proper.
  - vm_compute. reflexivity.
  - reflexivity.
  - intros i Hi Hv. unfold padded_x, doc_x, full.
    rewrite !tget_tabulate by exact Hi.
    unfold validb in Hv. cbn [Norm.sequence_axis Norm.batch_axis doc_norm] in Hv.
    now rewrite Hv.
Defined.

(** X14.  Without running statistics (the batch axis is not a statistics axis)
    the condition of line 203 holds in either mode: [forward] in evaluation mode
    gives what it gives in training mode, and it leaves the module as it is. *)
Theorem untracked_forward_ignores_mode (fsqrt : Q -> Q) (nm : Norm.t) (x : tensor)
    (seq_len : option (list nat)) (mode : bool) :
  Norm.track_running_stats nm = false ->
  Norm.forward fsqrt (Norm.train mode nm) x seq_len =
  (r <- Norm.forward fsqrt nm x seq_len ;; Py.Ok (fst r, Norm.train mode nm)) /\
  forall out nm', Norm.forward fsqrt nm x seq_len = Py.Ok (out, nm') -> nm' = nm.
Proof.
  intros Ht. split.
  - unfold Norm.forward.
    change (Norm.compute_mask (Norm.train mode nm) x seq_len)
      with (Norm.compute_mask nm x seq_len).
    destruct (Norm.compute_mask nm x seq_len) as [mask |]; [| reflexivity].
    cbn [Py.bind].
    rewrite (estimate_mode_untracked nm Ht).
    rewrite (estimate_mode_untracked (Norm.train mode nm)) by exact Ht.
    cbn [Py.bind]. unfold Norm.estimate.
    change (Norm.compute_stats (Norm.train mode nm) x mask)
      with (Norm.compute_stats nm x mask).
    destruct (Norm.compute_stats nm x mask) as [[[mean power] n] |]; [| reflexivity].
    cbn [Py.bind].
    destruct (tbin Qminus x mean) as [x1 |]; [| reflexivity]. cbn [Py.bind].
    cbn [Norm.train Norm.scale Norm.track_running_stats]. rewrite Ht.
    change (Norm.normalize fsqrt (Norm.train mode nm)) with (Norm.normalize fsqrt nm).
    destruct (if Norm.truthy (Norm.scale nm)
              then power0 <- Norm.attr power ;;
                   var <- Norm.variance n power0 mean ;; Norm.normalize fsqrt nm x1 var
              else Py.Ok x1) as [x2 |]; [| reflexivity].
    cbn [Py.bind Norm.train Norm.learnable_scale Norm.learnable_shift].
    destruct (Norm.affine (Norm.learnable_scale nm) (Norm.learnable_shift nm) x2)
      as [x3 |]; [| reflexivity].
    cbn [Py.bind]. destruct (tbin Qmult x3 mask); reflexivity.
  - intros out nm' H. apply NormClaims.forward_cases in H as [(_ & Ht' & _) | H];
      [congruence | exact H].
Qed.

Lemma untracked_forward_ignores_mode_witness :
  Norm.forward qsqrt (Norm.train false instance_norm) doc_x (Some doc_seq_len) =
  (r <- Norm.forward qsqrt instance_norm doc_x (Some doc_seq_len) ;;
   Py.Ok (fst r, Norm.train false instance_norm)) /\
  forall out nm',
    Norm.forward qsqrt instance_norm doc_x (Some doc_seq_len) = Py.Ok (out, nm') ->
    nm' = instance_norm.
Proof.
  apply (untracked_forward_ignores_mode qsqrt instance_norm doc_x (Some doc_seq_len) false).
  reflexivity.
Defined.

(** X15.  On a module just constructed the learnable scale is one and the
    learnable shift is zero, so lines 230-233 ([Scale.forward], then
    [Shift.forward]) return their input: the same shape and equal entries. *)
Theorem fresh_affine_is_identity (a : Norm.args) (nm : Norm.t) (y : tensor) :
  Norm.init a = Py.Ok nm ->
  param_fits (Norm.learnable_scale nm) (shape y) = true ->
  param_fits (Norm.learnable_shift nm) (shape y) = true ->
  exists y',
    Norm.affine (Norm.learnable_scale nm) (Norm.learnable_shift nm) y = Py.Ok y' /\
    shape y' = shape y /\
    forall i, valid_index (shape y) i -> tget y' i == tget y i.
Proof.
  intros Hi F1 F2.
  apply param_fits_inv in F1, F2.
  destruct (affine_ok _ _ y F1 F2) as (y' & E & Sy & Hy).
  exists y'. split; [exact E |]. split; [exact Sy |].
  intros i Hv. rewrite (Hy i Hv).
  apply init_inv in Hi
    as (batch & sq & stats & count & mean & power & ls & lsh & _ & _ & _ & _ & Haff & ->).
  cbn [Norm.learnable_scale Norm.learnable_shift] in *.
  destruct (Norm.a_independent_axis a) as [ia |].
  - destruct Haff as (sc & sf & Hsc & Hsf & -> & ->).
    unfold Norm.Scale_init in Hsc. unfold Norm.Shift_init in Hsf.
    bind_inv Hsc. injection Hsc as <-. bind_inv Hsf. injection Hsf as <-.
    cbn [shape full tabulate] in F1, F2.
    unfold affine_at, full. cbn [shape tabulate].
    rewrite !tget_tabulate by (eapply valid_bidx; eassumption).
    ring.
  - destruct Haff as [-> ->]. reflexivity.
Qed.

Lemma fresh_affine_is_identity_witness :
  exists y',
    Norm.affine (Norm.learnable_scale doc_norm) (Norm.learnable_shift doc_norm) doc_x
      = Py.Ok y' /\
    shape y' = shape doc_x /\
    forall i, valid_index (shape doc_x) i -> tget y' i == tget doc_x i.
Proof.
  apply (fresh_affine_is_identity doc_args doc_norm doc_x).
  - vm_compute. reflexivity.
  - vm_compute. reflexivity.
  - vm_compute. reflexivity.
Defined.

End StatisticsProps.

(** ** Properties of the forward pass *)

Module ForwardProps.

Import Tensor TensorFacts NormSpec Stats NormFacts Rows RowFacts RowMoreFacts MaskFacts.
Import Examples MoreExamples.
Open Scope nat_scope.

(** X16.  Giving every batch entry the full length of the sequence axis is the
    same as giving no lengths: on an input that matches the instance and has its
    batch and sequence axes, [forward] returns the same tensor and the same
    module. *)
Theorem full_lengths_are_no_lengths (fsqrt : Q -> Q) (nm : Norm.t) (x : tensor) :
  Norm.batch_axis nm < length (shape x) ->
  Norm.sequence_axis nm < length (shape x) ->
  accepts nm (shape x) None = true ->
  exists out nm',
    Norm.forward fsqrt nm x None = Py.Ok (out, nm') /\
    Norm.forward fsqrt nm x
      (Some (repeat (nth (Norm.sequence_axis nm) (shape x) 0)
               (nth (Norm.batch_axis nm) (shape x) 0)))
    = Py.Ok (out, nm').
Proof.
  intros Hb Hs Ha.
  set (full_len := repeat (nth (Norm.sequence_axis nm) (shape x) 0)
                     (nth (Norm.batch_axis nm) (shape x) 0)).
  assert (Ha' : accepts nm (shape x) (Some full_len) = true).
  { unfold accepts in *. rewrite !andb_true_iff in *.
    destruct Ha as (((((H1 & H2) & _) & H4) & H5) & H6).
    repeat split; try assumption.
    - now apply Nat.ltb_lt.
    - now apply Nat.ltb_lt.
    - unfold full_len. rewrite repeat_length. apply Nat.eqb_refl. }
  exists (forward_out fsqrt nm x None), (forward_state nm x None).
  split; [now apply forward_closed |].
  rewrite (forward_closed fsqrt nm x (Some full_len) Ha').
  pose proof (mask_of_full_lengths nm x Hb Hs) as Em. fold full_len in Em.
  f_equal. f_equal.
  - unfold forward_out, normalized. rewrite Em. apply tabulate_ext. intros i Hi.
    assert (E : mask_at nm (Some full_len) i = mask_at nm None i).
    { pose proof (f_equal (fun t => tget t i) Em) as E. cbv beta in E.
      unfold mask_of in E. now rewrite !tget_tabulate in E by exact Hi. }
    now rewrite E.
  - unfold forward_state. now rewrite Em.
Qed.

Lemma full_lengths_are_no_lengths_witness :
  exists out nm',
    Norm.forward qsqrt doc_norm doc_x None = Py.Ok (out, nm') /\
    Norm.forward qsqrt doc_norm doc_x
      (Some (repeat (nth (Norm.sequence_axis doc_norm) (shape doc_x) 0)
               (nth (Norm.batch_axis doc_norm) (shape doc_x) 0)))
    = Py.Ok (out, nm').
Proof.
  apply (full_lengths_are_no_lengths qsqrt doc_norm doc_x).
  - vm_compute. lia.
  - vm_compute. lia.
  - vm_compute. reflexivity.
Defined.

(** X17.  In the replay branch (evaluation mode, or frozen) with the batch axis
    first, each example is normalised on its own: the forward call on row [b]
    alone, with its length, returns row [b] of what the call on the whole batch
    returns, the batch and the row matching the instance. (In the estimate
    branch the rows of a batch share their statistics.) *)
Theorem evaluation_is_row_by_row (fsqrt : Q -> Q) (nm : Norm.t) (x : tensor)
    (seq_len : option (list nat)) (n : nat) (rest : list nat) (b : nat) :
  shape x = n :: rest ->
  b < n ->
  Norm.batch_axis nm = 0 ->
  Norm.sequence_axis nm <> 0 ->
  Norm.track_running_stats nm = true ->
  Norm.estimate_mode nm = Py.Ok false ->
  accepts nm (n :: rest) seq_len = true ->
  accepts nm (1 :: rest) (CondSpec.lengths_of seq_len [b]) = true ->
  exists out row_out,
    Norm.forward fsqrt nm x seq_len = Py.Ok (out, nm) /\
    Norm.forward fsqrt nm (gather x [b]) (CondSpec.lengths_of seq_len [b]) = Py.Ok (row_out, nm) /\
    shape row_out = 1 :: rest /\
    data row_out = row out b.
Proof.
  intros Es Hb Hba Hsa Ht He Ha Hr.
  assert (Hest : estimating nm = false).
  { pose proof (accepts_inv _ _ _ Ha) as (_ & _ & _ & A4 & _).
    rewrite estimate_mode_closed in He by (intros T N; now apply A4).
    now injection He. }
  assert (Sg : shape (gather x [b]) = 1 :: rest)
    by (unfold gather; cbn [shape length]; now rewrite Es).
  assert (Hst : forall y s, forward_state nm y s = nm)
    by (intros y s; unfold forward_state; now rewrite Hest).
  exists (forward_out fsqrt nm x seq_len),
    (forward_out fsqrt nm (gather x [b]) (CondSpec.lengths_of seq_len [b])).
  split; [| split; [| split]].
  - rewrite forward_closed by (rewrite Es; exact Ha). now rewrite Hst.
  - rewrite forward_closed by (rewrite Sg; exact Hr). now rewrite Hst.
  - unfold forward_out. cbn [shape tabulate]. exact Sg.
  - now apply (forward_out_row fsqrt nm x seq_len n rest b).
Qed.

Lemma evaluation_is_row_by_row_witness :
  exists out row_out,
    Norm.forward qsqrt (Norm.train false doc_norm) doc_x (Some doc_seq_len)
      = Py.Ok (out, Norm.train false doc_norm) /\
    Norm.forward qsqrt (Norm.train false doc_norm) (gather doc_x [1])
      (CondSpec.lengths_of (Some doc_seq_len) [1]) = Py.Ok (row_out, Norm.train false doc_norm) /\
    shape row_out = [1; 10; 4] /\
    data row_out = row out 1.
Proof.
  apply (evaluation_is_row_by_row qsqrt (Norm.train false doc_norm) doc_x
           (Some doc_seq_len) 3 [10; 4] 1).
  - reflexivity.
  - lia.
  - reflexivity.
  - vm_compute. lia.
  - reflexivity.
  - vm_compute. reflexivity.
  - vm_compute. reflexivity.
  - vm_compute. reflexivity.
Defined.

End ForwardProps.

(** ** Properties of [ConditionedNorm] *)

Module CondProps.

Import Tensor TensorFacts NormSpec Stats NormFacts InitFacts Rows RowFacts SortFacts.
Import RowMoreFacts CondFacts Examples MoreExamples CondMoreFacts.
Import ConditionedNorm.
Open Scope nat_scope.

(** X18.  [ConditionedNorm.__init__] (lines 303-330). With [n_conditions = 0] it
    raises [IndexError] at [self.norms[0]]; an error of [Norm.__init__] is
    passed on; a layout whose batch axis is not the first axis fails the
    assertion of line 315; and when it returns there is at least one condition,
    and every condition has the same freshly constructed [Norm], which has the
    batch axis first and no learnable scale or shift of its own. *)
Theorem conditioned_init_outcomes (a : ConditionedNorm.args) :
  (a_n_conditions a = 0 -> ConditionedNorm.init a = Py.Raise Py.IndexError) /\
  (forall e, 0 < a_n_conditions a -> Norm.init (norm_args a) = Py.Raise e ->
             ConditionedNorm.init a = Py.Raise e) /\
  (forall nm, 0 < a_n_conditions a -> Norm.init (norm_args a) = Py.Ok nm ->
              Norm.batch_axis nm <> 0 ->
              ConditionedNorm.init a = Py.Raise Py.AssertionError) /\
  (forall cn, ConditionedNorm.init a = Py.Ok cn ->
     0 < a_n_conditions a /\
     n_conditions cn = a_n_conditions a /\
     exists nm,
       Norm.init (norm_args a) = Py.Ok nm /\
       norms cn = repeat nm (a_n_conditions a) /\
       Norm.batch_axis nm = 0 /\
       Norm.learnable_scale nm = None /\ Norm.learnable_shift nm = None).
Proof.
  unfold ConditionedNorm.init. rewrite mapM_const.
  destruct (a_n_conditions a) as [| n] eqn:En; cbn [seq].
  - split; [reflexivity |]. split; [intros; lia |]. split; [intros; lia |].
    intros cn H. discriminate.
  - split; [discriminate |].
    destruct (Norm.init (norm_args a)) as [nm | e] eqn:Ei; cbn [Py.bind].
    + cbn [length repeat Norm.get_item nth_error Py.bind].
      split; [discriminate |]. split.
      * intros nm' _ [= <-] Hb. apply Nat.eqb_neq in Hb. now rewrite Hb.
      * intros cn H.
        destruct (Norm.batch_axis nm =? 0) eqn:Eb; [| discriminate].
        cbn [Py.assert Py.bind] in H. bind_inv H. destruct a0 as [lscale lshift].
        injection H as <-. cbn [n_conditions norms].
        split; [lia |]. split; [reflexivity |].
        exists nm. split; [reflexivity |]. rewrite length_seq.
        split; [reflexivity |]. split; [now apply Nat.eqb_eq |].
        apply init_inv in Ei
          as (batch & sq & stats & count & mean & power & ls & lsh & _ & _ & _ & _ & Haff & ->).
        cbn [norm_args Norm.a_independent_axis] in Haff. destruct Haff as [-> ->].
        split; reflexivity.
    + split; [intros e' _ [= <-]; reflexivity |]. split; [discriminate | discriminate].
Qed.

(** X19.  An empty batch is rejected: without rows there is no condition, and
    [torch.cat] of no tensors (line 345) raises [RuntimeError], whatever the
    module and the lengths. *)
Theorem conditioned_forward_rejects_empty_batch (fsqrt : Q -> Q) (cn : ConditionedNorm.t)
    (x : tensor) (rest : list nat) (seq_len : option (list nat)) :
  shape x = 0 :: rest ->
  ConditionedNorm.forward fsqrt cn x [] seq_len = Py.Raise Py.RuntimeError.
Proof.
  intros Es. unfold ConditionedNorm.forward, ConditionedNorm.forward_sorted. rewrite Es.
  cbn [Norm.get_item nth_error Py.bind seq map].
  change (argsort []) with (@nil nat).
  cbn [put length Nat.eqb put_each Py.bind].
  unfold index0. rewrite Es. cbn [forallb Py.bind].
  assert (E : option_take seq_len [] = Py.Ok (option_map (fun _ => []) seq_len))
    by (destruct seq_len; reflexivity).
  rewrite E. reflexivity.
Qed.

Lemma conditioned_forward_rejects_empty_batch_witness :
  ConditionedNorm.forward qsqrt cond_norm (full [0; 1; 2] 0%Q) [] (Some [])
  = Py.Raise Py.RuntimeError.
Proof.
  apply (conditioned_forward_rejects_empty_batch qsqrt cond_norm (full [0; 1; 2] 0%Q)
           [1; 2] (Some [])).
  reflexivity.
Defined.

(** X20.  Lines 333-340 and 355. [sort_idx] is a permutation of the row numbers
    that puts the conditions in non-decreasing order; row [k] of the sorted
    batch is row [sort_idx[k]] of the input, with its condition; and indexing
    the sorted batch with [reverse_idx] gives the input back. *)
Theorem sort_and_restore_rows (x : tensor) (rest : list nat) (conditions : list nat) :
  wf x ->
  shape x = length conditions :: rest ->
  exists reverse_idx sorted_x sorted_conditions,
    put (map (fun _ => 0) (seq 0 (length conditions))) (argsort conditions)
      (seq 0 (length conditions)) = Py.Ok reverse_idx /\
    index0 x (argsort conditions) = Py.Ok sorted_x /\
    take conditions (argsort conditions) = Py.Ok sorted_conditions /\
    StronglySorted le sorted_conditions /\
    Permutation (argsort conditions) (seq 0 (length conditions)) /\
    (forall k, k < length conditions ->
       row sorted_x k = row x (nth k (argsort conditions) 0) /\
       nth k sorted_conditions 0 = nth (nth k (argsort conditions) 0) conditions 0) /\
    index0 sorted_x reverse_idx = Py.Ok x.
Proof.
  intros Hw Es.
  set (n := length conditions) in *. set (S := argsort conditions).
  destruct (reverse_idx_spec conditions) as (r & Er & Lr & Br & R1 & R2).
  fold n S in Er, Lr, Br, R1, R2.
  pose proof (argsort_perm conditions) as P. fold S n in P.
  assert (LS : length S = n) by (rewrite (Permutation_length P); apply length_seq).
  assert (BS : Forall (fun i => i < n) S).
  { apply Forall_forall. intros i Hi. apply (Permutation_in _ P) in Hi.
    apply in_seq in Hi. lia. }
  exists r, (gather x S), (map (fun i => nth i conditions 0) S).
  split; [exact Er |].
  split; [now apply (index0_ok x n rest) |].
  split; [apply take_ok; exact BS |].
  split; [apply sorted_conditions |].
  split; [exact P |].
  split.
  { intros k Hk. split.
    - apply (row_gather x n rest Hw Es S k BS). lia.
    - rewrite (nth_indep _ 0 (nth 0 conditions 0)) by (rewrite length_map; lia).
      now rewrite (map_nth (fun i => nth i conditions 0)). }
  rewrite (index0_ok (gather x S) n rest).
  - f_equal. rewrite (gather_gather x n rest Hw Es) by (rewrite ?LS; assumption).
    assert (Em : map (fun k => nth k S 0) r = seq 0 n).
    { apply nth_ext with (d := 0) (d' := 0); [now rewrite length_map, length_seq |].
      intros p Hp. rewrite length_map, Lr in Hp.
      rewrite (nth_indep _ 0 (nth 0 S 0)) by (rewrite length_map; lia).
      rewrite (map_nth (fun k => nth k S 0)). rewrite R2 by exact Hp.
      symmetry. apply seq_nth. exact Hp. }
    rewrite Em. apply (gather_all x n rest Hw Es).
  - now rewrite (shape_gather x n rest Es), LS.
  - exact Br.
Qed.

Lemma sort_and_restore_rows_witness :
  exists reverse_idx sorted_x sorted_conditions,
    put (map (fun _ => 0%nat) (seq 0 (length cond_conditions))) (argsort cond_conditions)
      (seq 0 (length cond_conditions)) = Py.Ok reverse_idx /\
    index0 group_x (argsort cond_conditions) = Py.Ok sorted_x /\
    take cond_conditions (argsort cond_conditions) = Py.Ok sorted_conditions /\
    StronglySorted le sorted_conditions /\
    Permutation (argsort cond_conditions) (seq 0 (length cond_conditions)) /\
    (forall k, (k < length cond_conditions)%nat ->
       row sorted_x k = row group_x (nth k (argsort cond_conditions) 0%nat) /\
       nth k sorted_conditions 0%nat
       = nth (nth k (argsort cond_conditions) 0%nat) cond_conditions 0%nat) /\
    index0 sorted_x reverse_idx = Py.Ok group_x.
Proof.
  apply (sort_and_restore_rows group_x [1; 1]%nat cond_conditions).
  - reflexivity.
  - reflexivity.
Defined.

(** X21.  A call of [ConditionedNorm.forward] that returns leaves [n_conditions]
    and the shared learnable scale and shift as they are, keeps the number of
    normalisers, and changes at most the three buffers of each normaliser. *)
Theorem conditioned_forward_frame (fsqrt : Q -> Q) (cn cn' : ConditionedNorm.t)
    (x out : tensor) (conditions : list nat) (seq_len : option (list nat)) :
  ConditionedNorm.forward fsqrt cn x conditions seq_len = Py.Ok (out, cn') ->
  n_conditions cn' = n_conditions cn /\
  learnable_scale cn' = learnable_scale cn /\
  learnable_shift cn' = learnable_shift cn /\
  length (norms cn') = length (norms cn) /\
  forall i, exists count rmean rpower,
    nth i (norms cn') no_norm =
    Norm.set_buffers (nth i (norms cn) no_norm) count rmean rpower.
Proof.
  unfold ConditionedNorm.forward, ConditionedNorm.forward_sorted. intros H.
  bind_as H n En. bind_as H ridx Eridx. bind_as H xs Exs. bind_as H sls Esl.
  bind_as H cs Ecs. bind_as H r Er. destruct r as [ys norms1].
  bind_as H xc Hxc. bind_as H xr Exr. bind_as H x1 Ex1. bind_as H x2 Ex2.
  injection H as <- <-. cbn [n_conditions learnable_scale learnable_shift norms].
  apply apply_norms_frame in Er as (L & _ & Hf).
  repeat split; try reflexivity; [exact L |].
  intros i. apply Hf.
Qed.

Lemma conditioned_forward_frame_witness :
  n_conditions (snd group_call) = n_conditions group_norm /\
  learnable_scale (snd group_call) = learnable_scale group_norm /\
  learnable_shift (snd group_call) = learnable_shift group_norm /\
  length (norms (snd group_call)) = length (norms group_norm) /\
  forall i, exists count rmean rpower,
    nth i (norms (snd group_call)) no_norm =
    Norm.set_buffers (nth i (norms group_norm) no_norm) count rmean rpower.
Proof.
  apply (conditioned_forward_frame qsqrt group_norm (snd group_call) group_x
           (fst group_call) group_conditions None).
  vm_compute. reflexivity.
Defined.

(** X22.  A batch that matches the module and whose rows all have condition
    [c], when the sort of line 334 leaves its rows in place (as an insertion
    sort does, which numpy runs on short arrays), is handled as by the
    normaliser of [c] alone: [ConditionedNorm.forward], without shared affine
    step, returns the tensor that [Norm.forward] of that normaliser returns on
    the whole batch, leaves it in the state after that call, and leaves the
    other normalisers as they are. *)
Theorem single_condition_is_plain_norm (fsqrt : Q -> Q) (cn : ConditionedNorm.t)
    (x : tensor) (c : nat) (seq_len : option (list nat)) :
  CondSpec.accepts cn x (repeat c (nrows x)) seq_len = true ->
  exists out cn',
    ConditionedNorm.forward_sorted fsqrt (seq 0 (nrows x)) cn x (repeat c (nrows x)) seq_len
      = Py.Ok (out, cn') /\
    Norm.forward fsqrt (nth c (norms cn) no_norm) x seq_len
      = Py.Ok (out, nth c (norms cn') no_norm) /\
    forall c', c' <> c -> nth c' (norms cn') no_norm = nth c' (norms cn) no_norm.
Proof.
  intros Ha.
  destruct (forward_groups fsqrt cn x _ (seq 0 (nrows x)) seq_len
              (identity_sorts_equal_conditions c (nrows x)) Ha)
    as (out & norms' & E & So & Wo & _ & Hg & Hrest).
  destruct (batch_accepts_inv cn x _ seq_len Ha)
    as (n & rest & Es & Hw & Hn & Hc & Hl & Hlt & Ht & _).
  assert (En : nrows x = n) by (unfold nrows; now rewrite Es).
  rewrite En in *.
  assert (Hcin : In c (repeat c n)) by (destruct n; [congruence | now left]).
  destruct (Hg c Hcin) as [Eg Est].
  rewrite rows_of_repeat in Eg, Est. unfold group_out in Eg.
  rewrite rows_of_repeat in Eg.
  rewrite (gather_all x n rest Hw Es), (lengths_of_all seq_len n Hl) in Eg, Est.
  rewrite Es in So. rewrite (gather_all out n rest Wo So) in Eg.
  exists out. eexists. split; [exact E |]. cbn [norms]. split.
  - rewrite forward_closed.
    + now rewrite Eg, Est.
    + rewrite Es. apply takes_rows_accepts; [| exact Hl].
      apply Ht. apply nth_In. rewrite Forall_forall in Hlt. now apply Hlt.
  - intros c' Hne. apply Hrest. intros Hin. apply repeat_spec in Hin. congruence.
Qed.

Lemma single_condition_is_plain_norm_witness :
  exists out cn',
    ConditionedNorm.forward_sorted qsqrt (seq 0 (nrows group_x)) group_norm group_x
      (repeat 1 (nrows group_x)) None = Py.Ok (out, cn') /\
    Norm.forward qsqrt (nth 1 (norms group_norm) no_norm) group_x None
      = Py.Ok (out, nth 1 (norms cn') no_norm) /\
    forall c', c' <> 1 -> nth c' (norms cn') no_norm = nth c' (norms group_norm) no_norm.
Proof.
  apply (single_condition_is_plain_norm qsqrt group_norm group_x 1 None).
  vm_compute. reflexivity.
Defined.

End CondProps.
